(** * Hexapod controller firmware: touch UI core, scheduler and telemetry

    A shallow embedding of the firmware of the hand-held hexapod controller
    (AT90CAN64, avr-gcc) and the properties of its touch debouncer, widget
    model, 10 Hz scheduler loop and telemetry frame.

    Conventions of the embedding:
    - every C integer is a [Z]; each conversion to a narrower or differently
      signed type is written out with the casts of module [CInt];
    - the global variables of the program are the fields of one record,
      [State], and every function takes and returns the state explicitly;
    - an access outside an array and a division by zero are faults of the
      error monad [res], so memory safety can be stated;
    - what the program sends to its peripherals is kept as traces in the
      state: the bytes written to the UART and the display primitives
      called. *)

From Stdlib Require Import ZArith List String Bool Lia.
From stdpp Require Import base list.
Import ListNotations.

Local Open Scope Z_scope.
Local Open Scope bool_scope.

(** ** C integers on the AVR target *)

Module CInt.

(** Unsigned [bits]-bit representative of [z]. *)
Definition wrap_unsigned (bits z : Z) : Z := z mod 2 ^ bits.

(** Signed (two's complement) [bits]-bit representative of [z]. *)
Definition wrap_signed (bits z : Z) : Z :=
  (z + 2 ^ (bits - 1)) mod 2 ^ bits - 2 ^ (bits - 1).

(** Modelled from the spec: compiler.h, which declares U8, S8 and U16, is
    not among the sources.  The three names are taken as the unsigned
    8-bit, signed 8-bit and unsigned 16-bit integer types, which is what
    the spec's "8-bit joystick axis samples" and "16-bit color encoding"
    say of the fields declared with them. *)
Definition to_U8 : Z -> Z := wrap_unsigned 8.
Definition to_S8 : Z -> Z := wrap_signed 8.
Definition to_U16 : Z -> Z := wrap_unsigned 16.

(** [int] and [short] are 16 bits wide on the AVR, [unsigned int] as well.
    A U16 operand therefore does not fit [int] and is promoted to
    [unsigned int]: an arithmetic operation or a comparison with a U16
    operand is carried out on [unsigned int], modulo 2^16. *)
Definition to_int : Z -> Z := wrap_signed 16.
Definition to_short : Z -> Z := wrap_signed 16.
Definition to_uint : Z -> Z := wrap_unsigned 16.

End CInt.
Import CInt.

(** ** Faults and the error monad *)

(** The two ways in which the modelled C code can leave defined behaviour:
    an index outside an array and an integer division by zero. *)
Inductive fault : Type :=
| OutOfBounds (array : string) (index : Z)
| DivisionByZero.

Inductive res (A : Type) : Type :=
| Ok (a : A)
| Fault (f : fault).
Arguments Ok {A} a.
Arguments Fault {A} f.

#[global] Instance res_ret : MRet res := fun A a => Ok a.
#[global] Instance res_bind : MBind res := fun A B k r =>
  match r with
  | Ok a => k a
  | Fault f => Fault f
  end.

(** [arr[i]] as an rvalue. *)
Definition load {A : Type} (name : string) (arr : list A) (i : Z) : res A :=
  if i <? 0 then Fault (OutOfBounds name i)
  else match arr !! Z.to_nat i with
       | Some a => Ok a
       | None => Fault (OutOfBounds name i)
       end.

(** [arr[i].field = v], with [f] the update of the field. *)
Definition store {A : Type} (name : string) (arr : list A) (i : Z)
    (f : A -> A) : res (list A) :=
  a ← load name arr i; Ok (<[Z.to_nat i := f a]> arr).

(** ** Data model *)

(** Colour format is RRRRR GGGGGG BBBBB. *)
Definition BLACK : Z := 0.
Definition RED : Z := 63488.
Definition GREEN : Z := 2016.
Definition BLUE : Z := 31.
Definition WHITE : Z := 65535.
Definition YELLOW : Z := 65504.
Definition D_GRAY : Z := 14567.   (* 0b0011100011100111 *)
Definition L_GRAY : Z := 31727.

(** enum ADCs *)
Abbreviation V_BATT := 0 (only parsing).
Abbreviation LEFT_X := 1 (only parsing).
Abbreviation LEFT_Y := 2 (only parsing).
Abbreviation RIGHT_X := 3 (only parsing).
Abbreviation RIGHT_Y := 4 (only parsing).

(** enum Page *)
Abbreviation MAIN_PAGE := 0 (only parsing).

(** The bits of the control bitfield, first byte of the command message. *)
Definition WIGGLE_BIT : Z := 1.
Definition HIGH_STEP_BIT : Z := 2.
Definition HIGH_BODY_BIT : Z := 4.
Definition QUICK_STEP_BIT : Z := 8.
Definition RIPPLE_BIT : Z := 16.

(** enum Buttons *)
Abbreviation NONE := (-1) (only parsing).
Abbreviation WALK_MODE := 0 (only parsing).
Abbreviation WIGGLE_MODE := 1 (only parsing).
Abbreviation TRIPOD_GAIT := 2 (only parsing).
Abbreviation RIPPLE_GAIT := 3 (only parsing).
Abbreviation LOW_BODY := 4 (only parsing).
Abbreviation HIGH_BODY := 5 (only parsing).
Abbreviation LOW_STEP := 6 (only parsing).
Abbreviation HIGH_STEP := 7 (only parsing).
Abbreviation LONG_STEP := 8 (only parsing).
Abbreviation QUICK_STEP := 9 (only parsing).
Abbreviation RED_EYES := 10 (only parsing).
Abbreviation GREEN_EYES := 11 (only parsing).
Abbreviation BLUE_EYES := 12 (only parsing).
Definition NUM_BUTTONS : Z := 13.

(** enum Sliders *)
Abbreviation FRONT_SERVO := 0 (only parsing).
Abbreviation BACK_SERVO := 1 (only parsing).
Definition NUM_SLIDERS : Z := 2.

Module Button.
Record t : Type := mk {
  x : Z; y : Z; width : Z;          (* U16 *)
  colour : Z;                       (* U16 *)
  text : string;                    (* const char*, the null pointer as "" *)
  highlighted : bool;
  selected : bool;
  needsRedraw : bool;
  page : Z                          (* U8 *)
}.

(** A button of the zero-initialised array. *)
Definition zero : t := mk 0 0 0 0 EmptyString false false false 0.

Definition with_highlighted (v : bool) (b : t) : t :=
  mk (x b) (y b) (width b) (colour b) (text b) v (selected b)
     (needsRedraw b) (page b).
Definition with_selected (v : bool) (b : t) : t :=
  mk (x b) (y b) (width b) (colour b) (text b) (highlighted b) v
     (needsRedraw b) (page b).
Definition with_needsRedraw (v : bool) (b : t) : t :=
  mk (x b) (y b) (width b) (colour b) (text b) (highlighted b)
     (selected b) v (page b).
End Button.

Module Slider.
Record t : Type := mk {
  x : Z; y : Z; width : Z;          (* U16 *)
  colour : Z;                       (* U16 *)
  value : Z; oldValue : Z;          (* S8 *)
  page : Z                          (* U8 *)
}.

(** A slider of the zero-initialised array. *)
Definition zero : t := mk 0 0 0 0 0 0 0.

Definition with_value (v : Z) (sl : t) : t :=
  mk (x sl) (y sl) (width sl) (colour sl) v (oldValue sl) (page sl).
Definition with_oldValue (v : Z) (sl : t) : t :=
  mk (x sl) (y sl) (width sl) (colour sl) (value sl) v (page sl).
End Slider.

(** The calls of the display driver, with their arguments as the driver
    receives them ([unsigned int] coordinates and colours). *)
Inductive DrawCall : Type :=
| TFT_Fill (color : Z)
| TFT_Box (x1 y1 x2 y2 color : Z)
| TFT_Text (S : string) (x y scale Fcolor Bcolor : Z)
| TFT_CentredText (S : string) (x y scale Fcolor Bcolor : Z).

(** The global variables, and the two output traces. *)
Record State : Type := mkState {
  buttons : list Button.t;            (* Button buttons[NUM_BUTTONS] *)
  touchedButton : Z;                  (* S8 *)
  sliders : list Slider.t;            (* Slider sliders[NUM_SLIDERS] *)
  ticks : Z;                          (* short *)
  displayNeedsFullRedraw : bool;
  currentPage : Z;                    (* U8 *)
  touchTimer : Z;                     (* short *)
  touchX : Z; touchY : Z;             (* int *)
  buttonPressed : Z;                  (* S8 *)
  touchedSlider : Z;                  (* S8 *)
  controlBits : Z;                    (* U8 *)
  left_x : Z; left_y : Z; right_x : Z; right_y : Z;   (* uint8_t *)
  controllerSoC : Z;                  (* int *)
  hexapodSoC : Z;                     (* int *)
  uart_tx : list Z;                   (* bytes written to UDR1, oldest first *)
  display : list DrawCall             (* display calls, oldest first *)
}.

Definition with_buttons (v : list Button.t) (s : State) : State :=
  mkState v (touchedButton s) (sliders s) (ticks s)
    (displayNeedsFullRedraw s) (currentPage s) (touchTimer s) (touchX s)
    (touchY s) (buttonPressed s) (touchedSlider s) (controlBits s) (left_x s)
    (left_y s) (right_x s) (right_y s) (controllerSoC s) (hexapodSoC s)
    (uart_tx s) (display s).
Definition with_touchedButton (v : Z) (s : State) : State :=
  mkState (buttons s) v (sliders s) (ticks s)
    (displayNeedsFullRedraw s) (currentPage s) (touchTimer s) (touchX s)
    (touchY s) (buttonPressed s) (touchedSlider s) (controlBits s) (left_x s)
    (left_y s) (right_x s) (right_y s) (controllerSoC s) (hexapodSoC s)
    (uart_tx s) (display s).
Definition with_sliders (v : list Slider.t) (s : State) : State :=
  mkState (buttons s) (touchedButton s) v (ticks s)
    (displayNeedsFullRedraw s) (currentPage s) (touchTimer s) (touchX s)
    (touchY s) (buttonPressed s) (touchedSlider s) (controlBits s) (left_x s)
    (left_y s) (right_x s) (right_y s) (controllerSoC s) (hexapodSoC s)
    (uart_tx s) (display s).
Definition with_ticks (v : Z) (s : State) : State :=
  mkState (buttons s) (touchedButton s) (sliders s) v
    (displayNeedsFullRedraw s) (currentPage s) (touchTimer s) (touchX s)
    (touchY s) (buttonPressed s) (touchedSlider s) (controlBits s) (left_x s)
    (left_y s) (right_x s) (right_y s) (controllerSoC s) (hexapodSoC s)
    (uart_tx s) (display s).
Definition with_displayNeedsFullRedraw (v : bool) (s : State) : State :=
  mkState (buttons s) (touchedButton s) (sliders s) (ticks s)
    v (currentPage s) (touchTimer s) (touchX s)
    (touchY s) (buttonPressed s) (touchedSlider s) (controlBits s) (left_x s)
    (left_y s) (right_x s) (right_y s) (controllerSoC s) (hexapodSoC s)
    (uart_tx s) (display s).
Definition with_touchTimer (v : Z) (s : State) : State :=
  mkState (buttons s) (touchedButton s) (sliders s) (ticks s)
    (displayNeedsFullRedraw s) (currentPage s) v (touchX s)
    (touchY s) (buttonPressed s) (touchedSlider s) (controlBits s) (left_x s)
    (left_y s) (right_x s) (right_y s) (controllerSoC s) (hexapodSoC s)
    (uart_tx s) (display s).
Definition with_touchX (v : Z) (s : State) : State :=
  mkState (buttons s) (touchedButton s) (sliders s) (ticks s)
    (displayNeedsFullRedraw s) (currentPage s) (touchTimer s) v
    (touchY s) (buttonPressed s) (touchedSlider s) (controlBits s) (left_x s)
    (left_y s) (right_x s) (right_y s) (controllerSoC s) (hexapodSoC s)
    (uart_tx s) (display s).
Definition with_touchY (v : Z) (s : State) : State :=
  mkState (buttons s) (touchedButton s) (sliders s) (ticks s)
    (displayNeedsFullRedraw s) (currentPage s) (touchTimer s) (touchX s)
    v (buttonPressed s) (touchedSlider s) (controlBits s) (left_x s)
    (left_y s) (right_x s) (right_y s) (controllerSoC s) (hexapodSoC s)
    (uart_tx s) (display s).
Definition with_buttonPressed (v : Z) (s : State) : State :=
  mkState (buttons s) (touchedButton s) (sliders s) (ticks s)
    (displayNeedsFullRedraw s) (currentPage s) (touchTimer s) (touchX s)
    (touchY s) v (touchedSlider s) (controlBits s) (left_x s)
    (left_y s) (right_x s) (right_y s) (controllerSoC s) (hexapodSoC s)
    (uart_tx s) (display s).
Definition with_touchedSlider (v : Z) (s : State) : State :=
  mkState (buttons s) (touchedButton s) (sliders s) (ticks s)
    (displayNeedsFullRedraw s) (currentPage s) (touchTimer s) (touchX s)
    (touchY s) (buttonPressed s) v (controlBits s) (left_x s)
    (left_y s) (right_x s) (right_y s) (controllerSoC s) (hexapodSoC s)
    (uart_tx s) (display s).
Definition with_controlBits (v : Z) (s : State) : State :=
  mkState (buttons s) (touchedButton s) (sliders s) (ticks s)
    (displayNeedsFullRedraw s) (currentPage s) (touchTimer s) (touchX s)
    (touchY s) (buttonPressed s) (touchedSlider s) v (left_x s)
    (left_y s) (right_x s) (right_y s) (controllerSoC s) (hexapodSoC s)
    (uart_tx s) (display s).
Definition with_left_x (v : Z) (s : State) : State :=
  mkState (buttons s) (touchedButton s) (sliders s) (ticks s)
    (displayNeedsFullRedraw s) (currentPage s) (touchTimer s) (touchX s)
    (touchY s) (buttonPressed s) (touchedSlider s) (controlBits s)
    v (left_y s) (right_x s) (right_y s) (controllerSoC s) (hexapodSoC s)
    (uart_tx s) (display s).
Definition with_left_y (v : Z) (s : State) : State :=
  mkState (buttons s) (touchedButton s) (sliders s) (ticks s)
    (displayNeedsFullRedraw s) (currentPage s) (touchTimer s) (touchX s)
    (touchY s) (buttonPressed s) (touchedSlider s) (controlBits s)
    (left_x s) v (right_x s) (right_y s) (controllerSoC s) (hexapodSoC s)
    (uart_tx s) (display s).
Definition with_right_x (v : Z) (s : State) : State :=
  mkState (buttons s) (touchedButton s) (sliders s) (ticks s)
    (displayNeedsFullRedraw s) (currentPage s) (touchTimer s) (touchX s)
    (touchY s) (buttonPressed s) (touchedSlider s) (controlBits s)
    (left_x s) (left_y s) v (right_y s) (controllerSoC s) (hexapodSoC s)
    (uart_tx s) (display s).
Definition with_right_y (v : Z) (s : State) : State :=
  mkState (buttons s) (touchedButton s) (sliders s) (ticks s)
    (displayNeedsFullRedraw s) (currentPage s) (touchTimer s) (touchX s)
    (touchY s) (buttonPressed s) (touchedSlider s) (controlBits s)
    (left_x s) (left_y s) (right_x s) v (controllerSoC s) (hexapodSoC s)
    (uart_tx s) (display s).
Definition with_controllerSoC (v : Z) (s : State) : State :=
  mkState (buttons s) (touchedButton s) (sliders s) (ticks s)
    (displayNeedsFullRedraw s) (currentPage s) (touchTimer s) (touchX s)
    (touchY s) (buttonPressed s) (touchedSlider s) (controlBits s) (left_x s)
    (left_y s) (right_x s) (right_y s) v (hexapodSoC s)
    (uart_tx s) (display s).
Definition with_hexapodSoC (v : Z) (s : State) : State :=
  mkState (buttons s) (touchedButton s) (sliders s) (ticks s)
    (displayNeedsFullRedraw s) (currentPage s) (touchTimer s) (touchX s)
    (touchY s) (buttonPressed s) (touchedSlider s) (controlBits s) (left_x s)
    (left_y s) (right_x s) (right_y s) (controllerSoC s) v
    (uart_tx s) (display s).
Definition with_uart_tx (v : list Z) (s : State) : State :=
  mkState (buttons s) (touchedButton s) (sliders s) (ticks s)
    (displayNeedsFullRedraw s) (currentPage s) (touchTimer s) (touchX s)
    (touchY s) (buttonPressed s) (touchedSlider s) (controlBits s) (left_x s)
    (left_y s) (right_x s) (right_y s) (controllerSoC s) (hexapodSoC s)
    v (display s).
Definition with_display (v : list DrawCall) (s : State) : State :=
  mkState (buttons s) (touchedButton s) (sliders s) (ticks s)
    (displayNeedsFullRedraw s) (currentPage s) (touchTimer s) (touchX s)
    (touchY s) (buttonPressed s) (touchedSlider s) (controlBits s) (left_x s)
    (left_y s) (right_x s) (right_y s) (controllerSoC s) (hexapodSoC s)
    (uart_tx s) v.

(** The global variables as the C start-up code leaves them: the explicit
    initialisers, and zero for everything else. *)
Definition startup : State :=
  mkState (replicate (Z.to_nat NUM_BUTTONS) Button.zero) NONE
    (replicate (Z.to_nat NUM_SLIDERS) Slider.zero) 0 true MAIN_PAGE
    0 0 0 (-1) (-1) 0 0 0 0 0 100 100 [] [].

Definition joystick_command_character : Z := 99.   (* 'c' *)

(** ** Widget model *)

(** The comparisons of the two hit-tests have a U16 operand on their right,
    so [touchX] and [touchY] are converted to [unsigned int] and the right
    sides are computed modulo 2^16. *)
Definition ButtonTouched (s : State) (button : Button.t) : bool :=
  (to_uint (touchX s) >=? to_uint (Button.x button - Button.width button / 2))
  && (to_uint (touchX s) <=? to_uint (Button.x button + Button.width button / 2))
  && (to_uint (touchY s) >=? to_uint (Button.y button))
  && (to_uint (touchY s) <=? to_uint (Button.y button + 32))
  && (currentPage s =? Button.page button).

Definition SliderTouched (s : State) (slider : Slider.t) : bool :=
  (to_uint (touchX s) >=? to_uint (Slider.x slider - Slider.width slider / 2))
  && (to_uint (touchX s) <=? to_uint (Slider.x slider + Slider.width slider / 2))
  && (to_uint (touchY s) >=? to_uint (Slider.y slider))
  && (to_uint (touchY s) <=? to_uint (Slider.y slider + 32))
  && (currentPage s =? Slider.page slider).

(** One assignment to a field of [buttons[i]]. *)
Definition store_button (i : Z) (f : Button.t -> Button.t) (s : State)
    : res State :=
  bs ← store "buttons" (buttons s) i f; Ok (with_buttons bs s).

Definition store_slider (i : Z) (f : Slider.t -> Slider.t) (s : State)
    : res State :=
  sls ← store "sliders" (sliders s) i f; Ok (with_sliders sls s).

Definition InitialiseButton (button x y width colour : Z) (text : string)
    (selected : Z) (s : State) : res State :=
  store_button (to_U8 button)
    (fun _ => Button.mk (to_U16 x) (to_U16 y) (to_U16 width) (to_U16 colour)
                text false (negb (to_U8 selected =? 0)) true MAIN_PAGE) s.

(** The three parameters are S8 values. *)
Definition SelectButton (newButton oldButton otherOldButton : Z) (s : State)
    : res State :=
  s ← store_button newButton (Button.with_selected true) s;
  s ← store_button newButton (Button.with_needsRedraw true) s;
  s ← store_button oldButton (Button.with_selected false) s;
  s ← store_button oldButton (Button.with_needsRedraw true) s;
  if negb (otherOldButton =? NONE) then
    s ← store_button otherOldButton (Button.with_selected false) s;
    store_button otherOldButton (Button.with_needsRedraw true) s
  else Ok s.

Definition InitialiseSlider (slider x y width colour value page : Z)
    (s : State) : res State :=
  store_slider (to_U8 slider)
    (fun _ => Slider.mk (to_U16 x) (to_U16 y) (to_U16 width) (to_U16 colour)
                (to_S8 value) (-1) (to_U8 page)) s.

(** [for (U8 n = 0; n < N; n++) body]: [count] iterations from [n] on. *)
Fixpoint for_loop (count : nat) (n : Z) (body : Z -> State -> res State)
    (s : State) : res State :=
  match count with
  | O => Ok s
  | S count' => s' ← body n s; for_loop count' (n + 1) body s'
  end.

Definition for_each (N : Z) (body : Z -> State -> res State) (s : State)
    : res State :=
  for_loop (Z.to_nat N) 0 body s.

(** ** Touch debouncer *)

(** [if (ButtonTouched(&buttons[n])) touchedButton = n;] *)
Definition arm_button (n : Z) (s : State) : res State :=
  button ← load "buttons" (buttons s) n;
  Ok (if ButtonTouched s button then with_touchedButton (to_S8 n) s else s).

(** [if (SliderTouched(&sliders[n])) touchedSlider = n;] *)
Definition arm_slider (n : Z) (s : State) : res State :=
  slider ← load "sliders" (sliders s) n;
  Ok (if SliderTouched s slider then with_touchedSlider (to_S8 n) s else s).

(** The three assignments to [slider->value] of a drag.  [slider->width-16]
    and the whole quotient are [unsigned int] expressions (they have a U16
    operand); the quotient is converted to S8 by the first assignment,
    before the two clamping tests read it back. *)
Definition drag_value (tx : Z) (slider : Slider.t) : res Slider.t :=
  let usableWidth := to_int (to_uint (Slider.width slider - 16)) in
  if to_uint usableWidth =? 0 then Fault DivisionByZero
  else
    let slider :=
      Slider.with_value
        (to_S8 (to_uint (100 * to_uint (tx - to_uint (Slider.x slider
                                              - Z.quot usableWidth 2)))
                / to_uint usableWidth)) slider in
    let slider :=
      if Slider.value slider <? 0 then Slider.with_value 0 slider
      else slider in
    let slider :=
      if Slider.value slider >? 100 then Slider.with_value 100 slider
      else slider in
    Ok slider.

Definition drag_slider (n : Z) (s : State) : res State :=
  slider ← load "sliders" (sliders s) n;
  if SliderTouched s slider && (touchedSlider s =? n) then
    slider' ← drag_value (touchX s) slider;
    store_slider n (fun _ => slider') s
  else Ok s.

(** [x] and [y] are what Touch_GetX() and Touch_GetY() return. *)
Definition HandleTouchDown (x y : Z) (s : State) : res State :=
  let s := with_touchX (to_int (to_U16 x)) s in
  let s := with_touchY (to_int (to_U16 y)) s in
  if touchTimer s =? 3 then
    s ← for_each NUM_BUTTONS arm_button s;
    for_each NUM_SLIDERS arm_slider s
  else if touchTimer s >? 3 then
    for_each NUM_SLIDERS drag_slider s
  else Ok s.

Definition HandleTouchUp (s : State) : res State :=
  if touchTimer s <? 3 then Ok s
  else
    button ← load "buttons" (buttons s) (touchedButton s);
    let s :=
      if ButtonTouched s button then with_buttonPressed (touchedButton s) s
      else s in
    Ok (with_touchedSlider NONE (with_touchedButton NONE s)).

(** ** Interrupt handlers *)

(** The two timer-0 handlers also switch the backlight pin, and the timer-1
    handler loads the PWM compare register; the port pins are not part of
    the state. *)
Definition TIMER0_OVF (s : State) : State :=
  with_ticks (to_short (ticks s + 1)) s.

(** [touch] is [Some (x, y)] when Touch_DataAvailable() holds, with the
    coordinates that Touch_Read() has latched, and [None] otherwise. *)
Definition TIMER1_OVF (touch : option (Z * Z)) (s : State) : res State :=
  match touch with
  | Some (x, y) =>
      HandleTouchDown x y (with_touchTimer (to_short (touchTimer s + 1)) s)
  | None =>
      s ← (if touchTimer s >? 0 then HandleTouchUp s else Ok s);
      Ok (with_touchY (-1) (with_touchX (-1) (with_touchTimer 0 s)))
  end.

(** ** Telemetry link *)

(** The busy-waits on the UART flags and the fixed delay leave no trace in
    the state; the byte written to UDR1 does. *)
Definition Transmit (c : Z) (s : State) : State :=
  with_uart_tx (uart_tx s ++ [to_U8 c]) s.

(** [adc channel] is the content of ADCW once the conversion started on
    [channel] has completed. *)
Definition ReadADC (adc : Z -> Z) (channel : Z) : Z :=
  to_int (adc (to_U8 channel)).

(** ** Main loop *)

(** The thirteen InitialiseButton calls of [main]; interrupts are enabled
    only after them. *)
Definition main_init : res State :=
  s ← InitialiseButton WALK_MODE 140 30 100 BLUE "Walk" 1 startup;
  s ← InitialiseButton WIGGLE_MODE 260 30 100 BLUE "Wiggle" 0 s;
  s ← InitialiseButton TRIPOD_GAIT 140 65 100 BLUE "Tripod" 1 s;
  s ← InitialiseButton RIPPLE_GAIT 260 65 100 BLUE "Ripple" 0 s;
  s ← InitialiseButton LOW_BODY 140 100 100 BLUE "Low" 1 s;
  s ← InitialiseButton HIGH_BODY 260 100 100 BLUE "High" 0 s;
  s ← InitialiseButton LOW_STEP 140 135 100 BLUE "Low" 1 s;
  s ← InitialiseButton HIGH_STEP 260 135 100 BLUE "High" 0 s;
  s ← InitialiseButton LONG_STEP 140 170 100 BLUE "Long" 1 s;
  s ← InitialiseButton QUICK_STEP 260 170 100 BLUE "Quick" 0 s;
  s ← InitialiseButton RED_EYES 122 205 64 RED "Red" 0 s;
  s ← InitialiseButton GREEN_EYES 200 205 70 GREEN "Green" 1 s;
  InitialiseButton BLUE_EYES 278 205 64 BLUE "Blue" 0 s.

(** [controlBits &= ~bit] and [controlBits |= bit]. *)
Definition clear_control_bit (bit : Z) (s : State) : State :=
  with_controlBits (to_U8 (Z.land (controlBits s) (Z.lnot bit))) s.
Definition set_control_bit (bit : Z) (s : State) : State :=
  with_controlBits (to_U8 (Z.lor (controlBits s) bit)) s.

(** [switch (buttonPressed) { ... } buttonPressed = NONE;] *)
Definition dispatch (s : State) : res State :=
  s ← match buttonPressed s with
      | NONE => Ok s
      | WALK_MODE =>
          SelectButton WALK_MODE WIGGLE_MODE NONE
            (clear_control_bit WIGGLE_BIT s)
      | WIGGLE_MODE =>
          SelectButton WIGGLE_MODE WALK_MODE NONE
            (set_control_bit WIGGLE_BIT s)
      | TRIPOD_GAIT =>
          SelectButton TRIPOD_GAIT RIPPLE_GAIT NONE
            (clear_control_bit RIPPLE_BIT s)
      | RIPPLE_GAIT =>
          SelectButton RIPPLE_GAIT TRIPOD_GAIT NONE
            (set_control_bit RIPPLE_BIT s)
      | LOW_BODY =>
          SelectButton LOW_BODY HIGH_BODY NONE
            (clear_control_bit HIGH_BODY_BIT s)
      | HIGH_BODY =>
          SelectButton HIGH_BODY LOW_BODY NONE
            (set_control_bit HIGH_BODY_BIT s)
      | LOW_STEP =>
          SelectButton LOW_STEP HIGH_STEP NONE
            (clear_control_bit HIGH_STEP_BIT s)
      | HIGH_STEP =>
          SelectButton HIGH_STEP LOW_STEP NONE
            (set_control_bit HIGH_STEP_BIT s)
      | LONG_STEP =>
          SelectButton LONG_STEP QUICK_STEP NONE
            (clear_control_bit QUICK_STEP_BIT s)
      | QUICK_STEP =>
          SelectButton QUICK_STEP LONG_STEP NONE
            (set_control_bit QUICK_STEP_BIT s)
      | RED_EYES =>
          SelectButton RED_EYES GREEN_EYES BLUE_EYES (Transmit 114 s)  (* 'r' *)
      | GREEN_EYES =>
          SelectButton GREEN_EYES RED_EYES BLUE_EYES (Transmit 103 s)  (* 'g' *)
      | BLUE_EYES =>
          SelectButton BLUE_EYES RED_EYES GREEN_EYES (Transmit 98 s)   (* 'b' *)
      | _ => Ok s
      end;
  Ok (with_buttonPressed NONE s).

(** [rx] is [Some b] when the receive-complete flag RXC1 is set, with [b]
    the content of UDR1. *)
Definition receive_status (rx : option Z) (s : State) : State :=
  match rx with
  | Some b =>
      let newHexapodSoC := to_U8 b in
      if newHexapodSoC <? hexapodSoC s then with_hexapodSoC newHexapodSoC s
      else s
  | None => s
  end.

(** The body of [while (ticks > 781)], with the ADC readings [adc] of this
    cycle.  Signed arithmetic is wrapped to 16 bits. *)
Definition ten_hz_cycle (adc : Z -> Z) (s : State) : State :=
  let s := with_ticks (to_short (ticks s - 781)) s in
  let newControllerSoC :=
    to_int (Z.quot (to_int (to_int (ReadADC adc V_BATT - 500) * 2)) 3) in
  let s :=
    if newControllerSoC <? controllerSoC s
    then with_controllerSoC newControllerSoC s else s in
  let s := with_left_x (to_U8 (Z.shiftr (ReadADC adc LEFT_X) 2)) s in
  let s := with_left_y (to_U8 (Z.shiftr (ReadADC adc LEFT_Y) 2)) s in
  let s := with_right_x (to_U8 (Z.shiftr (ReadADC adc RIGHT_X) 2)) s in
  let s := with_right_y (to_U8 (Z.shiftr (ReadADC adc RIGHT_Y) 2)) s in
  let s := Transmit joystick_command_character s in
  let s := Transmit (controlBits s) s in
  let s := Transmit (left_x s) s in
  let s := Transmit (left_y s) s in
  let s := Transmit (right_x s) s in
  let s := Transmit (right_y s) s in
  Transmit
    (to_int (controlBits s + left_x s + left_y s + right_x s + right_y s)) s.

(** [while (ticks > 781) { ... }]; [adcs i] are the readings of the [i]-th
    cycle of this pass.  Every iteration lowers [ticks], so the loop makes
    fewer than [ticks] iterations: [ten_hz_loop_eq] below shows that the
    bound is never what ends it. *)
Fixpoint ten_hz_iter (bound : nat) (adcs : nat -> Z -> Z) (i : nat)
    (s : State) : State :=
  match bound with
  | O => s
  | S bound' =>
      if ticks s >? 781
      then ten_hz_iter bound' adcs (S i) (ten_hz_cycle (adcs i) s)
      else s
  end.

Definition ten_hz_loop (adcs : nat -> Z -> Z) (i : nat) (s : State) : State :=
  ten_hz_iter (Z.to_nat (ticks s)) adcs i s.

(** ** Renderer *)

Definition draw (c : DrawCall) (s : State) : State :=
  with_display (display s ++ [c]) s.

Definition DrawBattery (x y percentage : Z) (s : State) : State :=
  let s :=
    if displayNeedsFullRedraw s then
      let s :=
        draw (TFT_Box (to_uint x) (to_uint y) (to_uint (x + 34))
                (to_uint (y + 12)) L_GRAY) s in
      draw (TFT_Box (to_uint (x + 34)) (to_uint (y + 4)) (to_uint (x + 36))
              (to_uint (y + 8)) L_GRAY) s
    else s in
  let colour :=
    if percentage <? 20 then RED
    else if percentage <? 50 then YELLOW
    else GREEN in
  let width := to_int (Z.quot (to_int (percentage * 30)) 100) in
  let width := if width <? 3 then 3 else width in
  let s :=
    draw (TFT_Box (to_uint (x + 2)) (to_uint (y + 2)) (to_uint (x + 2 + width))
            (to_uint (y + 10)) colour) s in
  draw (TFT_Box (to_uint (x + 2 + width + 1)) (to_uint (y + 2))
          (to_uint (x + 32)) (to_uint (y + 10)) BLACK) s.

Definition RenderMainPage (s : State) : State :=
  let s :=
    if displayNeedsFullRedraw s then
      let s := draw (TFT_Fill BLACK) s in
      let s := draw (TFT_Text "Ian's Hexapod" 2 3 1 BLUE BLACK) s in
      let s := draw (TFT_Text "C" 258 3 1 L_GRAY BLACK) s in
      let s := draw (TFT_Text "H" 182 3 1 L_GRAY BLACK) s in
      let s := draw (TFT_Text "Mode:" 2 36 1 WHITE BLACK) s in
      let s := draw (TFT_Text "Gait:" 2 71 1 WHITE BLACK) s in
      let s := draw (TFT_Text "Body:" 2 106 1 WHITE BLACK) s in
      let s := draw (TFT_Text "Step:" 2 141 1 WHITE BLACK) s in
      let s := draw (TFT_Text "Eyes:" 2 211 1 WHITE BLACK) s in
      draw (TFT_Box 0 24 320 25 L_GRAY) s
    else s in
  let s := DrawBattery 200 5 (hexapodSoC s) s in
  DrawBattery 276 5 (controllerSoC s) s.

(** The corners are [int] parameters. *)
Definition RenderBorderBox (lx ly rx ry Fcolor colour : Z) (s : State)
    : State :=
  let s :=
    draw (TFT_Box (to_uint lx) (to_uint ly) (to_uint rx) (to_uint ry) Fcolor)
      s in
  draw (TFT_Box (to_uint (lx + 2)) (to_uint (ly + 2)) (to_uint (rx - 2))
          (to_uint (ry - 2)) colour) s.

(** One iteration of the loop of RenderButtons. *)
Definition render_button (n : Z) (s : State) : res State :=
  button ← load "buttons" (buttons s) n;
  let wasHighlighted := Button.highlighted button in
  let button :=
    Button.with_highlighted
      (ButtonTouched s button && (touchedButton s =? n)) button in
  if (Button.page button =? currentPage s)
     && (xorb wasHighlighted (Button.highlighted button)
         || Button.needsRedraw button)
  then
    let colour :=
      if Button.highlighted button || Button.selected button
      then Button.colour button else BLACK in
    let s :=
      RenderBorderBox
        (to_int (to_uint (Button.x button - Button.width button / 2)))
        (to_int (Button.y button))
        (to_int (to_uint (Button.x button + Button.width button / 2)))
        (to_int (to_uint (Button.y button + 28)))
        (Button.colour button) colour s in
    let textColour := if colour =? D_GRAY then D_GRAY else WHITE in
    let s :=
      draw (TFT_CentredText (Button.text button) (to_uint (Button.x button))
              (to_uint (Button.y button + 6)) 1 textColour colour) s in
    store_button n (fun _ => Button.with_needsRedraw false button) s
  else store_button n (fun _ => button) s.

Definition RenderButtons (s : State) : res State :=
  for_each NUM_BUTTONS render_button s.

(** One iteration of the loop of RenderSliders. *)
Definition render_slider (n : Z) (s : State) : res State :=
  slider ← load "sliders" (sliders s) n;
  if (Slider.page slider =? currentPage s)
     && negb (Slider.oldValue slider =? Slider.value slider)
  then
    let usableWidth := to_int (to_uint (Slider.width slider - 16)) in
    let middle :=
      to_int (to_uint (Slider.x slider - Z.quot usableWidth 2
                       + Z.quot (to_int (usableWidth * Slider.value slider))
                           100)) in
    let left := to_uint (Slider.x slider - Slider.width slider / 2) in
    let right := to_uint (Slider.x slider + Slider.width slider / 2) in
    let s :=
      draw (TFT_Box left (to_uint (Slider.y slider)) right
              (to_uint (Slider.y slider + 8)) BLACK) s in
    let s :=
      draw (TFT_Box left (to_uint (Slider.y slider + 8)) right
              (to_uint (Slider.y slider + 24)) D_GRAY) s in
    let s :=
      draw (TFT_Box left (to_uint (Slider.y slider + 24)) right
              (to_uint (Slider.y slider + 32)) BLACK) s in
    let s :=
      draw (TFT_Box (to_uint (middle - 8)) (to_uint (Slider.y slider))
              (to_uint (middle + 8)) (to_uint (Slider.y slider + 32))
              (Slider.colour slider)) s in
    store_slider n (Slider.with_oldValue (Slider.value slider)) s
  else Ok s.

Definition RenderSliders (s : State) : res State :=
  for_each NUM_SLIDERS render_slider s.

(** [switch (currentPage)] with its only case, then the two widget passes
    and the reset of the full-redraw flag. *)
Definition render (s : State) : res State :=
  let s := if currentPage s =? MAIN_PAGE then RenderMainPage s else s in
  s ← RenderButtons s;
  s ← RenderSliders s;
  Ok (with_displayNeedsFullRedraw false s).

(** One pass of [while (1)] in [main], run without interruption. *)
Definition main_pass (rx : option Z) (adcs : nat -> Z -> Z) (s : State)
    : res State :=
  s ← dispatch s;
  let s := receive_status rx s in
  let s := ten_hz_loop adcs 0 s in
  render s.

(** ** The program as a transition system *)

(** The two timer interrupts, and the blocks of the main loop between which
    they are taken: a block runs to its end before the next interrupt is
    served.  [Cycle] is one iteration of the 10 Hz loop and is enabled only
    while the loop condition holds.  The blocks may follow one another in
    any order, so the reachable states include those of the real loop. *)
Inductive event : Type :=
| Timer0
| Timer1 (touch : option (Z * Z))
| Dispatch
| Receive (rx : option Z)
| Cycle (adc : Z -> Z)
| Render.

Definition step (e : event) (s : State) : option (res State) :=
  match e with
  | Timer0 => Some (Ok (TIMER0_OVF s))
  | Timer1 touch => Some (TIMER1_OVF touch s)
  | Dispatch => Some (dispatch s)
  | Receive rx => Some (Ok (receive_status rx s))
  | Cycle adc =>
      if ticks s >? 781 then Some (Ok (ten_hz_cycle adc s)) else None
  | Render => Some (render s)
  end.

(** The states the running firmware can be in.  A fault ends the run: what
    the microcontroller does after an access outside an array is not
    modelled. *)
Inductive reachable : State -> Prop :=
| reachable_init s : main_init = Ok s -> reachable s
| reachable_step s e s' :
    reachable s -> step e s = Some (Ok s') -> reachable s'.

(** A run of the touch-poll interrupt over successive polls. *)
Fixpoint poll (touches : list (option (Z * Z))) (s : State) : res State :=
  match touches with
  | [] => Ok s
  | t :: touches' => s' ← TIMER1_OVF t s; poll touches' s'
  end.

(** The state in which interrupts are enabled and the main loop starts. *)
Definition booted : State :=
  match main_init with
  | Ok s => s
  | Fault _ => startup
  end.

(** ** Vocabulary of the properties *)

(** The controller's percentage for a battery reading: 650 ADC counts for
    4.2 V, 500 for 3.2 V. *)
Definition controller_percentage (adc : Z -> Z) : Z :=
  to_int (Z.quot (to_int (to_int (ReadADC adc V_BATT - 500) * 2)) 3).

(** The bytes of one joystick frame, for the state the cycle leaves. *)
Definition joystick_frame (s : State) : list Z :=
  [ joystick_command_character; to_U8 (controlBits s);
    left_x s; left_y s; right_x s; right_y s;
    (to_U8 (controlBits s) + left_x s + left_y s + right_x s + right_y s)
      mod 256 ].

(** ADC readings of a controller at rest: 650 counts on the battery channel,
    [40 * channel] on the joystick channels. *)
Definition resting_adc (channel : Z) : Z :=
  if channel =? V_BATT then 650 else 40 * channel.

(** The state [n] timer-0 overflows after start-up, with the main loop not
    yet run. *)
Definition after_ticks (n : nat) : State := Nat.iter n TIMER0_OVF booted.

(** What identifies a slider on the screen: everything but its value. *)
Definition slider_geometry (sl : Slider.t) : Z * Z * Z * Z * Z :=
  (Slider.x sl, Slider.y sl, Slider.width sl, Slider.colour sl,
   Slider.page sl).

(** [s'] is [s] with more display calls. *)
Definition only_draws (s s' : State) : Prop :=
  s' = with_display (display s') s.

(** What only the receive block, the 10 Hz cycle and the two timers may
    change. *)
Definition inputs_view (s : State) :=
  (hexapodSoC s, controllerSoC s, slider_geometry <$> sliders s,
   currentPage s, ticks s, touchTimer s, touchX s, touchY s).

(** A run of the program: any number of steps, none of which faults. *)
Inductive run : State -> State -> Prop :=
| run_nil s : run s s
| run_step s e s1 s2 : step e s = Some (Ok s1) -> run s1 s2 -> run s s2.

(** What holds of the inputs of the hit-tests in every reachable state. *)
Record slider_invariant (s : State) : Prop := {
  inv_geometry :
    slider_geometry <$> sliders s = [(0, 0, 0, 0, 0); (0, 0, 0, 0, 0)];
  inv_page : currentPage s = MAIN_PAGE;
  inv_touchX : -32768 <= touchX s <= 32767;
  inv_touchY : -32768 <= touchY s <= 32767
}.

(** The state in which a finger has rested on the top-left corner for four
    polls: reachable, with the back-servo slider armed. *)
Definition corner_touch : res State :=
  poll [Some (0, 10); Some (0, 10); Some (0, 10); Some (0, 10)] booted.

(** The behaviour that C2 describes, for comparison with [SelectButton]: a
    deselect slot that holds the sentinel is skipped. *)
Definition deselect_unless_none (button : Z) (s : State) : res State :=
  if button =? NONE then Ok s
  else
    s ← store_button button (Button.with_selected false) s;
    store_button button (Button.with_needsRedraw true) s.

Definition SelectButton_as_claimed (newButton oldButton otherOldButton : Z)
    (s : State) : res State :=
  s ← store_button newButton (Button.with_selected true) s;
  s ← store_button newButton (Button.with_needsRedraw true) s;
  s ← deselect_unless_none oldButton s;
  deselect_unless_none otherOldButton s.

(** The four assignments that SelectButton makes whatever its arguments. *)
Definition select_and_deselect (newButton oldButton : Z) (s : State)
    : res State :=
  s ← store_button newButton (Button.with_selected true) s;
  s ← store_button newButton (Button.with_needsRedraw true) s;
  s ← store_button oldButton (Button.with_selected false) s;
  store_button oldButton (Button.with_needsRedraw true) s.

(** What a touch session can act on. *)
Definition widgets_view (s : State) :=
  (buttonPressed s, touchedButton s, touchedSlider s, sliders s, buttons s).

(** The buttons that the main loop hands to SelectButton for deselection
    when [button] was pressed: the other members of its mutual-exclusion
    group (mode, gait, body, step height, step length, eye colour). *)
Definition siblings (button : Z) : list Z :=
  match button with
  | WALK_MODE => [WIGGLE_MODE]
  | WIGGLE_MODE => [WALK_MODE]
  | TRIPOD_GAIT => [RIPPLE_GAIT]
  | RIPPLE_GAIT => [TRIPOD_GAIT]
  | LOW_BODY => [HIGH_BODY]
  | HIGH_BODY => [LOW_BODY]
  | LOW_STEP => [HIGH_STEP]
  | HIGH_STEP => [LOW_STEP]
  | LONG_STEP => [QUICK_STEP]
  | QUICK_STEP => [LONG_STEP]
  | RED_EYES => [GREEN_EYES; BLUE_EYES]
  | GREEN_EYES => [RED_EYES; BLUE_EYES]
  | BLUE_EYES => [RED_EYES; GREEN_EYES]
  | _ => []
  end.

Definition group (button : Z) : list Z := button :: siblings button.

(** The [selected] and [needsRedraw] flags of [buttons[button]]. *)
Definition flags (s : State) (button : Z) : option (bool * bool) :=
  (fun b => (Button.selected b, Button.needsRedraw b))
    <$> buttons s !! Z.to_nat button.

Definition is_selected (s : State) (button : Z) : bool :=
  match flags s button with
  | Some (selected, _) => selected
  | None => false
  end.

(** The state after a finger has rested on the "Wiggle" button for five
    polls and has been lifted. *)
Definition wiggle_pressed : State :=
  match poll [Some (260, 40); Some (260, 40); Some (260, 40); Some (260, 40);
              Some (260, 40); None] booted with
  | Ok s => s
  | Fault _ => booted
  end.

(** The conversion as C6 describes it, over the integers: the truncating
    quotient, clamped to [0, 100]. *)
Definition percentage_as_claimed (tx x width : Z) : Z :=
  let usableWidth := width - 16 in
  Z.max 0 (Z.min 100
             (Z.quot (100 * (tx - (x - Z.quot usableWidth 2))) usableWidth)).

(** The program with a front-servo slider forty pixels wide, set up through
    InitialiseSlider at half value. *)
Definition narrow_slider : res State :=
  InitialiseSlider FRONT_SERVO 160 100 40 BLUE 50 MAIN_PAGE booted.

(** The common shape of the two arming loops of HandleTouchDown:
    [arm_button] and [arm_slider] are its instances for the two arrays. *)
Definition arm_if_touched {W : Type} (name : string) (arr : State -> list W)
    (touched : State -> W -> bool) (arm : Z -> State -> State)
    (n : Z) (s : State) : res State :=
  w ← load name (arr s) n;
  Ok (if touched s w then arm (to_S8 n) s else s).

(** ** Vocabulary of the further properties *)

(** The receive block of successive main-loop passes, one status byte
    each. *)
Definition receive_all (bytes : list Z) (s : State) : State :=
  fold_left (fun s b => receive_status (Some b) s) bytes s.

(** The control bit that the dispatch of a press writes, as its position in
    the bitfield and the value it is given; none for the eye buttons and
    for the sentinel. *)
Definition control_bit_of (button : Z) : option (Z * bool) :=
  match button with
  | WALK_MODE => Some (0, false)
  | WIGGLE_MODE => Some (0, true)
  | TRIPOD_GAIT => Some (4, false)
  | RIPPLE_GAIT => Some (4, true)
  | LOW_BODY => Some (2, false)
  | HIGH_BODY => Some (2, true)
  | LOW_STEP => Some (1, false)
  | HIGH_STEP => Some (1, true)
  | LONG_STEP => Some (3, false)
  | QUICK_STEP => Some (3, true)
  | _ => None
  end.

(** The byte that the dispatch of a press transmits at once: 'r', 'g' or
    'b' for the eye buttons, nothing otherwise. *)
Definition sideband_byte (button : Z) : list Z :=
  match button with
  | RED_EYES => [114]
  | GREEN_EYES => [103]
  | BLUE_EYES => [98]
  | _ => []
  end.

(** What one iteration of RenderButtons makes of [buttons[n]], and the
    display calls it issues for it. *)
Definition button_is_redrawn (s : State) (n : Z) (b : Button.t) : bool :=
  (Button.page b =? currentPage s)
  && (xorb (Button.highlighted b)
        (ButtonTouched s b && (touchedButton s =? n))
      || Button.needsRedraw b).

Definition rendered_button (s : State) (n : Z) (b : Button.t) : Button.t :=
  let b' :=
    Button.with_highlighted (ButtonTouched s b && (touchedButton s =? n)) b in
  if button_is_redrawn s n b then Button.with_needsRedraw false b' else b'.

(** What one iteration of RenderSliders makes of a slider. *)
Definition slider_is_redrawn (s : State) (sl : Slider.t) : bool :=
  (Slider.page sl =? currentPage s)
  && negb (Slider.oldValue sl =? Slider.value sl).

Definition rendered_slider (s : State) (sl : Slider.t) : Slider.t :=
  if slider_is_redrawn s sl
  then Slider.with_oldValue (Slider.value sl) sl else sl.

(** The control bitfield for the five two-way choices. *)
Definition control_bits_of (wiggle high_step high_body quick ripple : bool)
    : Z :=
  Z.b2z wiggle * WIGGLE_BIT + Z.b2z high_step * HIGH_STEP_BIT
  + Z.b2z high_body * HIGH_BODY_BIT + Z.b2z quick * QUICK_STEP_BIT
  + Z.b2z ripple * RIPPLE_BIT.

(** The [selected] flags and the control bitfield tell the same story: in
    each of the five pairs one button is selected, the second one exactly
    when the pair's control bit is set, and one eye colour is selected. *)
Definition selection_consistent (s : State) : Prop :=
  exists wiggle ripple high_body high_step quick eyes,
    Button.selected <$> buttons s
    = [negb wiggle; wiggle; negb ripple; ripple; negb high_body; high_body;
       negb high_step; high_step; negb quick; quick;
       eyes =? RED_EYES; eyes =? GREEN_EYES; eyes =? BLUE_EYES]
    /\ (eyes = RED_EYES \/ eyes = GREEN_EYES \/ eyes = BLUE_EYES)
    /\ controlBits s
       = control_bits_of wiggle high_step high_body quick ripple.

(** What identifies a button on the screen: everything but its three
    flags. *)
Definition button_geometry (b : Button.t) : Z * Z * Z * Z * string * Z :=
  (Button.x b, Button.y b, Button.width b, Button.colour b, Button.text b,
   Button.page b).

(** What holds of the buttons in every reachable state: they are where
    InitialiseButton put them, and their [selected] flags agree with the
    control bitfield. *)
Record button_invariant (s : State) : Prop := {
  inv_button_geometry :
    button_geometry <$> buttons s = button_geometry <$> buttons booted;
  inv_selection : selection_consistent s
}.

(** The state once Touch_GetX() and Touch_GetY() have been latched by
    HandleTouchDown. *)
Definition touch_at (x y : Z) (s : State) : State :=
  with_touchY (to_int (to_U16 y)) (with_touchX (to_int (to_U16 x)) s).

(** The rectangle that ButtonTouched tests the touch point against, as
    (x0, x1, y0, y1) in the unsigned arithmetic of the test. *)
Definition hit_box (g : Z * Z * Z * Z * string * Z) : Z * Z * Z * Z :=
  let '(x, y, width, _, _, _) := g in
  (to_uint (x - width / 2), to_uint (x + width / 2),
   to_uint y, to_uint (y + 32)).

Definition inside (box : Z * Z * Z * Z) (tx ty : Z) : bool :=
  let '(x0, x1, y0, y1) := box in
  (tx >=? x0) && (tx <=? x1) && (ty >=? y0) && (ty <=? y1).

(** Two rectangles with no point in common, and a list of rectangles that
    are so two by two. *)
Definition apart (box box' : Z * Z * Z * Z) : bool :=
  let '(x0, x1, y0, y1) := box in
  let '(x0', x1', y0', y1') := box' in
  (x1 <? x0') || (x1' <? x0) || (y1 <? y0') || (y1' <? y0).

Fixpoint all_apart (boxes : list (Z * Z * Z * Z)) : bool :=
  match boxes with
  | [] => true
  | box :: boxes' => forallb (apart box) boxes' && all_apart boxes'
  end.

(** * Properties *)

(** ** The casts *)

Lemma to_U8_range z : 0 <= to_U8 z < 256.
Proof. unfold to_U8, wrap_unsigned. apply Z.mod_pos_bound. lia. Qed.

Lemma to_int_range z : -32768 <= to_int z <= 32767.
Proof.
  unfold to_int, wrap_signed. change (2 ^ (16 - 1)) with 32768.
  change (2 ^ 16) with 65536.
  pose proof (Z.mod_pos_bound (z + 32768) 65536). lia.
Qed.

Lemma to_uint_small z : 0 <= z < 65536 -> to_uint z = z.
Proof. intros H. unfold to_uint, wrap_unsigned. now apply Z.mod_small. Qed.

Lemma to_U8_small z : 0 <= z < 256 -> to_U8 z = z.
Proof. intros H. unfold to_U8, wrap_unsigned. now apply Z.mod_small. Qed.

Lemma to_S8_small z : -128 <= z <= 127 -> to_S8 z = z.
Proof.
  intros H. unfold to_S8, wrap_signed. change (2 ^ (8 - 1)) with 128.
  change (2 ^ 8) with 256. rewrite Z.mod_small; lia.
Qed.

Lemma to_int_small z : -32768 <= z <= 32767 -> to_int z = z.
Proof.
  intros H. unfold to_int, wrap_signed. change (2 ^ (16 - 1)) with 32768.
  change (2 ^ 16) with 65536. rewrite Z.mod_small; lia.
Qed.

(** ** Initialisation *)

Lemma main_init_booted : main_init = Ok booted.
Proof. vm_compute. reflexivity. Qed.

Lemma reachable_booted : reachable booted.
Proof. apply reachable_init, main_init_booted. Qed.

(** ** The 10 Hz loop *)

Lemma ten_hz_cycle_ticks adc s :
  ticks (ten_hz_cycle adc s) = to_short (ticks s - 781).
Proof.
  unfold ten_hz_cycle. cbv zeta.
  match goal with |- context [if ?c then _ else _] => destruct c end;
    reflexivity.
Qed.

Section TenHzLoop.

Variable adcs : nat -> Z -> Z.

Lemma ten_hz_cycle_lowers_ticks adc s :
  781 < ticks s ->
  (Z.to_nat (ticks (ten_hz_cycle adc s)) < Z.to_nat (ticks s))%nat.
Proof.
  intros Hgt. rewrite ten_hz_cycle_ticks. unfold to_short. fold to_int.
  pose proof (to_int_range (ticks s - 781)) as Hr.
  destruct (Z_le_gt_dec (ticks s - 781) 32767) as [Hs|Hs].
  - rewrite to_int_small by lia. lia.
  - lia.
Qed.

(** Any bound that is at least [ticks] gives the same result. *)
Lemma ten_hz_iter_enough bound1 : forall bound2 i s,
  (Z.to_nat (ticks s) <= bound1)%nat ->
  (Z.to_nat (ticks s) <= bound2)%nat ->
  ten_hz_iter bound1 adcs i s = ten_hz_iter bound2 adcs i s.
Proof.
  induction bound1 as [|bound1 IH]; intros bound2 i s H1 H2.
  - destruct bound2 as [|bound2]; [reflexivity|]. simpl.
    destruct (Z.gtb_spec (ticks s) 781); [lia|reflexivity].
  - simpl. destruct (Z.gtb_spec (ticks s) 781) as [Hgt|Hle].
    + pose proof (ten_hz_cycle_lowers_ticks (adcs i) s ltac:(lia)) as Hlow.
      destruct bound2 as [|bound2]; [lia|]. simpl.
      destruct (Z.gtb_spec (ticks s) 781); [|lia].
      apply IH; lia.
    + destruct bound2 as [|bound2]; [reflexivity|]. simpl.
      destruct (Z.gtb_spec (ticks s) 781); [lia|reflexivity].
Qed.

(** The equation of the [while] loop. *)
Lemma ten_hz_loop_eq i s :
  ten_hz_loop adcs i s =
  if ticks s >? 781 then ten_hz_loop adcs (S i) (ten_hz_cycle (adcs i) s)
  else s.
Proof.
  unfold ten_hz_loop at 1.
  destruct (Z.gtb_spec (ticks s) 781) as [Hgt|Hle].
  - pose proof (ten_hz_cycle_lowers_ticks (adcs i) s ltac:(lia)) as Hlow.
    destruct (Z.to_nat (ticks s)) as [|bound] eqn:Hb; [lia|]. simpl.
    destruct (Z.gtb_spec (ticks s) 781); [|lia].
    unfold ten_hz_loop. apply ten_hz_iter_enough; lia.
  - destruct (Z.to_nat (ticks s)) as [|bound]; [reflexivity|]. simpl.
    destruct (Z.gtb_spec (ticks s) 781); [lia|reflexivity].
Qed.

End TenHzLoop.

Lemma to_U8_to_int z : to_U8 (to_int z) = to_U8 z.
Proof.
  unfold to_U8, to_int, wrap_unsigned, wrap_signed.
  change (2 ^ (16 - 1)) with 32768. change (2 ^ 16) with (256 * 256).
  change (2 ^ 8) with 256.
  rewrite <- Zminus_mod_idemp_l.
  rewrite Z.rem_mul_r by lia.
  rewrite Z.mul_comm, <- Z.add_mod_idemp_r, Z.mod_mul, Z.add_0_r by lia.
  rewrite Z.mod_mod by lia. rewrite Zminus_mod_idemp_l.
  f_equal. lia.
Qed.

Lemma to_U8_idem z : to_U8 (to_U8 z) = to_U8 z.
Proof. apply to_U8_small, to_U8_range. Qed.

Lemma checksum_byte cb a b c d :
  to_U8 (to_int (cb + a + b + c + d)) = (to_U8 cb + a + b + c + d) mod 256.
Proof.
  rewrite to_U8_to_int. unfold to_U8, wrap_unsigned. change (2 ^ 8) with 256.
  replace (cb + a + b + c + d) with (cb + (a + b + c + d)) by lia.
  replace (cb mod 256 + a + b + c + d)
    with (cb mod 256 + (a + b + c + d)) by lia.
  now rewrite Z.add_mod_idemp_l by lia.
Qed.

(** What one cycle does to the state. *)
Lemma ten_hz_cycle_spec adc s :
  let s' := ten_hz_cycle adc s in
  ticks s' = to_short (ticks s - 781)
  /\ controllerSoC s' =
     (if controller_percentage adc <? controllerSoC s
      then controller_percentage adc else controllerSoC s)
  /\ left_x s' = to_U8 (Z.shiftr (ReadADC adc LEFT_X) 2)
  /\ left_y s' = to_U8 (Z.shiftr (ReadADC adc LEFT_Y) 2)
  /\ right_x s' = to_U8 (Z.shiftr (ReadADC adc RIGHT_X) 2)
  /\ right_y s' = to_U8 (Z.shiftr (ReadADC adc RIGHT_Y) 2)
  /\ controlBits s' = controlBits s
  /\ hexapodSoC s' = hexapodSoC s
  /\ buttons s' = buttons s
  /\ sliders s' = sliders s
  /\ uart_tx s' = uart_tx s ++ joystick_frame s'.
Proof.
  unfold ten_hz_cycle, controller_percentage, joystick_frame. cbv zeta.
  destruct (_ <? controllerSoC _); cbn [ticks controllerSoC left_x left_y
    right_x right_y controlBits hexapodSoC buttons sliders uart_tx Transmit
    with_ticks with_controllerSoC with_left_x with_left_y with_right_x
    with_right_y with_uart_tx];
    repeat split; try reflexivity.
  all: rewrite <- !app_assoc; cbn [app]; rewrite !to_U8_idem, checksum_byte.
  all: reflexivity.
Qed.

(** ** What the widget operations leave alone *)

Lemma bind_Ok {A B : Type} (r : res A) (k : A -> res B) (b : B) :
  (r ≫= k) = Ok b -> exists a, r = Ok a /\ k a = Ok b.
Proof. destruct r as [a|f]; cbn; [eauto|discriminate]. Qed.

Lemma Ok_inj {A : Type} (a b : A) : Ok a = Ok b -> a = b.
Proof. intros H. now injection H. Qed.

Lemma main_init_inv s : main_init = Ok s -> s = booted.
Proof. rewrite main_init_booted. intros H. symmetry. exact (Ok_inj _ _ H). Qed.

Lemma load_Ok {A : Type} name (arr : list A) i a :
  load name arr i = Ok a <-> 0 <= i /\ arr !! Z.to_nat i = Some a.
Proof.
  unfold load. destruct (Z.ltb_spec i 0).
  - split; [discriminate|lia].
  - destruct (arr !! Z.to_nat i); split; intros H'; try discriminate;
      try (injection H' as ->); try tauto; destruct H' as [_ H']; congruence.
Qed.

Lemma load_Fault {A : Type} name (arr : list A) i :
  i < 0 \/ Z.of_nat (length arr) <= i ->
  load name arr i = Fault (OutOfBounds name i).
Proof.
  intros H. unfold load. destruct (Z.ltb_spec i 0); [reflexivity|].
  rewrite lookup_ge_None_2; [reflexivity|lia].
Qed.

Lemma store_Ok {A : Type} name (arr : list A) i f arr' :
  store name arr i f = Ok arr' <->
  exists a, 0 <= i /\ arr !! Z.to_nat i = Some a
            /\ arr' = <[Z.to_nat i := f a]> arr.
Proof.
  unfold store. split.
  - intros H. apply bind_Ok in H as (a & Ha & Hk). apply load_Ok in Ha.
    injection Hk as <-. exists a. tauto.
  - intros (a & H0 & Ha & ->).
    assert (load name arr i = Ok a) as -> by (apply load_Ok; tauto).
    reflexivity.
Qed.

Lemma store_button_Ok i f s s' :
  store_button i f s = Ok s' ->
  exists b, 0 <= i /\ buttons s !! Z.to_nat i = Some b
            /\ s' = with_buttons (<[Z.to_nat i := f b]> (buttons s)) s.
Proof.
  unfold store_button. intros H. apply bind_Ok in H as (bs & Hbs & Hk).
  apply store_Ok in Hbs as (b & H0 & Hb & ->). injection Hk as <-. eauto.
Qed.

Lemma store_slider_Ok i f s s' :
  store_slider i f s = Ok s' ->
  exists sl, 0 <= i /\ sliders s !! Z.to_nat i = Some sl
             /\ s' = with_sliders (<[Z.to_nat i := f sl]> (sliders s)) s.
Proof.
  unfold store_slider. intros H. apply bind_Ok in H as (sls & Hs & Hk).
  apply store_Ok in Hs as (sl & H0 & Hsl & ->). injection Hk as <-. eauto.
Qed.

(** SelectButton writes the [buttons] array and nothing else. *)
Lemma SelectButton_frame newButton oldButton otherOldButton s s' :
  SelectButton newButton oldButton otherOldButton s = Ok s' ->
  s' = with_buttons (buttons s') s
  /\ length (buttons s') = length (buttons s).
Proof.
  unfold SelectButton. intros H.
  repeat match type of H with
  | (_ ≫= _) = Ok _ =>
      let Hs := fresh "Hs" in
      apply bind_Ok in H as (? & Hs & H);
      apply store_button_Ok in Hs as (? & _ & ? & ->)
  end.
  destruct (negb _).
  - apply bind_Ok in H as (? & Hs & H).
    apply store_button_Ok in Hs as (? & _ & ? & ->).
    apply store_button_Ok in H as (? & _ & ? & ->).
    cbn. rewrite !length_insert. split; reflexivity.
  - injection H as <-. cbn. rewrite !length_insert. split; reflexivity.
Qed.

(** The main-loop dispatch writes [buttons], [controlBits], the UART trace
    and [buttonPressed], and nothing else. *)
Lemma dispatch_frame s s' :
  dispatch s = Ok s' ->
  s' = with_buttonPressed NONE
         (with_buttons (buttons s')
            (with_controlBits (controlBits s')
               (with_uart_tx (uart_tx s') s)))
  /\ length (buttons s') = length (buttons s).
Proof.
  unfold dispatch. intros H. apply bind_Ok in H as (s1 & H1 & H).
  injection H as <-.
  assert (s1 = with_buttons (buttons s1)
                 (with_controlBits (controlBits s1)
                    (with_uart_tx (uart_tx s1) s))
          /\ length (buttons s1) = length (buttons s)) as [E L].
  { repeat match type of H1 with
      | match ?p with _ => _ end = Ok _ => destruct p
      end;
      first [ injection H1 as <-; destruct s; split; reflexivity
            | apply SelectButton_frame in H1 as [-> ->];
              destruct s; split; reflexivity ]. }
  rewrite E at 1. cbn. rewrite L. split; reflexivity.
Qed.

Lemma receive_status_frame rx s :
  receive_status rx s = with_hexapodSoC (hexapodSoC (receive_status rx s)) s.
Proof.
  unfold receive_status. destruct rx as [b|]; [destruct (_ <? _)|];
    destruct s; reflexivity.
Qed.

(** ** C1: the 10 Hz gate *)

Lemma reachable_TIMER0_OVF n s :
  reachable s -> reachable (Nat.iter n TIMER0_OVF s).
Proof.
  intros Hs. induction n as [|n IH]; [exact Hs|].
  cbn [Nat.iter]. eapply reachable_step with (e := Timer0); [exact IH|].
  reflexivity.
Qed.

Lemma reachable_after_ticks n : reachable (after_ticks n).
Proof. apply reachable_TIMER0_OVF, reachable_booted. Qed.

(** C1, as stated, fails: a pass entered with [ticks] equal to exactly 781
    (a reachable state: 781 timer overflows after start-up) performs no
    cycle.  The loop leaves the state as it is, and the whole pass leaves
    [ticks] at 781 and transmits nothing. *)
Lemma no_cycle_at_exactly_781 :
  reachable (after_ticks 781)
  /\ ticks (after_ticks 781) = 781
  /\ ten_hz_loop (fun _ => resting_adc) 0 (after_ticks 781) = after_ticks 781
  /\ exists s', main_pass None (fun _ => resting_adc) (after_ticks 781) = Ok s'
                /\ ticks s' = 781 /\ uart_tx s' = [].
Proof.
  split; [apply reachable_after_ticks|].
  split; [vm_compute; reflexivity|]. split.
  - rewrite ten_hz_loop_eq. vm_compute. reflexivity.
  - eexists. split; [vm_compute; reflexivity|]. split; reflexivity.
Qed.

(** C1 (amended): in every main-loop pass, whenever the accumulated tick
    counter is strictly greater than 781, the loop subtracts 781 and performs
    one full 10 Hz cycle: the battery ADC sample with monotonic-decrease
    filtering, the four joystick ADC samples downsampled to 8 bits, and one
    telemetry frame; the loop then goes on from the state the cycle left.
    In particular a pass entered with ticks equal to exactly 782 performs a
    cycle; a pass entered with 781 or fewer performs none. *)
Theorem main_pass_runs_cycle_above_781 rx adcs s s1 :
  dispatch s = Ok s1 ->
  ticks s <= 32767 ->
  let s2 := receive_status rx s1 in
  let s3 := ten_hz_cycle (adcs 0%nat) s2 in
  (ticks s <= 781 -> main_pass rx adcs s = render s2)
  /\ (781 < ticks s ->
      main_pass rx adcs s = render (ten_hz_loop adcs 1 s3)
      /\ ticks s3 = ticks s - 781
      /\ controllerSoC s3 =
         (if controller_percentage (adcs 0%nat) <? controllerSoC s2
          then controller_percentage (adcs 0%nat) else controllerSoC s2)
      /\ left_x s3 = to_U8 (Z.shiftr (ReadADC (adcs 0%nat) LEFT_X) 2)
      /\ left_y s3 = to_U8 (Z.shiftr (ReadADC (adcs 0%nat) LEFT_Y) 2)
      /\ right_x s3 = to_U8 (Z.shiftr (ReadADC (adcs 0%nat) RIGHT_X) 2)
      /\ right_y s3 = to_U8 (Z.shiftr (ReadADC (adcs 0%nat) RIGHT_Y) 2)
      /\ uart_tx s3 = uart_tx s2 ++ joystick_frame s3).
Proof.
  intros Hd Hshort s2 s3.
  assert (ticks s2 = ticks s) as Hticks.
  { subst s2. rewrite receive_status_frame.
    apply dispatch_frame in Hd as [-> _]. reflexivity. }
  assert (main_pass rx adcs s
          = render (if ticks s >? 781 then ten_hz_loop adcs 1 s3 else s2))
    as Hpass.
  { unfold main_pass. rewrite Hd. cbn [mbind res_bind]. fold s2.
    rewrite ten_hz_loop_eq, Hticks. reflexivity. }
  split; intros Ht; rewrite Hpass.
  - destruct (Z.gtb_spec (ticks s) 781); [lia|reflexivity].
  - pose proof (ten_hz_cycle_spec (adcs 0%nat) s2)
      as (Hk & Hc & Hlx & Hly & Hrx & Hry & _ & _ & _ & _ & Htx).
    fold s3 in Hk, Hc, Hlx, Hly, Hrx, Hry, Htx.
    split; [|split; [|tauto]].
    + destruct (Z.gtb_spec (ticks s) 781); [reflexivity|lia].
    + rewrite Hk, Hticks. unfold to_short. fold to_int.
      apply to_int_small. lia.
Qed.

Lemma main_pass_runs_cycle_above_781_witness :
  dispatch (after_ticks 782) = Ok (after_ticks 782)
  /\ ticks (after_ticks 782) = 782
  /\ ticks (ten_hz_cycle resting_adc
              (receive_status None (after_ticks 782))) = 1
  /\ uart_tx (ten_hz_cycle resting_adc
                (receive_status None (after_ticks 782)))
     = [99; 0; 10; 20; 30; 40; 100].
Proof.
  assert (dispatch (after_ticks 782) = Ok (after_ticks 782)) as Hd
    by (vm_compute; reflexivity).
  assert (ticks (after_ticks 782) = 782) as Ht by (vm_compute; reflexivity).
  assert (ticks (after_ticks 782) <= 32767) as Hshort
    by (rewrite Ht; discriminate).
  assert (781 < ticks (after_ticks 782)) as Hgt
    by (rewrite Ht; reflexivity).
  split; [exact Hd|]. split; [exact Ht|].
  destruct (main_pass_runs_cycle_above_781 None (fun _ => resting_adc)
              (after_ticks 782) (after_ticks 782) Hd Hshort) as [_ Hcycle].
  destruct (Hcycle Hgt) as (_ & Hk & _ & _ & _ & _ & _ & Htx).
  split; [rewrite Hk, Ht; reflexivity|].
  rewrite Htx. vm_compute. reflexivity.
Defined.

(** ** C5: the telemetry frame *)

(** C5: each 10 Hz cycle transmits exactly seven bytes, in this order: the
    command character 'c', the control bitfield, left-x, left-y, right-x,
    right-y and a checksum that is the sum of bytes 2 to 6 truncated to 8
    bits.  For controlBits = 0b00010001 and joystick samples 10, 20, 30, 40
    the frame ends in the checksum 117. *)
Theorem telemetry_frame_layout :
  (forall adc s,
     let s' := ten_hz_cycle adc s in
     exists b2 b3 b4 b5 b6,
       uart_tx s' = uart_tx s
                    ++ [99; b2; b3; b4; b5; b6;
                        (b2 + b3 + b4 + b5 + b6) mod 256]
       /\ b2 = to_U8 (controlBits s)
       /\ b3 = left_x s' /\ b4 = left_y s'
       /\ b5 = right_x s' /\ b6 = right_y s')
  /\ uart_tx (ten_hz_cycle resting_adc (with_controlBits 17 booted))
     = [99; 17; 10; 20; 30; 40; 117].
Proof.
  split.
  - intros adc s s'.
    pose proof (ten_hz_cycle_spec adc s)
      as (_ & _ & _ & _ & _ & _ & Hcb & _ & _ & _ & Htx).
    fold s' in Hcb, Htx. unfold joystick_frame in Htx. rewrite Hcb in Htx.
    do 5 eexists. split; [exact Htx|]. repeat split; reflexivity.
  - vm_compute. reflexivity.
Qed.

(** ** The shape of the state changes *)

Lemma for_loop_obs {A : Type} (obs : State -> A) body :
  (forall n s s', body n s = Ok s' -> obs s' = obs s) ->
  forall count n s s', for_loop count n body s = Ok s' -> obs s' = obs s.
Proof.
  intros Hbody. induction count as [|count IH]; intros n s s' H; cbn in H.
  - injection H as <-. reflexivity.
  - apply bind_Ok in H as (s1 & H1 & H). apply IH in H. apply Hbody in H1.
    congruence.
Qed.

Lemma arm_button_shape n s s' :
  arm_button n s = Ok s' -> s' = s \/ s' = with_touchedButton (to_S8 n) s.
Proof.
  unfold arm_button. intros H. apply bind_Ok in H as (b & _ & H).
  destruct (ButtonTouched s b); injection H as <-; auto.
Qed.

Lemma arm_slider_shape n s s' :
  arm_slider n s = Ok s' -> s' = s \/ s' = with_touchedSlider (to_S8 n) s.
Proof.
  unfold arm_slider. intros H. apply bind_Ok in H as (sl & _ & H).
  destruct (SliderTouched s sl); injection H as <-; auto.
Qed.

(** A drag changes the value of the slider and nothing else, and leaves it
    between 0 and 100. *)
Lemma drag_value_shape tx sl sl' :
  drag_value tx sl = Ok sl' ->
  exists v, sl' = Slider.with_value v sl /\ 0 <= v <= 100.
Proof.
  unfold drag_value. destruct (_ =? 0); [discriminate|].
  cbv zeta. cbn [Slider.value Slider.with_value].
  set (q := to_S8 _). intros H.
  destruct (Z.ltb_spec q 0) as [Hq|Hq]; cbn [Slider.value Slider.with_value] in H.
  - change (0 >? 100) with false in H. cbv iota in H. injection H as <-.
    exists 0. split; [reflexivity|lia].
  - destruct (Z.gtb_spec q 100) as [Hq'|Hq'];
      cbn [Slider.value Slider.with_value] in H; injection H as <-.
    + exists 100. split; [reflexivity|lia].
    + exists q. split; [reflexivity|lia].
Qed.

Lemma drag_slider_shape n s s' :
  drag_slider n s = Ok s' ->
  s' = s
  \/ exists sl v, sliders s !! Z.to_nat n = Some sl /\ 0 <= v <= 100
       /\ drag_value (touchX s) sl = Ok (Slider.with_value v sl)
       /\ s' = with_sliders (<[Z.to_nat n := Slider.with_value v sl]> (sliders s)) s.
Proof.
  unfold drag_slider. intros H. apply bind_Ok in H as (sl & Hsl & H).
  apply load_Ok in Hsl as [_ Hsl].
  destruct (_ && _); [|injection H as <-; auto].
  apply bind_Ok in H as (sl' & Hd & H).
  pose proof Hd as Hd'. apply drag_value_shape in Hd' as (v & -> & Hv).
  apply store_slider_Ok in H as (sl0 & _ & Hsl0 & ->).
  right. exists sl, v. auto.
Qed.

Lemma render_button_shape n s s' :
  render_button n s = Ok s' ->
  exists bs d, s' = with_buttons bs (with_display d s)
               /\ length bs = length (buttons s).
Proof.
  unfold render_button. intros H. apply bind_Ok in H as (b & _ & H).
  cbv zeta in H. destruct (_ && _).
  - apply store_button_Ok in H as (b0 & _ & _ & ->). cbn.
    eexists _, _. split; [reflexivity|]. apply length_insert.
  - apply store_button_Ok in H as (b0 & _ & _ & ->).
    exists (<[Z.to_nat n := Button.with_highlighted
                              (ButtonTouched s b && (touchedButton s =? n)) b]>
              (buttons s)), (display s).
    split; [destruct s; reflexivity|]. apply length_insert.
Qed.

Lemma render_slider_shape n s s' :
  render_slider n s = Ok s' ->
  s' = s
  \/ exists sl d, sliders s !! Z.to_nat n = Some sl
       /\ s' = with_sliders
                 (<[Z.to_nat n := Slider.with_oldValue (Slider.value sl) sl]>
                    (sliders s)) (with_display d s).
Proof.
  unfold render_slider. intros H. apply bind_Ok in H as (sl & Hsl & H).
  apply load_Ok in Hsl as [_ Hsl]. cbv zeta in H.
  destruct (_ && _); [|injection H as <-; auto].
  apply store_slider_Ok in H as (sl0 & _ & Hsl0 & ->). cbn in Hsl0.
  assert (sl0 = sl) as -> by congruence.
  right. eexists _, _. split; [exact Hsl|]. reflexivity.
Qed.

Lemma insert_same_geometry (sls : list Slider.t) i sl sl' :
  sls !! i = Some sl -> slider_geometry sl' = slider_geometry sl ->
  slider_geometry <$> <[i := sl']> sls = slider_geometry <$> sls.
Proof.
  intros Hsl Hg. rewrite list_fmap_insert, Hg. apply list_insert_id.
  rewrite list_lookup_fmap, Hsl. reflexivity.
Qed.

Lemma only_draws_refl s : only_draws s s.
Proof. unfold only_draws. destruct s; reflexivity. Qed.

Lemma only_draws_draw c s s' : only_draws s s' -> only_draws s (draw c s').
Proof.
  unfold only_draws, draw. intros H.
  rewrite H at 2. destruct s; reflexivity.
Qed.

Lemma DrawBattery_only_draws x y percentage s s' :
  only_draws s s' -> only_draws s (DrawBattery x y percentage s').
Proof.
  intros H. unfold DrawBattery. cbv zeta.
  do 2 apply only_draws_draw.
  destruct (displayNeedsFullRedraw s'); [do 2 apply only_draws_draw|];
    exact H.
Qed.

Lemma RenderMainPage_only_draws s : only_draws s (RenderMainPage s).
Proof.
  unfold RenderMainPage. cbv zeta.
  do 2 apply DrawBattery_only_draws.
  destruct (displayNeedsFullRedraw s);
    [do 10 apply only_draws_draw|]; apply only_draws_refl.
Qed.

(** An observation of the state that the widget bookkeeping cannot change:
    it does not look at the buttons, at the armed and pressed indices, at the
    control bits, at the output traces or at the redraw flag, and of the
    sliders it sees at most the geometry. *)
Section Frame.

Context {A : Type} (obs : State -> A).
Hypothesis obs_buttons : forall v s, obs (with_buttons v s) = obs s.
Hypothesis obs_touchedButton :
  forall v s, obs (with_touchedButton v s) = obs s.
Hypothesis obs_touchedSlider :
  forall v s, obs (with_touchedSlider v s) = obs s.
Hypothesis obs_buttonPressed :
  forall v s, obs (with_buttonPressed v s) = obs s.
Hypothesis obs_controlBits : forall v s, obs (with_controlBits v s) = obs s.
Hypothesis obs_uart_tx : forall v s, obs (with_uart_tx v s) = obs s.
Hypothesis obs_display : forall v s, obs (with_display v s) = obs s.
Hypothesis obs_flag :
  forall v s, obs (with_displayNeedsFullRedraw v s) = obs s.
Hypothesis obs_sliders :
  forall v s, slider_geometry <$> v = slider_geometry <$> sliders s ->
              obs (with_sliders v s) = obs s.

Lemma arm_button_obs n s s' : arm_button n s = Ok s' -> obs s' = obs s.
Proof. intros H. apply arm_button_shape in H as [->| ->]; auto. Qed.

Lemma arm_slider_obs n s s' : arm_slider n s = Ok s' -> obs s' = obs s.
Proof. intros H. apply arm_slider_shape in H as [->| ->]; auto. Qed.

Lemma drag_slider_obs n s s' : drag_slider n s = Ok s' -> obs s' = obs s.
Proof.
  intros H.
  apply drag_slider_shape in H as [->|(sl & v & Hsl & _ & _ & ->)];
    [reflexivity|].
  apply obs_sliders. now apply insert_same_geometry with sl.
Qed.

Lemma render_button_obs n s s' : render_button n s = Ok s' -> obs s' = obs s.
Proof.
  intros H. apply render_button_shape in H as (bs & d & -> & _).
  now rewrite obs_buttons, obs_display.
Qed.

Lemma render_slider_obs n s s' : render_slider n s = Ok s' -> obs s' = obs s.
Proof.
  intros H. apply render_slider_shape in H as [->|(sl & d & Hsl & ->)];
    [reflexivity|].
  rewrite obs_sliders, obs_display; [reflexivity|].
  now apply insert_same_geometry with sl.
Qed.

(** After the two coordinate assignments, that is. *)
Lemma HandleTouchDown_obs x y s s' :
  HandleTouchDown x y s = Ok s' ->
  obs s' = obs (with_touchY (to_int (to_U16 y))
                  (with_touchX (to_int (to_U16 x)) s)).
Proof.
  unfold HandleTouchDown. cbv zeta. set (s0 := with_touchY _ _).
  intros H. destruct (touchTimer s0 =? 3).
  - apply bind_Ok in H as (s1 & H1 & H).
    apply (for_loop_obs obs _ arm_button_obs) in H1.
    apply (for_loop_obs obs _ arm_slider_obs) in H. congruence.
  - destruct (touchTimer s0 >? 3).
    + now apply (for_loop_obs obs _ drag_slider_obs) in H.
    + now injection H as <-.
Qed.

Lemma HandleTouchUp_obs s s' : HandleTouchUp s = Ok s' -> obs s' = obs s.
Proof.
  unfold HandleTouchUp. destruct (touchTimer s <? 3).
  - intros H. now injection H as <-.
  - intros H. apply bind_Ok in H as (b & _ & H). cbv zeta in H.
    injection H as <-. rewrite obs_touchedSlider, obs_touchedButton.
    destruct (ButtonTouched s b); auto.
Qed.

Lemma dispatch_obs s s' : dispatch s = Ok s' -> obs s' = obs s.
Proof.
  intros H. apply dispatch_frame in H as [-> _].
  now rewrite obs_buttonPressed, obs_buttons, obs_controlBits, obs_uart_tx.
Qed.

Lemma render_obs s s' : render s = Ok s' -> obs s' = obs s.
Proof.
  unfold render, RenderButtons, RenderSliders. cbv zeta. intros H.
  apply bind_Ok in H as (s1 & H1 & H). apply bind_Ok in H as (s2 & H2 & H).
  injection H as <-.
  apply (for_loop_obs obs _ render_button_obs) in H1.
  apply (for_loop_obs obs _ render_slider_obs) in H2.
  rewrite obs_flag, H2, H1. destruct (currentPage s =? 0); [|reflexivity].
  rewrite (RenderMainPage_only_draws s). apply obs_display.
Qed.

End Frame.

#[local] Ltac frame_view lem :=
  intros H; apply (lem _ inputs_view) in H; try exact H; clear H;
  try (intros ? []; reflexivity);
  intros v [] Hv; unfold inputs_view; cbn in *; now rewrite Hv.

Lemma dispatch_view s s' :
  dispatch s = Ok s' -> inputs_view s' = inputs_view s.
Proof. frame_view @dispatch_obs. Qed.

Lemma render_view s s' :
  render s = Ok s' -> inputs_view s' = inputs_view s.
Proof. frame_view @render_obs. Qed.

Lemma HandleTouchUp_view s s' :
  HandleTouchUp s = Ok s' -> inputs_view s' = inputs_view s.
Proof. frame_view @HandleTouchUp_obs. Qed.

Lemma HandleTouchDown_view x y s s' :
  HandleTouchDown x y s = Ok s' ->
  inputs_view s' = inputs_view (with_touchY (to_int (to_U16 y))
                                  (with_touchX (to_int (to_U16 x)) s)).
Proof. frame_view @HandleTouchDown_obs. Qed.

Lemma TIMER1_OVF_view touch s s' :
  TIMER1_OVF touch s = Ok s' ->
  (hexapodSoC s', controllerSoC s', slider_geometry <$> sliders s',
   currentPage s', ticks s')
  = (hexapodSoC s, controllerSoC s, slider_geometry <$> sliders s,
     currentPage s, ticks s)
  /\ -32768 <= touchX s' <= 32767 /\ -32768 <= touchY s' <= 32767.
Proof.
  unfold TIMER1_OVF. destruct touch as [[x y]|]; intros H.
  - apply HandleTouchDown_view in H. unfold inputs_view in H. cbn in H.
    injection H as -> -> -> -> -> _ -> ->.
    split; [reflexivity|]. split; apply to_int_range.
  - apply bind_Ok in H as (s1 & H1 & H). injection H as <-. cbn.
    split; [|lia].
    destruct (touchTimer s >? 0).
    + apply HandleTouchUp_view in H1. unfold inputs_view in H1.
      now injection H1 as -> -> -> -> -> _ _ _.
    + now injection H1 as <-.
Qed.

(** ** C8: the battery estimates *)

(** C8: neither battery estimate ever increases.  The hexapod estimate
    changes only when a status byte is received, and then only to a strictly
    lower value; the controller estimate changes only in the 10 Hz cycle,
    and then only to a strictly lower newly computed percentage.  No other
    step of the program writes either estimate. *)
Theorem battery_estimates_never_increase e s s' :
  step e s = Some (Ok s') ->
  hexapodSoC s' <= hexapodSoC s
  /\ controllerSoC s' <= controllerSoC s
  /\ hexapodSoC s' =
     match e with
     | Receive (Some b) =>
         if to_U8 b <? hexapodSoC s then to_U8 b else hexapodSoC s
     | _ => hexapodSoC s
     end
  /\ controllerSoC s' =
     match e with
     | Cycle adc =>
         if controller_percentage adc <? controllerSoC s
         then controller_percentage adc else controllerSoC s
     | _ => controllerSoC s
     end.
Proof.
  intros H.
  assert (hexapodSoC s' =
          match e with
          | Receive (Some b) =>
              if to_U8 b <? hexapodSoC s then to_U8 b else hexapodSoC s
          | _ => hexapodSoC s
          end
          /\ controllerSoC s' =
             match e with
             | Cycle adc =>
                 if controller_percentage adc <? controllerSoC s
                 then controller_percentage adc else controllerSoC s
             | _ => controllerSoC s
             end) as [Hh Hc].
  { destruct e as [|touch| |rx|adc|]; cbn in H.
    - injection H as <-. split; reflexivity.
    - injection H as H. apply TIMER1_OVF_view in H as [H _].
      injection H as -> -> _ _ _. split; reflexivity.
    - injection H as H. apply dispatch_view in H.
      injection H as -> -> _ _ _ _ _ _. split; reflexivity.
    - injection H as <-. unfold receive_status.
      destruct rx as [b|]; [destruct (_ <? _)|]; split; reflexivity.
    - destruct (ticks s >? 781); [|discriminate]. injection H as <-.
      pose proof (ten_hz_cycle_spec adc s) as (_ & Hc & _ & _ & _ & _ & _ & Hh & _).
      split; assumption.
    - injection H as H. apply render_view in H.
      injection H as -> -> _ _ _ _ _ _. split; reflexivity. }
  split; [|split; [|split; assumption]].
  - rewrite Hh. destruct e as [| | |[b|]| |]; try lia.
    destruct (Z.ltb_spec (to_U8 b) (hexapodSoC s)); lia.
  - rewrite Hc. destruct e as [| | | |adc|]; try lia.
    destruct (Z.ltb_spec (controller_percentage adc) (controllerSoC s)); lia.
Qed.

Lemma battery_estimates_never_increase_witness :
  step (Receive (Some 80)) booted
  = Some (Ok (receive_status (Some 80) booted))
  /\ hexapodSoC booted = 100
  /\ hexapodSoC (receive_status (Some 80) booted) = 80
  /\ controllerSoC (receive_status (Some 80) booted)
     <= controllerSoC booted.
Proof.
  split; [reflexivity|]. split; [reflexivity|].
  destruct (battery_estimates_never_increase (Receive (Some 80)) booted
              (receive_status (Some 80) booted) eq_refl)
    as (_ & Hc & Hh & _).
  split; [rewrite Hh; reflexivity|exact Hc].
Defined.

(** Over a whole run of the program the estimates only go down. *)
Lemma battery_estimates_over_run s s' :
  run s s' ->
  hexapodSoC s' <= hexapodSoC s /\ controllerSoC s' <= controllerSoC s.
Proof.
  induction 1 as [s|s e s1 s2 Hstep _ IH]; [lia|].
  apply battery_estimates_never_increase in Hstep as (Hh & Hc & _). lia.
Qed.

(** ** C9: the sliders are never initialised *)

Lemma ten_hz_cycle_view adc s :
  sliders (ten_hz_cycle adc s) = sliders s
  /\ currentPage (ten_hz_cycle adc s) = currentPage s
  /\ touchX (ten_hz_cycle adc s) = touchX s
  /\ touchY (ten_hz_cycle adc s) = touchY s.
Proof.
  unfold ten_hz_cycle. cbv zeta.
  match goal with |- context [if ?c then _ else _] => destruct c end;
    repeat split; reflexivity.
Qed.

Lemma reachable_slider_invariant s : reachable s -> slider_invariant s.
Proof.
  induction 1 as [s Hinit|s e s' _ IH Hstep].
  - apply main_init_inv in Hinit as ->.
    split; vm_compute; try reflexivity; split; discriminate.
  - destruct IH as [Hg Hp Hx Hy].
    destruct e as [|touch| |rx|adc|]; cbn in Hstep.
    + injection Hstep as <-. split; assumption.
    + injection Hstep as H. apply TIMER1_OVF_view in H as (H & Hx' & Hy').
      injection H as _ _ Hg' Hp' _. split; congruence.
    + injection Hstep as H. apply dispatch_view in H.
      injection H as _ _ Hg' Hp' _ _ Hx' Hy'. split; congruence.
    + injection Hstep as <-. rewrite receive_status_frame.
      split; assumption.
    + destruct (ticks s >? 781); [|discriminate]. injection Hstep as <-.
      pose proof (ten_hz_cycle_view adc s) as (Hg' & Hp' & Hx' & Hy').
      split; congruence.
    + injection Hstep as H. apply render_view in H.
      injection H as _ _ Hg' Hp' _ _ Hx' Hy'. split; congruence.
Qed.

Lemma to_uint_of_int z :
  -32768 <= z <= 32767 -> to_uint z = if z <? 0 then z + 65536 else z.
Proof.
  intros Hz. unfold to_uint, wrap_unsigned. change (2 ^ 16) with 65536.
  destruct (Z.ltb_spec z 0).
  - symmetry. apply Z.mod_unique with (q := -1); lia.
  - apply Z.mod_small. lia.
Qed.

(** The hit region of a slider whose geometry is all zero. *)
Lemma SliderTouched_zero_geometry s sl :
  slider_geometry sl = (0, 0, 0, 0, 0) ->
  currentPage s = MAIN_PAGE ->
  -32768 <= touchX s <= 32767 -> -32768 <= touchY s <= 32767 ->
  SliderTouched s sl = true <-> touchX s = 0 /\ 0 <= touchY s <= 32.
Proof.
  intros Hg Hp Hx Hy. unfold slider_geometry in Hg.
  injection Hg as Hgx Hgy Hgw _ Hgp.
  unfold SliderTouched. rewrite Hgx, Hgy, Hgw, Hgp, Hp.
  change (to_uint (0 - 0 / 2)) with 0. change (to_uint (0 + 0 / 2)) with 0.
  change (to_uint 0) with 0. change (to_uint (0 + 32)) with 32.
  change (0 =? 0) with true.
  rewrite !to_uint_of_int by assumption.
  rewrite !andb_true_iff, !Z.geb_le, !Z.leb_le.
  destruct (Z.ltb_spec (touchX s) 0); destruct (Z.ltb_spec (touchY s) 0);
    lia.
Qed.

(** C9: InitialiseSlider is declared but never called.  The state in which
    the main loop starts has both sliders all zero (x, y, width, colour,
    value, oldValue and page), and in every reachable state each slider
    still has x, y, width, colour and page equal to zero, so its hit region
    is the single column touchX = 0 with touchY in [0, 32], on the main
    page, which is the only page the program is ever on. *)
Theorem sliders_never_initialised s :
  reachable s ->
  (main_init = Ok s -> sliders s = [Slider.zero; Slider.zero])
  /\ length (sliders s) = 2%nat
  /\ currentPage s = MAIN_PAGE
  /\ forall sl, In sl (sliders s) ->
       Slider.x sl = 0 /\ Slider.y sl = 0 /\ Slider.width sl = 0
       /\ Slider.colour sl = 0 /\ Slider.page sl = 0
       /\ (SliderTouched s sl = true <-> touchX s = 0 /\ 0 <= touchY s <= 32).
Proof.
  intros Hs. apply reachable_slider_invariant in Hs as [Hg Hp Hx Hy].
  split; [|split; [|split; [exact Hp|]]].
  - intros Hinit. apply main_init_inv in Hinit as ->. reflexivity.
  - apply (f_equal length) in Hg. now rewrite length_fmap in Hg.
  - intros sl Hin.
    assert (slider_geometry sl = (0, 0, 0, 0, 0)) as Hsl.
    { apply (in_map slider_geometry) in Hin.
      change (map slider_geometry (sliders s))
        with (slider_geometry <$> sliders s) in Hin.
      rewrite Hg in Hin. cbn in Hin. intuition congruence. }
    pose proof (SliderTouched_zero_geometry s sl Hsl Hp Hx Hy) as Hhit.
    unfold slider_geometry in Hsl. injection Hsl as Ex Ey Ew Ec Ep.
    tauto.
Qed.

Lemma reachable_poll touches : forall s s',
  reachable s -> poll touches s = Ok s' -> reachable s'.
Proof.
  induction touches as [|t touches IH]; intros s s' Hs H; cbn in H.
  - now injection H as <-.
  - apply bind_Ok in H as (s1 & H1 & H). apply (IH s1); [|exact H].
    apply reachable_step with (s := s) (e := Timer1 t); [exact Hs|].
    cbn. now rewrite H1.
Qed.

Lemma sliders_never_initialised_witness :
  reachable booted
  /\ sliders booted = [Slider.zero; Slider.zero]
  /\ forall sl, In sl (sliders booted) ->
       Slider.width sl = 0
       /\ (SliderTouched booted sl = true
           <-> touchX booted = 0 /\ 0 <= touchY booted <= 32).
Proof.
  split; [exact reachable_booted|].
  destruct (sliders_never_initialised booted reachable_booted)
    as (Hinit & _ & _ & Hall).
  split; [exact (Hinit main_init_booted)|].
  intros sl Hin. destruct (Hall sl Hin) as (_ & _ & Hw & _ & _ & Hhit).
  split; [exact Hw|exact Hhit].
Defined.

(** ** C2: the sentinel in the deselect slots of SelectButton *)

(** C2, as stated, fails for the oldButton slot: with the sentinel there,
    SelectButton assigns through [buttons[-1]], outside the array, where the
    claimed behaviour skips the slot and succeeds. *)
Lemma sentinel_in_oldButton_is_accessed :
  SelectButton WALK_MODE NONE NONE booted = Fault (OutOfBounds "buttons" NONE)
  /\ SelectButton_as_claimed WALK_MODE NONE NONE booted = Ok booted.
Proof. split; vm_compute; reflexivity. Qed.

Lemma store_button_other i f s s' k :
  store_button i f s = Ok s' -> Z.of_nat k <> i ->
  buttons s' !! k = buttons s !! k.
Proof.
  intros H Hk. apply store_button_Ok in H as (b & Hi & _ & ->). cbn.
  apply list_lookup_insert_ne. lia.
Qed.

(** C2 (amended): for every call to SelectButton, a sentinel -1 passed in
    the otherOldButton slot is a no-op for that slot: the call makes the four
    assignments to the new and the old button and no other access, so no
    button's fields are read or written on account of that slot and every
    button other than the new and the old one is unchanged.  Whenever the
    oldButton slot does not hold the sentinel, SelectButton does what the
    claim describes; the oldButton slot itself is not guarded. *)
Theorem sentinel_in_otherOldButton_is_noop newButton oldButton s :
  SelectButton newButton oldButton NONE s
  = select_and_deselect newButton oldButton s
  /\ (forall otherOldButton,
        oldButton <> NONE ->
        SelectButton newButton oldButton otherOldButton s
        = SelectButton_as_claimed newButton oldButton otherOldButton s)
  /\ (forall s' k,
        SelectButton newButton oldButton NONE s = Ok s' ->
        Z.of_nat k <> newButton -> Z.of_nat k <> oldButton ->
        buttons s' !! k = buttons s !! k).
Proof.
  assert (SelectButton newButton oldButton NONE s
          = select_and_deselect newButton oldButton s) as Heq.
  { unfold SelectButton, select_and_deselect.
    destruct (store_button newButton _ s) as [s1|]; [cbn|reflexivity].
    destruct (store_button newButton _ s1) as [s2|]; [cbn|reflexivity].
    destruct (store_button oldButton _ s2) as [s3|]; [cbn|reflexivity].
    destruct (store_button oldButton _ s3) as [s4|]; reflexivity. }
  split; [exact Heq|]. split.
  - intros otherOldButton Hold.
    unfold SelectButton, SelectButton_as_claimed, deselect_unless_none.
    destruct (Z.eqb_spec oldButton NONE) as [|_]; [contradiction|].
    destruct (store_button newButton _ s) as [s1|]; [cbn|reflexivity].
    destruct (store_button newButton _ s1) as [s2|]; [cbn|reflexivity].
    destruct (store_button oldButton _ s2) as [s3|]; [cbn|reflexivity].
    destruct (store_button oldButton _ s3) as [s4|]; [cbn|reflexivity].
    destruct (otherOldButton =? NONE); reflexivity.
  - intros s' k H Hn Ho.
    rewrite Heq in H. unfold select_and_deselect in H.
    apply bind_Ok in H as (s1 & H1 & H). apply bind_Ok in H as (s2 & H2 & H).
    apply bind_Ok in H as (s3 & H3 & H).
    rewrite (store_button_other _ _ _ _ k H Ho).
    rewrite (store_button_other _ _ _ _ k H3 Ho).
    rewrite (store_button_other _ _ _ _ k H2 Hn).
    apply (store_button_other _ _ _ _ k H1 Hn).
Qed.

Lemma sentinel_in_otherOldButton_is_noop_witness :
  exists s',
    SelectButton WIGGLE_MODE WALK_MODE NONE booted = Ok s'
    /\ Button.selected <$> buttons s'
       = [false; true; true; false; true; false; true; false; true; false;
          false; true; false]
    /\ buttons s' !! 2%nat = buttons booted !! 2%nat.
Proof.
  destruct (sentinel_in_otherOldButton_is_noop WIGGLE_MODE WALK_MODE booted)
    as (Heq & _ & Hother).
  eexists. split; [vm_compute; reflexivity|]. split; [reflexivity|].
  apply (Hother _ 2%nat); [vm_compute; reflexivity|discriminate|discriminate].
Defined.

(** ** C3: the release handler and the armed-button index *)

(** When no button is armed, a release after three or more polls reads
    [buttons[-1]]. *)
Lemma HandleTouchUp_unarmed s :
  3 <= touchTimer s -> touchedButton s < 0 ->
  HandleTouchUp s = Fault (OutOfBounds "buttons" (touchedButton s)).
Proof.
  intros Ht Hb. unfold HandleTouchUp.
  destruct (Z.ltb_spec (touchTimer s) 3); [lia|].
  rewrite load_Fault by lia. reflexivity.
Qed.

(** C3 fails on the code: a finger held for three polls at (10, 10), where
    there is no button, and then lifted, makes HandleTouchUp evaluate
    [ButtonTouched(&buttons[touchedButton])] with [touchedButton] still -1. *)
Theorem release_with_no_button_armed_reads_out_of_bounds :
  (exists s,
     poll [Some (10, 10); Some (10, 10); Some (10, 10)] booted = Ok s
     /\ reachable s /\ touchTimer s = 3 /\ touchedButton s = NONE
     /\ HandleTouchUp s = Fault (OutOfBounds "buttons" NONE))
  /\ poll [Some (10, 10); Some (10, 10); Some (10, 10); None] booted
     = Fault (OutOfBounds "buttons" NONE).
Proof.
  split; [|vm_compute; reflexivity].
  eexists. split; [vm_compute; reflexivity|].
  split; [|split; [reflexivity|split; [reflexivity|]]].
  - apply (reachable_poll [Some (10, 10); Some (10, 10); Some (10, 10)]
             booted); [exact reachable_booted|vm_compute; reflexivity].
  - vm_compute. reflexivity.
Qed.

(** ** C4: the debounce guarantee *)

(** The first two polls of a touch only count and latch the coordinates. *)
Lemma TIMER1_OVF_settling x y s :
  0 <= touchTimer s < 2 ->
  TIMER1_OVF (Some (x, y)) s
  = Ok (with_touchY (to_int (to_U16 y))
          (with_touchX (to_int (to_U16 x))
             (with_touchTimer (touchTimer s + 1) s))).
Proof.
  intros Ht. unfold TIMER1_OVF, HandleTouchDown, to_short. fold to_int.
  rewrite (to_int_small (touchTimer s + 1)) by lia. cbv zeta.
  cbn [touchTimer with_touchX with_touchY with_touchTimer].
  destruct (Z.eqb_spec (touchTimer s + 1) 3); [lia|].
  destruct (Z.gtb_spec (touchTimer s + 1) 3); [lia|]. reflexivity.
Qed.

(** A release before the third poll only resets the counter and the
    coordinates. *)
Lemma TIMER1_OVF_early_release s :
  touchTimer s < 3 ->
  TIMER1_OVF None s
  = Ok (with_touchY (-1) (with_touchX (-1) (with_touchTimer 0 s))).
Proof.
  intros Ht. unfold TIMER1_OVF, HandleTouchUp.
  destruct (touchTimer s >? 0); [|reflexivity].
  destruct (Z.ltb_spec (touchTimer s) 3); [reflexivity|lia].
Qed.

Lemma settling_poll x y s :
  0 <= touchTimer s < 2 ->
  exists s', TIMER1_OVF (Some (x, y)) s = Ok s'
             /\ widgets_view s' = widgets_view s
             /\ touchTimer s' = touchTimer s + 1.
Proof.
  intros Ht. rewrite TIMER1_OVF_settling by exact Ht.
  eexists. split; [reflexivity|]. split; reflexivity.
Qed.

Lemma early_release_poll s :
  touchTimer s < 3 ->
  exists s', TIMER1_OVF None s = Ok s'
             /\ widgets_view s' = widgets_view s /\ touchTimer s' = 0.
Proof.
  intros Ht. rewrite TIMER1_OVF_early_release by exact Ht.
  eexists. split; [reflexivity|]. split; reflexivity.
Qed.

Lemma settling_polls touches : forall s k,
  0 <= touchTimer s ->
  touchTimer s + Z.of_nat (length touches) < 3 ->
  exists s',
    poll (take k (map Some touches ++ [None])) s = Ok s'
    /\ widgets_view s' = widgets_view s
    /\ ((length touches < k)%nat -> touchTimer s' = 0).
Proof.
  induction touches as [|[x y] touches IH]; intros s k H0 Hlen;
    cbn [length] in Hlen; cbn [map app].
  - destruct k as [|k].
    + exists s. split; [reflexivity|]. split; [reflexivity|].
      cbn [length]. lia.
    + cbn [take]. rewrite take_nil. cbn [poll].
      destruct (early_release_poll s ltac:(lia)) as (s' & -> & Hv & Ht).
      exists s'. split; [reflexivity|]. split; [exact Hv|]. intros _. exact Ht.
  - destruct k as [|k].
    + exists s. split; [reflexivity|]. split; [reflexivity|].
      cbn [length]. lia.
    + cbn [take poll].
      destruct (settling_poll x y s ltac:(lia)) as (s1 & -> & Hv1 & Ht1).
      destruct (IH s1 k ltac:(lia) ltac:(lia)) as (s' & Hs' & Hv & Ht).
      exists s'. split; [exact Hs'|]. split; [congruence|].
      cbn [length]. intros Hk. apply Ht. lia.
Qed.

(** C4: a touch session shorter than three consecutive polls, that is fewer
    than three polls with touch data followed by a poll without, commits no
    button action (buttonPressed keeps its value, so it stays -1), arms no
    widget and changes no slider value, neither at its end nor at any poll
    on the way ([k] polls into the session); the handler runs without fault
    and the session ends with the counter back at 0. *)
Theorem short_touch_is_discarded touches s k :
  touchTimer s = 0 ->
  (length touches < 3)%nat ->
  exists s',
    poll (take k (map Some touches ++ [None])) s = Ok s'
    /\ buttonPressed s' = buttonPressed s
    /\ touchedButton s' = touchedButton s
    /\ touchedSlider s' = touchedSlider s
    /\ sliders s' = sliders s
    /\ buttons s' = buttons s
    /\ ((length touches < k)%nat -> touchTimer s' = 0).
Proof.
  intros Ht Hlen.
  destruct (settling_polls touches s k ltac:(lia) ltac:(lia))
    as (s' & Hs' & Hv & Ht').
  exists s'. split; [exact Hs'|].
  unfold widgets_view in Hv.
  assert (buttonPressed s' = buttonPressed s) as Hp by congruence.
  assert (touchedButton s' = touchedButton s) as Hb by congruence.
  assert (touchedSlider s' = touchedSlider s) as Hsl by congruence.
  assert (sliders s' = sliders s) as Hsls by congruence.
  assert (buttons s' = buttons s) as Hbs by congruence.
  tauto.
Qed.

Lemma short_touch_is_discarded_witness :
  touchTimer booted = 0
  /\ (length [(260, 40); (261, 41)] < 3)%nat
  /\ exists s',
       poll [Some (260, 40); Some (261, 41); None] booted = Ok s'
       /\ buttonPressed s' = NONE
       /\ touchedButton s' = NONE
       /\ touchedSlider s' = NONE
       /\ sliders s' = sliders booted.
Proof.
  assert (touchTimer booted = 0) as Ht by reflexivity.
  assert (length [(260, 40); (261, 41)] < 3)%nat as Hlen by (cbn; lia).
  split; [exact Ht|]. split; [exact Hlen|].
  destruct (short_touch_is_discarded [(260, 40); (261, 41)] booted 3 Ht Hlen)
    as (s' & Hs' & Hp & Hb & Hsl & Hsls & _).
  exists s'. split; [exact Hs'|]. split; [exact Hp|].
  split; [exact Hb|]. split; [exact Hsl|exact Hsls].
Defined.

(** ** C7: mutual exclusion within a group *)

(** The dispatch of a press calls SelectButton with the pressed button and
    its siblings. *)
Lemma dispatch_selects s :
  0 <= buttonPressed s < NUM_BUTTONS ->
  exists s0,
    buttons s0 = buttons s
    /\ dispatch s
       = (s1 ← SelectButton (buttonPressed s)
                 (nth 0 (siblings (buttonPressed s)) NONE)
                 (nth 1 (siblings (buttonPressed s)) NONE) s0;
          Ok (with_buttonPressed NONE s1)).
Proof.
  intros Hp. unfold NUM_BUTTONS in Hp.
  assert (buttonPressed s = 0 \/ buttonPressed s = 1 \/ buttonPressed s = 2
          \/ buttonPressed s = 3 \/ buttonPressed s = 4 \/ buttonPressed s = 5
          \/ buttonPressed s = 6 \/ buttonPressed s = 7 \/ buttonPressed s = 8
          \/ buttonPressed s = 9 \/ buttonPressed s = 10
          \/ buttonPressed s = 11 \/ buttonPressed s = 12) as Hcases by lia.
  unfold dispatch.
  repeat destruct Hcases as [->|Hcases]; try rewrite Hcases;
    cbn [siblings nth]; eexists; (split; [|reflexivity]); reflexivity.
Qed.

#[local] Ltac explicit_buttons s0 Hlen E :=
  destruct (buttons s0) as [|? [|? [|? [|? [|? [|? [|? [|? [|? [|? [|? [|?
    [|? [|? ?]]]]]]]]]]]]]] eqn:E; try discriminate Hlen.

(** C7: after the main loop has dispatched a committed press of any button,
    which it does through SelectButton with the siblings of that button's
    mutual-exclusion group, exactly one button of the group is selected: the
    pressed one has selected = true and needsRedraw = true, and each sibling
    has selected = false and needsRedraw = true. *)
Theorem selection_is_exclusive s :
  length (buttons s) = Z.to_nat NUM_BUTTONS ->
  0 <= buttonPressed s < NUM_BUTTONS ->
  exists s',
    dispatch s = Ok s'
    /\ flags s' (buttonPressed s) = Some (true, true)
    /\ (forall q, In q (siblings (buttonPressed s)) ->
          flags s' q = Some (false, true))
    /\ List.filter (is_selected s') (group (buttonPressed s))
       = [buttonPressed s].
Proof.
  intros Hlen Hp. destruct (dispatch_selects s Hp) as (s0 & Hb & ->).
  rewrite <- Hb in Hlen. clear Hb. unfold NUM_BUTTONS in Hp.
  assert (buttonPressed s = 0 \/ buttonPressed s = 1 \/ buttonPressed s = 2
          \/ buttonPressed s = 3 \/ buttonPressed s = 4 \/ buttonPressed s = 5
          \/ buttonPressed s = 6 \/ buttonPressed s = 7 \/ buttonPressed s = 8
          \/ buttonPressed s = 9 \/ buttonPressed s = 10
          \/ buttonPressed s = 11 \/ buttonPressed s = 12) as Hcases by lia.
  clear Hp. explicit_buttons s0 Hlen E. clear Hlen.
  repeat destruct Hcases as [->|Hcases]; try rewrite Hcases;
    cbn [siblings nth group];
    unfold SelectButton, store_button; rewrite E;
    cbn -[with_buttons with_buttonPressed];
    (eexists; split; [reflexivity|]);
    unfold is_selected, flags; cbn;
    (split; [reflexivity|]);
    (split; [|reflexivity]);
    intros q Hq; repeat destruct Hq as [<-|Hq]; try contradiction;
    reflexivity.
Qed.

Lemma selection_is_exclusive_witness :
  reachable wiggle_pressed
  /\ buttonPressed wiggle_pressed = WIGGLE_MODE
  /\ exists s',
       dispatch wiggle_pressed = Ok s'
       /\ controlBits s' = 1
       /\ flags s' WIGGLE_MODE = Some (true, true)
       /\ flags s' WALK_MODE = Some (false, true)
       /\ List.filter (is_selected s') [WIGGLE_MODE; WALK_MODE]
          = [WIGGLE_MODE].
Proof.
  split.
  - apply (reachable_poll
             [Some (260, 40); Some (260, 40); Some (260, 40); Some (260, 40);
              Some (260, 40); None] booted);
      [exact reachable_booted|vm_compute; reflexivity].
  - split; [vm_compute; reflexivity|].
    assert (length (buttons wiggle_pressed) = Z.to_nat NUM_BUTTONS) as Hlen
      by (vm_compute; reflexivity).
    assert (0 <= buttonPressed wiggle_pressed < NUM_BUTTONS) as Hp
      by (vm_compute; split; [discriminate|reflexivity]).
    destruct (selection_is_exclusive wiggle_pressed Hlen Hp)
      as (s' & Hs' & Hnew & Hold & Hone).
    assert (buttonPressed wiggle_pressed = WIGGLE_MODE) as Hw
      by (vm_compute; reflexivity).
    rewrite Hw in Hnew, Hold, Hone.
    exists s'. split; [exact Hs'|].
    split; [|split; [exact Hnew|split; [|exact Hone]]].
    + assert (dispatch wiggle_pressed = Ok s') as Hd by exact Hs'.
      vm_compute in Hd. apply Ok_inj in Hd. rewrite <- Hd. reflexivity.
    + apply Hold. left. reflexivity.
Defined.

(** ** C10: the last widget in iteration order wins *)

Section LastWins.

Context {W : Type} (name : string) (arr : State -> list W)
  (touched : State -> W -> bool) (arm : Z -> State -> State)
  (armed : State -> Z).
Abbreviation arm_widget := (arm_if_touched name arr touched arm).
Hypothesis arr_arm : forall v s, arr (arm v s) = arr s.
Hypothesis touched_arm : forall v s w, touched (arm v s) w = touched s w.
Hypothesis armed_arm : forall v s, armed (arm v s) = v.

(** After the iterations [n], ..., [n + count - 1], either no widget of
    that range is touched and the armed index is as before, or the armed
    index is that of the last touched widget of the range. *)
Lemma arm_loop_last count : forall n s,
  (n + count <= length (arr s))%nat ->
  exists s',
    for_loop count (Z.of_nat n) arm_widget s = Ok s'
    /\ arr s' = arr s
    /\ (forall w, touched s' w = touched s w)
    /\ ((armed s' = armed s
         /\ forall k w, (n <= k < n + count)%nat -> arr s !! k = Some w ->
                        touched s w = false)
        \/ exists k w,
             (n <= k < n + count)%nat /\ arr s !! k = Some w
             /\ touched s w = true /\ armed s' = to_S8 (Z.of_nat k)
             /\ forall m w', (k < m < n + count)%nat ->
                             arr s !! m = Some w' -> touched s w' = false).
Proof.
  induction count as [|count IH]; intros n s Hlen.
  - exists s. split; [reflexivity|]. split; [reflexivity|].
    split; [reflexivity|]. left. split; [reflexivity|]. intros; lia.
  - destruct (lookup_lt_is_Some_2 (arr s) n ltac:(lia)) as [wn Hwn].
    set (s1 := if touched s wn then arm (to_S8 (Z.of_nat n)) s else s).
    assert (arm_widget (Z.of_nat n) s = Ok s1) as Hstep.
    { unfold arm_widget.
      assert (load name (arr s) (Z.of_nat n) = Ok wn) as ->
        by (apply load_Ok; rewrite Nat2Z.id; split; [lia|exact Hwn]).
      reflexivity. }
    cbn [for_loop]. rewrite Hstep. cbn [mbind res_bind].
    assert (arr s1 = arr s) as Harr
      by (subst s1; destruct (touched s wn); auto).
    assert (forall w, touched s1 w = touched s w) as Htouched
      by (intros w; subst s1; destruct (touched s wn); auto).
    replace (Z.of_nat n + 1) with (Z.of_nat (S n)) by lia.
    destruct (IH (S n) s1 ltac:(rewrite Harr; lia))
      as (s' & Hs' & Harr' & Htouched' & Hlast).
    exists s'. split; [exact Hs'|]. split; [congruence|].
    split; [intros w; rewrite Htouched'; apply Htouched|].
    rewrite Harr in Hlast.
    destruct Hlast as [[Harmed Hnone]|(k & w & Hk & Hw & Ht & Harmed & Hlater)].
    + destruct (touched s wn) eqn:Hn.
      * right. exists n, wn. split; [lia|]. split; [exact Hwn|].
        split; [exact Hn|]. split.
        -- rewrite Harmed. subst s1. cbv iota. apply armed_arm.
        -- intros m w' Hm Hw'. rewrite <- Htouched.
           apply (Hnone m); [lia|exact Hw'].
      * left. split; [rewrite Harmed; subst s1; reflexivity|].
        intros k w Hk Hw. destruct (decide (k = n)) as [->|Hne].
        -- congruence.
        -- rewrite <- Htouched. apply (Hnone k); [lia|exact Hw].
    + right. exists k, w. split; [lia|]. split; [exact Hw|].
      split; [now rewrite <- Htouched|]. split; [exact Harmed|].
      intros m w' Hm Hw'. rewrite <- Htouched.
      apply (Hlater m); [lia|exact Hw'].
Qed.

(** The statement in the form the claim has. *)
Lemma arm_loop_last_wins s :
  exists s',
    for_each (Z.of_nat (length (arr s))) arm_widget s = Ok s'
    /\ arr s' = arr s
    /\ (forall w, touched s' w = touched s w)
    /\ (forall n w,
          arr s !! n = Some w -> touched s w = true ->
          (forall m w', (n < m)%nat -> arr s !! m = Some w' ->
                        touched s w' = false) ->
          armed s' = to_S8 (Z.of_nat n))
    /\ ((forall n w, arr s !! n = Some w -> touched s w = false) ->
        armed s' = armed s).
Proof.
  unfold for_each. rewrite Nat2Z.id.
  destruct (arm_loop_last (length (arr s)) 0 s ltac:(lia))
    as (s' & Hs' & Harr & Htouched & Hlast).
  exists s'. split; [exact Hs'|]. split; [exact Harr|].
  split; [exact Htouched|]. split.
  - intros n w Hw Ht Hlater.
    pose proof (lookup_lt_Some _ _ _ Hw) as Hn.
    destruct Hlast as [[_ Hnone]|(k & w0 & Hk & Hw0 & Ht0 & Harmed & Hl)].
    + rewrite (Hnone n w) in Ht; [discriminate|lia|exact Hw].
    + destruct (lt_eq_lt_dec k n) as [[Hlt| ->]|Hgt].
      * rewrite (Hl n w) in Ht; [discriminate|lia|exact Hw].
      * exact Harmed.
      * rewrite (Hlater k w0) in Ht0; [discriminate|lia|exact Hw0].
  - intros Hnone.
    destruct Hlast as [[Harmed _]|(k & w0 & _ & Hw0 & Ht0 & _)];
      [exact Harmed|].
    rewrite (Hnone k w0 Hw0) in Ht0. discriminate.
Qed.

End LastWins.

(** C10: at the debounce-settle poll (touchTimer == 3), with the touch
    coordinates just latched, the button that becomes armed is the last one
    in iteration order whose hit-test passes, whatever other buttons pass
    it too; the same holds of the sliders.  If no hit-test passes, the armed
    index is left as it was. *)
Theorem last_touched_widget_is_armed x y s :
  length (buttons s) = Z.to_nat NUM_BUTTONS ->
  length (sliders s) = Z.to_nat NUM_SLIDERS ->
  touchTimer s = 3 ->
  let s0 :=
    with_touchY (to_int (to_U16 y)) (with_touchX (to_int (to_U16 x)) s) in
  exists s',
    HandleTouchDown x y s = Ok s'
    /\ (forall n b,
          buttons s !! n = Some b -> ButtonTouched s0 b = true ->
          (forall m b', (n < m)%nat -> buttons s !! m = Some b' ->
                        ButtonTouched s0 b' = false) ->
          touchedButton s' = Z.of_nat n)
    /\ (forall n sl,
          sliders s !! n = Some sl -> SliderTouched s0 sl = true ->
          (forall m sl', (n < m)%nat -> sliders s !! m = Some sl' ->
                         SliderTouched s0 sl' = false) ->
          touchedSlider s' = Z.of_nat n)
    /\ ((forall n b, buttons s !! n = Some b -> ButtonTouched s0 b = false) ->
        touchedButton s' = touchedButton s)
    /\ ((forall n sl, sliders s !! n = Some sl ->
                      SliderTouched s0 sl = false) ->
        touchedSlider s' = touchedSlider s).
Proof.
  intros Hb Hsl Ht s0.
  destruct (arm_loop_last_wins "buttons" buttons ButtonTouched
              with_touchedButton touchedButton
              (fun _ _ => eq_refl) (fun _ _ _ => eq_refl)
              (fun _ _ => eq_refl) s0)
    as (s1 & Hs1 & Hbs1 & _ & Hlast1 & Hnone1).
  change (arm_if_touched "buttons" buttons ButtonTouched with_touchedButton)
    with arm_button in Hs1.
  change (buttons s0) with (buttons s) in Hs1, Hbs1, Hlast1, Hnone1.
  rewrite Hb in Hs1. change (Z.of_nat (Z.to_nat NUM_BUTTONS))
    with NUM_BUTTONS in Hs1.
  assert (sliders s1 = sliders s) as Hsl1.
  { unfold for_each in Hs1.
    apply (for_loop_obs sliders _
             (arm_button_obs sliders (fun _ _ => eq_refl))) in Hs1.
    exact Hs1. }
  assert (forall sl, SliderTouched s1 sl = SliderTouched s0 sl) as Hhit1.
  { intros sl. unfold for_each in Hs1.
    apply (for_loop_obs (fun s => SliderTouched s sl) _
             (arm_button_obs (fun s => SliderTouched s sl)
                (fun _ _ => eq_refl))) in Hs1.
    exact Hs1. }
  destruct (arm_loop_last_wins "sliders" sliders SliderTouched
              with_touchedSlider touchedSlider
              (fun _ _ => eq_refl) (fun _ _ _ => eq_refl)
              (fun _ _ => eq_refl) s1)
    as (s2 & Hs2 & _ & _ & Hlast2 & Hnone2).
  change (arm_if_touched "sliders" sliders SliderTouched with_touchedSlider)
    with arm_slider in Hs2.
  rewrite Hsl1 in Hs2, Hlast2, Hnone2. rewrite Hsl in Hs2.
  change (Z.of_nat (Z.to_nat NUM_SLIDERS)) with NUM_SLIDERS in Hs2.
  assert (touchedButton s2 = touchedButton s1) as Hb2.
  { unfold for_each in Hs2.
    apply (for_loop_obs touchedButton _
             (arm_slider_obs touchedButton (fun _ _ => eq_refl))) in Hs2.
    exact Hs2. }
  exists s2. split.
  - unfold HandleTouchDown. cbv zeta. fold s0.
    change (touchTimer s0) with (touchTimer s). rewrite Ht.
    change (3 =? 3) with true. cbv iota. rewrite Hs1. exact Hs2.
  - split; [|split; [|split]].
    + intros n b Hn Hhit Hlater. rewrite Hb2, (Hlast1 n b Hn Hhit Hlater).
      apply to_S8_small. apply lookup_lt_Some in Hn. rewrite Hb in Hn.
      unfold NUM_BUTTONS in Hn. lia.
    + intros n sl Hn Hhit Hlater.
      rewrite (Hlast2 n sl Hn).
      * apply to_S8_small. apply lookup_lt_Some in Hn. rewrite Hsl in Hn.
        unfold NUM_SLIDERS in Hn. lia.
      * now rewrite Hhit1.
      * intros m sl' Hm Hsl'. rewrite Hhit1. now apply (Hlater m).
    + intros Hnone. now rewrite Hb2, Hnone1.
    + intros Hnone. rewrite Hnone2.
      * unfold for_each in Hs1.
        apply (for_loop_obs touchedSlider _
                 (arm_button_obs touchedSlider (fun _ _ => eq_refl))) in Hs1.
        exact Hs1.
      * intros n sl Hn. rewrite Hhit1. now apply (Hnone n).
Qed.

(** In the running program the two sliders share one hit region (C9), so a
    touch at (0, 10) passes both hit-tests, and the later one is armed. *)
Lemma last_touched_widget_is_armed_witness :
  length (buttons (with_touchTimer 3 booted)) = Z.to_nat NUM_BUTTONS
  /\ length (sliders (with_touchTimer 3 booted)) = Z.to_nat NUM_SLIDERS
  /\ touchTimer (with_touchTimer 3 booted) = 3
  /\ exists s',
       HandleTouchDown 0 10 (with_touchTimer 3 booted) = Ok s'
       /\ touchedSlider s' = BACK_SERVO.
Proof.
  assert (length (buttons (with_touchTimer 3 booted)) = Z.to_nat NUM_BUTTONS)
    as Hb by (vm_compute; reflexivity).
  assert (length (sliders (with_touchTimer 3 booted)) = Z.to_nat NUM_SLIDERS)
    as Hsl by (vm_compute; reflexivity).
  assert (touchTimer (with_touchTimer 3 booted) = 3) as Ht by reflexivity.
  split; [exact Hb|]. split; [exact Hsl|]. split; [exact Ht|].
  destruct (last_touched_widget_is_armed 0 10 (with_touchTimer 3 booted)
              Hb Hsl Ht) as (s' & Hs' & _ & Hlast & _).
  exists s'. split; [exact Hs'|].
  apply (Hlast 1%nat Slider.zero).
  - vm_compute. reflexivity.
  - vm_compute. reflexivity.
  - intros m sl' Hm Hl. destruct m as [|[|m]]; [lia|lia|].
    vm_compute in Hl. discriminate Hl.
Defined.

(** Two buttons that overlap: were the "Wiggle" button initialised ten
    pixels to the right of "Walk", a touch at (150, 40) would pass the
    hit-tests of both, and "Wiggle", the later one, is armed. *)
Example overlapping_buttons_last_wins :
  exists s s',
    InitialiseButton WIGGLE_MODE 150 30 100 BLUE "Wiggle" 0
      (with_touchTimer 3 booted) = Ok s
    /\ HandleTouchDown 150 40 s = Ok s'
    /\ (ButtonTouched s' <$> buttons s' !! 0%nat) = Some true
    /\ (ButtonTouched s' <$> buttons s' !! 1%nat) = Some true
    /\ touchedButton s' = WIGGLE_MODE.
Proof.
  eexists _, _. split; [vm_compute; reflexivity|].
  split; [vm_compute; reflexivity|]. repeat split.
Qed.

(** ** C6: the value of a dragged slider *)

(** The second half of C6 holds: whatever the touch position, a drag that
    changes a slider leaves its value between 0 and 100, and changes no
    other slider. *)
Lemma dragged_value_in_range n s s' :
  drag_slider n s = Ok s' ->
  s' = s
  \/ exists sl v, sliders s !! Z.to_nat n = Some sl /\ 0 <= v <= 100
       /\ sliders s' = <[Z.to_nat n := Slider.with_value v sl]> (sliders s).
Proof.
  intros H. apply drag_slider_shape in H as [->|(sl & v & Hsl & Hv & _ & ->)];
    [left; reflexivity|].
  right. exists sl, v. auto.
Qed.

(** The first half holds where nothing wraps: for a touch at or right of
    the left end of the usable track, with the product within 16 bits and
    the quotient within the range of the signed 8-bit value field, the value
    is the claimed one. *)
Lemma drag_value_on_track tx sl :
  16 < Slider.width sl <= 32767 ->
  0 <= Slider.x sl - (Slider.width sl - 16) / 2 ->
  Slider.x sl <= 65535 ->
  Slider.x sl - (Slider.width sl - 16) / 2 <= tx ->
  100 * (tx - (Slider.x sl - (Slider.width sl - 16) / 2)) <= 65535 ->
  100 * (tx - (Slider.x sl - (Slider.width sl - 16) / 2))
    <= 127 * (Slider.width sl - 16) ->
  drag_value tx sl
  = Ok (Slider.with_value
          (percentage_as_claimed tx (Slider.x sl) (Slider.width sl)) sl).
Proof.
  intros Hw Hleft Hx Htx Hfit Hq.
  unfold drag_value, percentage_as_claimed. cbv zeta.
  set (uw := Slider.width sl - 16) in *.
  assert (0 < uw <= 32751) as Huw by (subst uw; lia).
  rewrite (to_uint_small uw) by lia. rewrite (to_int_small uw) by lia.
  rewrite (to_uint_small uw) by lia.
  destruct (Z.eqb_spec uw 0) as [|_]; [lia|].
  rewrite (Z.quot_div_nonneg uw 2) by lia.
  pose proof (Z.div_pos uw 2 ltac:(lia) ltac:(lia)) as Hhalf.
  set (left := Slider.x sl - uw / 2) in *.
  rewrite (to_uint_small left) by lia.
  set (d := tx - left) in *.
  rewrite (to_uint_small d) by lia.
  rewrite (to_uint_small (100 * d)) by lia.
  rewrite (Z.quot_div_nonneg (100 * d) uw) by lia.
  assert (0 <= 100 * d / uw <= 127) as Hrange.
  { split; [apply Z.div_pos; lia|].
    apply Z.div_le_upper_bound; lia. }
  rewrite (to_S8_small (100 * d / uw)) by lia.
  cbn [Slider.value Slider.with_value].
  destruct (Z.ltb_spec (100 * d / uw) 0) as [|_]; [lia|].
  cbn [Slider.value Slider.with_value].
  destruct (Z.gtb_spec (100 * d / uw) 100);
    cbn [Slider.value Slider.with_value];
    [rewrite Z.min_l, Z.max_r by lia|rewrite Z.min_r, Z.max_r by lia];
    reflexivity.
Qed.

(** C6 fails on the code: the quotient, 133 here, is stored into the signed
    8-bit value field before it is clamped, so it is read back as -123 and
    clamped to 0, where the claimed conversion gives 100. *)
Theorem drag_beyond_signed_byte_wraps :
  exists s s',
    narrow_slider = Ok s
    /\ poll [Some (180, 110); Some (180, 110); Some (180, 110);
             Some (180, 110)] s = Ok s'
    /\ touchTimer s' = 4
    /\ touchedSlider s' = FRONT_SERVO
    /\ (SliderTouched s' <$> sliders s' !! 0%nat) = Some true
    /\ (Slider.value <$> sliders s !! 0%nat) = Some 50
    /\ (Slider.value <$> sliders s' !! 0%nat) = Some 0
    /\ percentage_as_claimed 180 160 40 = 100.
Proof.
  eexists _, _. split; [vm_compute; reflexivity|].
  split; [vm_compute; reflexivity|]. repeat split.
Qed.

(** The unsigned arithmetic shows as well.  Left of the usable track the
    difference wraps around instead of going negative: on a slider as wide
    as the buttons, a touch on the left end of the hit region gives 2 where
    the claimed conversion gives 0. *)
Lemma drag_left_of_track_wraps :
  drag_value 110 (Slider.mk 160 100 100 BLUE 50 50 MAIN_PAGE)
  = Ok (Slider.mk 160 100 100 BLUE 2 50 MAIN_PAGE)
  /\ percentage_as_claimed 110 160 100 = 0.
Proof. split; vm_compute; reflexivity. Qed.

(** In the firmware as it runs, the drag code is only ever reached on the
    all-zero sliders at touchX = 0 (C9), with a usable width of -16: the
    unsigned quotient is 0 there, where the claimed conversion gives 50. *)
Lemma drag_in_the_running_firmware :
  exists s',
    corner_touch = Ok s' /\ reachable s'
    /\ touchedSlider s' = BACK_SERVO
    /\ drag_value (touchX s') Slider.zero = Ok Slider.zero
    /\ percentage_as_claimed 0 0 0 = 50.
Proof.
  eexists. split; [vm_compute; reflexivity|]. split.
  - apply (reachable_poll
             [Some (0, 10); Some (0, 10); Some (0, 10); Some (0, 10)] booted);
      [exact reachable_booted|vm_compute; reflexivity].
  - repeat split.
Qed.

(** ** The main-loop pass within the transition system *)

Lemma reachable_ten_hz_iter adcs bound : forall i s,
  reachable s -> reachable (ten_hz_iter bound adcs i s).
Proof.
  induction bound as [|bound IH]; intros i s Hs; cbn [ten_hz_iter];
    [exact Hs|].
  destruct (ticks s >? 781) eqn:Ht; [|exact Hs].
  apply IH. apply reachable_step with (s := s) (e := Cycle (adcs i));
    [exact Hs|].
  cbn [step]. now rewrite Ht.
Qed.

(** A pass of the main loop is a sequence of steps. *)
Lemma reachable_main_pass rx adcs s s' :
  reachable s -> main_pass rx adcs s = Ok s' -> reachable s'.
Proof.
  unfold main_pass. intros Hs H. apply bind_Ok in H as (s1 & H1 & H).
  cbv zeta in H.
  apply reachable_step with (e := Render)
                            (s := ten_hz_loop adcs 0 (receive_status rx s1));
    [|cbn [step]; now rewrite H].
  apply reachable_ten_hz_iter.
  apply reachable_step with (e := Receive rx) (s := s1); [|reflexivity].
  apply reachable_step with (e := Dispatch) (s := s); [exact Hs|].
  cbn [step]. now rewrite H1.
Qed.

(** * Further properties *)

(** ** The backlog of the 10 Hz loop *)

Lemma ten_hz_loop_backlog adcs m : forall i s,
  (Z.to_nat (ticks s) <= m)%nat ->
  1 <= ticks s <= 32767 ->
  1 <= ticks (ten_hz_loop adcs i s) <= 781
  /\ exists k,
       0 <= k
       /\ ticks s = ticks (ten_hz_loop adcs i s) + 781 * k
       /\ length (uart_tx (ten_hz_loop adcs i s))
          = (length (uart_tx s) + 7 * Z.to_nat k)%nat.
Proof.
  induction m as [|m IH]; intros i s Hm Ht; [lia|].
  rewrite ten_hz_loop_eq.
  destruct (Z.gtb_spec (ticks s) 781) as [Hgt|Hle].
  - pose proof (ten_hz_cycle_spec (adcs i) s)
      as (Hk & _ & _ & _ & _ & _ & _ & _ & _ & _ & Htx).
    unfold to_short in Hk. fold to_int in Hk.
    rewrite to_int_small in Hk by lia.
    destruct (IH (S i) (ten_hz_cycle (adcs i) s)) as (Hr & k & Hk0 & Hsum & Hlen);
      [lia|lia|].
    split; [exact Hr|]. exists (k + 1). split; [lia|]. split; [lia|].
    rewrite Hlen, Htx, length_app. unfold joystick_frame. cbn [length].
    rewrite Z2Nat.inj_add by lia. change (Z.to_nat 1) with 1%nat. lia.
  - split; [lia|]. exists 0. split; [lia|]. split; [lia|].
    change (Z.to_nat 0) with 0%nat. lia.
Qed.

(** X1: whatever backlog of ticks a main-loop pass finds, the 10 Hz loop
    drains it in that pass and loses no tick: it transmits one frame of
    seven bytes for every 781 ticks above the first, and leaves between 1
    and 781 ticks in the counter. *)
Theorem ten_hz_loop_drains_backlog adcs s :
  1 <= ticks s <= 32767 ->
  let s' := ten_hz_loop adcs 0 s in
  let frames := (ticks s - 1) / 781 in
  1 <= ticks s' <= 781
  /\ ticks s = ticks s' + 781 * frames
  /\ length (uart_tx s')
     = (length (uart_tx s) + 7 * Z.to_nat frames)%nat.
Proof.
  intros Ht s' frames.
  destruct (ten_hz_loop_backlog adcs (Z.to_nat (ticks s)) 0 s
              ltac:(lia) Ht) as (Hr & k & Hk0 & Hsum & Hlen).
  fold s' in Hr, Hsum, Hlen.
  assert (frames = k) as ->.
  { subst frames. symmetry.
    apply Z.div_unique with (r := ticks s' - 1); lia. }
  tauto.
Qed.

Lemma ten_hz_loop_drains_backlog_witness :
  1 <= ticks (after_ticks 2000) <= 32767
  /\ ticks (ten_hz_loop (fun _ => resting_adc) 0 (after_ticks 2000)) = 438
  /\ length (uart_tx (ten_hz_loop (fun _ => resting_adc) 0
                        (after_ticks 2000))) = 14%nat.
Proof.
  assert (ticks (after_ticks 2000) = 2000) as Ht
    by (vm_compute; reflexivity).
  assert (1 <= ticks (after_ticks 2000) <= 32767) as Hr
    by (rewrite Ht; split; discriminate).
  split; [exact Hr|].
  destruct (ten_hz_loop_drains_backlog (fun _ => resting_adc)
              (after_ticks 2000) Hr) as (Hb & Hsum & Hlen).
  rewrite Ht in Hsum. change ((2000 - 1) / 781) with 2 in Hsum.
  rewrite Ht in Hlen. change ((2000 - 1) / 781) with 2 in Hlen.
  split; [lia|]. rewrite Hlen. vm_compute. reflexivity.
Defined.

(** ** The range of the battery estimates *)



(** ** Status bytes over several passes *)

Lemma receive_status_min b s :
  receive_status (Some b) s
  = with_hexapodSoC (Z.min (to_U8 b) (hexapodSoC s)) s.
Proof.
  unfold receive_status. cbv zeta.
  destruct (Z.ltb_spec (to_U8 b) (hexapodSoC s)).
  - now rewrite Z.min_l by lia.
  - rewrite Z.min_r by lia. destruct s; reflexivity.
Qed.

Lemma fold_right_min_first l : forall u h,
  fold_right Z.min (Z.min u h) l = Z.min u (fold_right Z.min h l).
Proof.
  induction l as [|c l IH]; intros u h; cbn [fold_right]; [reflexivity|].
  rewrite IH. lia.
Qed.

(** X3: the filter on the inbound status byte keeps the running minimum.
    After any sequence of received bytes the hexapod estimate is the least
    of its value before and the bytes received, and nothing else in the
    state has changed. *)
Theorem received_bytes_keep_minimum bytes s :
  receive_all bytes s
  = with_hexapodSoC (fold_right Z.min (hexapodSoC s) (map to_U8 bytes)) s.
Proof.
  unfold receive_all. revert s.
  induction bytes as [|b bytes IH]; intros s; cbn [fold_left map fold_right].
  - destruct s; reflexivity.
  - rewrite IH, receive_status_min.
    cbn [hexapodSoC with_hexapodSoC].
    rewrite fold_right_min_first. destruct s; reflexivity.
Qed.

(** ** The conversions of the ADC readings *)

(** X4: for readings within the ten bits of the converter, a cycle stores a
    quarter of each joystick reading, with no wrap-around, and the
    controller percentage is two thirds of the reading's distance from 500
    counts, rounded towards zero: it does not decrease when the reading
    grows, it is below 100 exactly for readings below 650, and negative
    exactly for readings below 499. *)
Theorem ten_bit_readings adc s :
  (forall channel, 0 <= adc channel <= 1023) ->
  let s' := ten_hz_cycle adc s in
  left_x s' = adc LEFT_X / 4 /\ left_y s' = adc LEFT_Y / 4
  /\ right_x s' = adc RIGHT_X / 4 /\ right_y s' = adc RIGHT_Y / 4
  /\ controller_percentage adc = Z.quot ((adc V_BATT - 500) * 2) 3
  /\ (controller_percentage adc < 100 <-> adc V_BATT < 650)
  /\ (controller_percentage adc < 0 <-> adc V_BATT < 499)
  /\ (forall adc', (forall channel, 0 <= adc' channel <= 1023) ->
                   adc V_BATT <= adc' V_BATT ->
                   controller_percentage adc <= controller_percentage adc').
Proof.
  intros Hadc s'.
  assert (forall a ch, (forall channel, 0 <= a channel <= 1023) ->
            0 <= ch < 256 -> ReadADC a ch = a ch) as Hread.
  { intros a ch Ha Hch. unfold ReadADC. rewrite (to_U8_small ch) by lia.
    apply to_int_small. specialize (Ha ch). lia. }
  assert (forall a, (forall channel, 0 <= a channel <= 1023) ->
            controller_percentage a = Z.quot ((a 0 - 500) * 2) 3) as Hpct.
  { intros a Ha. unfold controller_percentage. rewrite Hread by (auto; lia).
    specialize (Ha 0).
    rewrite (to_int_small (a 0 - 500)) by lia.
    rewrite (to_int_small ((a 0 - 500) * 2)) by lia.
    apply to_int_small.
    pose proof (Z.quot_le_mono ((a 0 - 500) * 2) 1046 3 ltac:(lia) ltac:(lia)).
    pose proof (Z.quot_le_mono (-1000) ((a 0 - 500) * 2) 3
                  ltac:(lia) ltac:(lia)).
    change (Z.quot 1046 3) with 348 in *.
    change (Z.quot (-1000) 3) with (-333) in *. lia. }
  assert (forall ch, 0 <= ch < 256 ->
            to_U8 (Z.shiftr (ReadADC adc ch) 2) = adc ch / 4) as Hjoy.
  { intros ch Hch. rewrite Hread by auto.
    rewrite Z.shiftr_div_pow2 by lia. change (2 ^ 2) with 4.
    apply to_U8_small. specialize (Hadc ch).
    split; [apply Z.div_pos; lia|].
    apply Z.div_lt_upper_bound; lia. }
  pose proof (ten_hz_cycle_spec adc s)
    as (_ & _ & Hlx & Hly & Hrx & Hry & _).
  fold s' in Hlx, Hly, Hrx, Hry.
  rewrite Hlx, Hly, Hrx, Hry, !Hjoy by lia.
  do 4 (split; [reflexivity|]).
  rewrite (Hpct adc Hadc). split; [reflexivity|].
  pose proof (Hadc 0) as H0.
  split; [|split].
  - split; intros H.
    + destruct (Z_lt_le_dec (adc 0) 650) as [|Hge]; [assumption|].
      pose proof (Z.quot_le_mono 300 ((adc 0 - 500) * 2) 3
                    ltac:(lia) ltac:(lia)) as Hq.
      change (Z.quot 300 3) with 100 in Hq. lia.
    + pose proof (Z.quot_le_mono ((adc 0 - 500) * 2) 298 3
                    ltac:(lia) ltac:(lia)) as Hq.
      change (Z.quot 298 3) with 99 in Hq. lia.
  - split; intros H.
    + destruct (Z_lt_le_dec (adc 0) 499) as [|Hge]; [assumption|].
      pose proof (Z.quot_le_mono (-2) ((adc 0 - 500) * 2) 3
                    ltac:(lia) ltac:(lia)) as Hq.
      change (Z.quot (-2) 3) with 0 in Hq. lia.
    + pose proof (Z.quot_le_mono ((adc 0 - 500) * 2) (-4) 3
                    ltac:(lia) ltac:(lia)) as Hq.
      change (Z.quot (-4) 3) with (-1) in Hq. lia.
  - intros adc' Hadc' Hle. rewrite (Hpct adc' Hadc').
    apply Z.quot_le_mono; lia.
Qed.

Lemma ten_bit_readings_witness :
  (forall channel, 0 <= Z.min 1023 (Z.max 0 (resting_adc channel)) <= 1023)
  /\ left_x (ten_hz_cycle (fun ch => Z.min 1023 (Z.max 0 (resting_adc ch)))
               booted) = 10
  /\ controller_percentage (fun ch => Z.min 1023 (Z.max 0 (resting_adc ch)))
     = 100.
Proof.
  assert (forall channel,
            0 <= Z.min 1023 (Z.max 0 (resting_adc channel)) <= 1023) as Hadc
    by (intros channel; lia).
  split; [exact Hadc|].
  destruct (ten_bit_readings _ booted Hadc) as (Hlx & _ & _ & _ & Hp & _).
  split; [rewrite Hlx|rewrite Hp]; reflexivity.
Defined.

(** ** The battery indicator *)

(** X5: for a percentage of at most 100 (negative ones included) and an
    indicator that lies on the screen, DrawBattery draws the fill as a box
    of width max(3, percentage * 30 / 100), between 3 and 30 pixels and so
    inside the outline, in red below 20, yellow below 50 and green from 50
    on, then the erasing box from one pixel right of the fill to x + 32;
    the two outline boxes come first, and only on a full redraw.  The width
    does not decrease when the percentage grows.  At exactly 100 the
    erasing box starts at x + 33, right of its own right edge. *)
Theorem DrawBattery_fill x y percentage s :
  0 <= x <= 65000 -> 0 <= y <= 65000 -> -1000 <= percentage <= 100 ->
  let width := Z.max 3 (Z.quot (percentage * 30) 100) in
  let colour :=
    if percentage <? 20 then RED
    else if percentage <? 50 then YELLOW else GREEN in
  3 <= width <= 30
  /\ DrawBattery x y percentage s
     = with_display
         (display s
          ++ (if displayNeedsFullRedraw s
              then [TFT_Box x y (x + 34) (y + 12) L_GRAY;
                    TFT_Box (x + 34) (y + 4) (x + 36) (y + 8) L_GRAY]
              else [])
          ++ [TFT_Box (x + 2) (y + 2) (x + 2 + width) (y + 10) colour;
              TFT_Box (x + 2 + width + 1) (y + 2) (x + 32) (y + 10) BLACK]) s
  /\ (x + 32 < x + 2 + width + 1 <-> percentage = 100)
  /\ (forall lower, lower <= percentage ->
        Z.max 3 (Z.quot (lower * 30) 100) <= width).
Proof.
  intros Hx Hy Hp width colour.
  pose proof (Z.quot_le_mono (percentage * 30) 3000 100 ltac:(lia) ltac:(lia))
    as Hup.
  change (Z.quot 3000 100) with 30 in Hup.
  pose proof (Z.quot_le_mono (-30000) (percentage * 30) 100
                ltac:(lia) ltac:(lia)) as Hlow.
  change (Z.quot (-30000) 100) with (-300) in Hlow.
  assert (3 <= width <= 30) as Hw by (subst width; lia).
  split; [exact Hw|]. split; [|split].
  - unfold DrawBattery. cbv zeta.
    rewrite (to_int_small (percentage * 30)) by lia.
    rewrite (to_int_small (Z.quot (percentage * 30) 100)) by lia.
    assert ((if Z.quot (percentage * 30) 100 <? 3 then 3
             else Z.quot (percentage * 30) 100) = width) as ->.
    { subst width.
      destruct (Z.ltb_spec (Z.quot (percentage * 30) 100) 3); lia. }
    fold colour.
    rewrite !to_uint_small by lia.
    destruct (displayNeedsFullRedraw s) eqn:Hflag; unfold draw;
      cbn [display with_display]; rewrite <- ?app_assoc; cbn [app];
      destruct s; reflexivity.
  - split; intros H.
    + assert (Z.quot (percentage * 30) 100 = 30) as Hq by (subst width; lia).
      destruct (Z_lt_le_dec percentage 100) as [Hlt|]; [|lia].
      pose proof (Z.quot_le_mono (percentage * 30) 2970 100
                    ltac:(lia) ltac:(lia)) as Hq'.
      change (Z.quot 2970 100) with 29 in Hq'. lia.
    + subst percentage width. change (Z.quot (100 * 30) 100) with 30. lia.
  - intros lower Hl. subst width.
    pose proof (Z.quot_le_mono (lower * 30) (percentage * 30) 100
                  ltac:(lia) ltac:(lia)). lia.
Qed.

Lemma DrawBattery_fill_witness :
  display (DrawBattery 200 5 0 (with_displayNeedsFullRedraw false booted))
  = [TFT_Box 202 7 205 15 RED; TFT_Box 206 7 232 15 BLACK].
Proof.
  destruct (DrawBattery_fill 200 5 0
              (with_displayNeedsFullRedraw false booted))
    as (_ & Hd & _); [lia|lia|lia|].
  rewrite Hd. reflexivity.
Defined.

(** ** The dispatch of a press *)

(** X6: the dispatch consumes the committed press: afterwards buttonPressed
    is the sentinel, and a second dispatch, with no touch in between,
    changes nothing at all. *)
Theorem press_is_consumed_once s s1 :
  dispatch s = Ok s1 ->
  buttonPressed s1 = NONE /\ dispatch s1 = Ok s1.
Proof.
  intros H. apply dispatch_frame in H as [E _].
  assert (buttonPressed s1 = NONE) as Hp by (rewrite E; reflexivity).
  split; [exact Hp|]. unfold dispatch. rewrite Hp. cbn [mbind res_bind].
  f_equal. destruct s1; cbn in Hp; subst; reflexivity.
Qed.

Lemma press_is_consumed_once_witness :
  exists s1,
    dispatch wiggle_pressed = Ok s1
    /\ buttonPressed wiggle_pressed = WIGGLE_MODE
    /\ buttonPressed s1 = NONE /\ dispatch s1 = Ok s1.
Proof.
  eexists. split; [vm_compute; reflexivity|].
  split; [vm_compute; reflexivity|].
  apply press_is_consumed_once with (s := wiggle_pressed).
  vm_compute. reflexivity.
Defined.

Lemma testbit_U8_high cb k :
  0 <= cb < 256 -> 8 <= k -> Z.testbit cb k = false.
Proof.
  intros Hcb Hk. rewrite <- (Z.mod_small cb (2 ^ 8)) by (change (2 ^ 8) with 256; lia).
  apply Z.mod_pow2_bits_high. lia.
Qed.

Lemma clear_control_bit_spec n s k :
  0 <= controlBits s < 256 -> 0 <= n < 8 -> 0 <= k ->
  Z.testbit (controlBits (clear_control_bit (2 ^ n) s)) k
  = if k =? n then false else Z.testbit (controlBits s) k.
Proof.
  intros Hcb Hn Hk. unfold clear_control_bit. cbn [controlBits with_controlBits].
  unfold to_U8, wrap_unsigned.
  destruct (Z_lt_le_dec k 8) as [Hlow|Hhigh].
  - rewrite Z.mod_pow2_bits_low by lia.
    rewrite Z.land_spec, Z.lnot_spec, Z.pow2_bits_eqb by lia.
    rewrite (Z.eqb_sym n k). destruct (k =? n); [apply andb_false_r|].
    apply andb_true_r.
  - rewrite Z.mod_pow2_bits_high by lia.
    destruct (Z.eqb_spec k n); [reflexivity|].
    symmetry. now apply testbit_U8_high.
Qed.

Lemma set_control_bit_spec n s k :
  0 <= controlBits s < 256 -> 0 <= n < 8 -> 0 <= k ->
  Z.testbit (controlBits (set_control_bit (2 ^ n) s)) k
  = if k =? n then true else Z.testbit (controlBits s) k.
Proof.
  intros Hcb Hn Hk. unfold set_control_bit. cbn [controlBits with_controlBits].
  unfold to_U8, wrap_unsigned.
  destruct (Z_lt_le_dec k 8) as [Hlow|Hhigh].
  - rewrite Z.mod_pow2_bits_low by lia.
    rewrite Z.lor_spec, Z.pow2_bits_eqb by lia.
    rewrite (Z.eqb_sym n k). destruct (k =? n); [apply orb_true_r|].
    apply orb_false_r.
  - rewrite Z.mod_pow2_bits_high by lia.
    destruct (Z.eqb_spec k n); [lia|].
    symmetry. now apply testbit_U8_high.
Qed.

(** X7: the dispatch of a press writes at most one bit of the control
    bitfield, the one of the pressed button's group, and leaves every other
    bit as it was; it transmits one byte at once for an eye button ('r',
    'g' or 'b') and nothing for any other button or for no press. *)
Theorem dispatch_writes_one_bit s s' :
  dispatch s = Ok s' ->
  0 <= controlBits s < 256 ->
  uart_tx s' = uart_tx s ++ sideband_byte (buttonPressed s)
  /\ forall k, 0 <= k ->
       Z.testbit (controlBits s') k
       = match control_bit_of (buttonPressed s) with
         | Some (bit, v) =>
             if k =? bit then v else Z.testbit (controlBits s) k
         | None => Z.testbit (controlBits s) k
         end.
Proof.
  unfold dispatch. intros H Hcb. apply bind_Ok in H as (s1 & H1 & H).
  injection H as <-.
  change (uart_tx (with_buttonPressed NONE s1)) with (uart_tx s1).
  change (controlBits (with_buttonPressed NONE s1)) with (controlBits s1).
  repeat match type of H1 with
    | match ?p with _ => _ end = Ok _ => destruct p
    end;
    first [ injection H1 as <-
          | apply SelectButton_frame in H1 as [-> _] ];
    cbn [uart_tx controlBits with_buttons sideband_byte control_bit_of];
    (split;
     [ first [ symmetry; apply app_nil_r | reflexivity ]
     | intros k Hk;
       first [ reflexivity
             | apply (clear_control_bit_spec 0 s k Hcb); lia
             | apply (set_control_bit_spec 0 s k Hcb); lia
             | apply (clear_control_bit_spec 1 s k Hcb); lia
             | apply (set_control_bit_spec 1 s k Hcb); lia
             | apply (clear_control_bit_spec 2 s k Hcb); lia
             | apply (set_control_bit_spec 2 s k Hcb); lia
             | apply (clear_control_bit_spec 3 s k Hcb); lia
             | apply (set_control_bit_spec 3 s k Hcb); lia
             | apply (clear_control_bit_spec 4 s k Hcb); lia
             | apply (set_control_bit_spec 4 s k Hcb); lia ] ]).
Qed.

Lemma dispatch_writes_one_bit_witness :
  match dispatch (with_controlBits 18
                    (with_buttonPressed HIGH_BODY booted)) with
  | Ok s' =>
      uart_tx s' = []
      /\ Z.testbit (controlBits s') 2 = true
      /\ Z.testbit (controlBits s') 4 = true
      /\ Z.testbit (controlBits s') 0 = false
  | Fault _ => False
  end.
Proof.
  destruct (dispatch (with_controlBits 18
                        (with_buttonPressed HIGH_BODY booted)))
    as [s'|f] eqn:Hd; [|vm_compute in Hd; discriminate Hd].
  assert (0 <= controlBits (with_controlBits 18
                              (with_buttonPressed HIGH_BODY booted)) < 256)
    as Hcb by (vm_compute; split; [discriminate|reflexivity]).
  destruct (dispatch_writes_one_bit _ _ Hd Hcb) as [Htx Hbits].
  split; [rewrite Htx; vm_compute; reflexivity|].
  split; [|split].
  - rewrite (Hbits 2) by lia. vm_compute. reflexivity.
  - rewrite (Hbits 4) by lia. vm_compute. reflexivity.
  - rewrite (Hbits 0) by lia. vm_compute. reflexivity.
Defined.

(** ** The render pass, button by button *)

Lemma with_highlighted_same b :
  Button.with_highlighted (Button.highlighted b) b = b.
Proof. destruct b; reflexivity. Qed.

(** One iteration of RenderButtons as an update of [buttons[n]]. *)
Lemma render_button_eq n s s' :
  render_button n s = Ok s' ->
  exists b d,
    0 <= n /\ buttons s !! Z.to_nat n = Some b
    /\ (button_is_redrawn s n b = false -> d = [])
    /\ s' = with_buttons (<[Z.to_nat n := rendered_button s n b]> (buttons s))
              (with_display (display s ++ d) s).
Proof.
  unfold render_button. intros H. apply bind_Ok in H as (b & Hb & H).
  apply load_Ok in Hb as [Hn Hb]. cbv zeta in H.
  cbn [Button.page Button.highlighted Button.needsRedraw Button.selected
       Button.colour Button.with_highlighted] in H.
  fold (button_is_redrawn s n b) in H.
  destruct (button_is_redrawn s n b) eqn:Hr.
  - apply store_button_Ok in H as (b0 & _ & _ & ->).
    unfold RenderBorderBox, draw.
    cbn [buttons display with_display with_buttons].
    eexists b, _. split; [exact Hn|]. split; [exact Hb|].
    split; [intros Hf; congruence|].
    unfold rendered_button. rewrite Hr. cbv zeta.
    rewrite <- !app_assoc. destruct s; reflexivity.
  - apply store_button_Ok in H as (b0 & _ & _ & ->).
    exists b, []. split; [exact Hn|]. split; [exact Hb|].
    split; [reflexivity|].
    unfold rendered_button. rewrite Hr. cbv zeta. rewrite app_nil_r.
    destruct s; reflexivity.
Qed.

Lemma rendered_button_selected s n b :
  Button.selected (rendered_button s n b) = Button.selected b
  /\ button_geometry (rendered_button s n b) = button_geometry b.
Proof.
  unfold rendered_button. cbv zeta.
  destruct (button_is_redrawn s n b); split; reflexivity.
Qed.

Lemma rendered_button_fields s n b :
  Button.page (rendered_button s n b) = Button.page b
  /\ Button.highlighted (rendered_button s n b)
     = ButtonTouched s b && (touchedButton s =? n)
  /\ Button.needsRedraw (rendered_button s n b)
     = (if button_is_redrawn s n b then false else Button.needsRedraw b)
  /\ ButtonTouched s (rendered_button s n b) = ButtonTouched s b.
Proof.
  unfold rendered_button, ButtonTouched. cbv zeta.
  destruct (button_is_redrawn s n b); repeat split; reflexivity.
Qed.

(** Rendering a button a second time changes nothing and draws nothing. *)
Lemma rendered_button_idempotent s n b :
  button_is_redrawn s n (rendered_button s n b) = false
  /\ rendered_button s n (rendered_button s n b) = rendered_button s n b.
Proof.
  destruct (rendered_button_fields s n b) as (Hp & Hh & Hnr & Hhit).
  assert (button_is_redrawn s n (rendered_button s n b) = false) as Hr.
  { unfold button_is_redrawn at 1. rewrite Hp, Hh, Hnr, Hhit, xorb_nilpotent.
    cbn [orb].
    destruct (button_is_redrawn s n b) eqn:Hr; [apply andb_false_r|].
    unfold button_is_redrawn in Hr.
    destruct (Button.page b =? currentPage s); [|reflexivity].
    cbn [andb] in Hr |- *. apply orb_false_elim in Hr. tauto. }
  split; [exact Hr|].
  unfold rendered_button at 1. rewrite Hr, Hhit, <- Hh. cbv zeta.
  apply with_highlighted_same.
Qed.

(** ** The two widget loops of the render pass *)

Section RenderLoop.

(** The common shape of the loops of RenderButtons and RenderSliders: the
    iteration for [n] replaces element [n] of an array by [upd s n] of it
    and may issue display calls, none when [quiet s n] holds of it. *)
Context {W : Type} (arr : State -> list W) (put : list W -> State -> State)
  (upd : State -> Z -> W -> W) (quiet : State -> Z -> W -> bool)
  (body : Z -> State -> res State).
Hypothesis body_eq : forall n s s',
  body n s = Ok s' ->
  exists w d,
    0 <= n /\ arr s !! Z.to_nat n = Some w
    /\ (quiet s n w = true -> d = [])
    /\ s' = put (<[Z.to_nat n := upd s n w]> (arr s))
              (with_display (display s ++ d) s).
Hypothesis body_total : forall n s w,
  0 <= n -> arr s !! Z.to_nat n = Some w -> exists s', body n s = Ok s'.
Hypothesis arr_put : forall l s, arr (put l s) = l.
Hypothesis arr_display : forall d s, arr (with_display d s) = arr s.
Hypothesis display_put : forall l s, display (put l s) = display s.
Hypothesis put_put : forall l l' d d' s,
  put l (with_display d (put l' (with_display d' s)))
  = put l (with_display d s).
Hypothesis put_same : forall s, put (arr s) (with_display (display s) s) = s.
Hypothesis upd_put : forall l d s n w,
  upd (put l (with_display d s)) n w = upd s n w.
Hypothesis quiet_put : forall l d s n w,
  quiet (put l (with_display d s)) n w = quiet s n w.

Lemma render_loop count : forall n s s',
  for_loop count (Z.of_nat n) body s = Ok s' ->
  exists d,
    s' = put (arr s') (with_display (display s ++ d) s)
    /\ (forall k, (n <= k < n + count)%nat -> (k < length (arr s))%nat)
    /\ length (arr s') = length (arr s)
    /\ (forall k w, arr s !! k = Some w ->
          arr s' !! k
          = Some (if decide (n <= k < n + count)%nat
                  then upd s (Z.of_nat k) w else w))
    /\ ((forall k w, (n <= k < n + count)%nat -> arr s !! k = Some w ->
                     quiet s (Z.of_nat k) w = true) -> d = []).
Proof.
  induction count as [|count IH]; intros n s s' H; cbn [for_loop] in H.
  - injection H as <-. exists []. rewrite app_nil_r, put_same.
    split; [reflexivity|]. split; [intros; lia|]. split; [reflexivity|].
    split; [|reflexivity].
    intros k w Hw. destruct (decide (n <= k < n + 0)%nat); [lia|exact Hw].
  - apply bind_Ok in H as (s1 & H1 & H).
    apply body_eq in H1 as (wn & d1 & _ & Hwn & Hq1 & ->).
    rewrite Nat2Z.id in Hwn, H.
    replace (Z.of_nat n + 1) with (Z.of_nat (S n)) in H by lia.
    apply IH in H as (d & Hs' & Hlen & Hlen' & Hall & Hq).
    rewrite arr_put, length_insert in Hlen, Hlen'.
    rewrite display_put in Hs'. cbn [display with_display] in Hs'.
    rewrite put_put, <- app_assoc in Hs'.
    pose proof (lookup_lt_Some _ _ _ Hwn) as Hn.
    exists (d1 ++ d). split; [exact Hs'|]. split.
    { intros k Hk. destruct (decide (k = n)) as [->|Hne]; [exact Hn|].
      apply Hlen. lia. }
    split; [exact Hlen'|]. split.
    + intros k w Hw. rewrite arr_put in Hall.
      destruct (decide (k = n)) as [->|Hne].
      * assert (w = wn) as -> by congruence.
        rewrite (Hall n (upd s (Z.of_nat n) wn))
          by (apply list_lookup_insert_eq; exact Hn).
        destruct (decide (S n <= n < S n + count)%nat); [lia|].
        destruct (decide (n <= n < n + S count)%nat); [reflexivity|lia].
      * rewrite (Hall k w) by (rewrite list_lookup_insert_ne; auto).
        rewrite upd_put.
        destruct (decide (S n <= k < S n + count)%nat);
          destruct (decide (n <= k < n + S count)%nat);
          try reflexivity; lia.
    + intros Hquiet. rewrite Hq1, Hq; [reflexivity| |].
      * intros k w Hk Hw. rewrite arr_put in Hw. rewrite quiet_put.
        rewrite list_lookup_insert_ne in Hw by lia.
        apply Hquiet; [lia|exact Hw].
      * apply Hquiet; [lia|exact Hwn].
Qed.

Lemma render_loop_total count : forall n s,
  (forall k, (n <= k < n + count)%nat -> (k < length (arr s))%nat) ->
  exists s', for_loop count (Z.of_nat n) body s = Ok s'.
Proof.
  induction count as [|count IH]; intros n s Hlen; cbn [for_loop].
  - exists s. reflexivity.
  - destruct (lookup_lt_is_Some_2 (arr s) n ltac:(apply Hlen; lia))
      as [w Hw].
    destruct (body_total (Z.of_nat n) s w ltac:(lia)
                ltac:(now rewrite Nat2Z.id)) as [s1 H1].
    rewrite H1. cbn [mbind res_bind].
    replace (Z.of_nat n + 1) with (Z.of_nat (S n)) by lia.
    apply IH. intros k Hk.
    apply body_eq in H1 as (w1 & d1 & _ & _ & _ & ->).
    rewrite arr_put, length_insert. apply Hlen. lia.
Qed.

End RenderLoop.

Lemma render_button_total n s b :
  0 <= n -> buttons s !! Z.to_nat n = Some b ->
  exists s', render_button n s = Ok s'.
Proof.
  intros Hn Hb. unfold render_button.
  assert (load "buttons" (buttons s) n = Ok b) as ->
    by (apply load_Ok; auto).
  cbn [mbind res_bind]. cbv zeta.
  assert (forall f s0, buttons s0 = buttons s ->
            exists s', store_button n f s0 = Ok s') as Hstore.
  { intros f s0 Hs0. unfold store_button, store.
    assert (load "buttons" (buttons s0) n = Ok b) as ->
      by (rewrite Hs0; apply load_Ok; auto).
    cbn. eauto. }
  destruct (_ && _); apply Hstore; reflexivity.
Qed.

Lemma RenderButtons_eq s s' :
  RenderButtons s = Ok s' ->
  exists d,
    s' = with_buttons (buttons s') (with_display (display s ++ d) s)
    /\ (Z.to_nat NUM_BUTTONS <= length (buttons s))%nat
    /\ length (buttons s') = length (buttons s)
    /\ (forall k b, buttons s !! k = Some b ->
          buttons s' !! k
          = Some (if decide (k < Z.to_nat NUM_BUTTONS)%nat
                  then rendered_button s (Z.of_nat k) b else b))
    /\ ((forall k b, (k < Z.to_nat NUM_BUTTONS)%nat ->
                     buttons s !! k = Some b ->
                     button_is_redrawn s (Z.of_nat k) b = false) -> d = []).
Proof.
  unfold RenderButtons, for_each. intros H.
  change 0 with (Z.of_nat 0) in H.
  apply (render_loop buttons with_buttons rendered_button
           (fun s n b => negb (button_is_redrawn s n b))) in H.
  - destruct H as (d & Hs' & Hlen & Hlen' & Hall & Hq).
    exists d. split; [exact Hs'|]. split.
    { specialize (Hlen (Z.to_nat NUM_BUTTONS - 1)%nat).
      unfold NUM_BUTTONS in *. lia. }
    split; [exact Hlen'|]. split.
    + intros k b Hb. rewrite (Hall k b Hb).
      destruct (decide (0 <= k < 0 + Z.to_nat NUM_BUTTONS)%nat);
        destruct (decide (k < Z.to_nat NUM_BUTTONS)%nat);
        try reflexivity; lia.
    + intros Hquiet. apply Hq. intros k b Hk Hb.
      now rewrite (Hquiet k b ltac:(lia) Hb).
  - intros n s0 s1 H1. apply render_button_eq in H1
      as (b & d & Hn & Hb & Hd & ->).
    exists b, d. split; [exact Hn|]. split; [exact Hb|].
    split; [|reflexivity].
    intros Hq. apply Hd. now apply negb_true_iff in Hq.
  - reflexivity.
  - reflexivity.
  - reflexivity.
  - intros s0. destruct s0; reflexivity.
  - reflexivity.
  - reflexivity.
Qed.

Lemma RenderButtons_total s :
  (Z.to_nat NUM_BUTTONS <= length (buttons s))%nat ->
  exists s', RenderButtons s = Ok s'.
Proof.
  intros Hlen. unfold RenderButtons, for_each. change 0 with (Z.of_nat 0).
  apply (render_loop_total buttons with_buttons rendered_button
           (fun s n b => negb (button_is_redrawn s n b))).
  - intros n s0 s1 H1. apply render_button_eq in H1
      as (b & d & Hn & Hb & Hd & ->).
    exists b, d. split; [exact Hn|]. split; [exact Hb|].
    split; [|reflexivity].
    intros Hq. apply Hd. now apply negb_true_iff in Hq.
  - intros n s0 b. apply render_button_total.
  - reflexivity.
  - intros k Hk. lia.
Qed.

Lemma render_slider_eq n s s' :
  render_slider n s = Ok s' ->
  exists sl d,
    0 <= n /\ sliders s !! Z.to_nat n = Some sl
    /\ (slider_is_redrawn s sl = false -> d = [])
    /\ s' = with_sliders (<[Z.to_nat n := rendered_slider s sl]> (sliders s))
              (with_display (display s ++ d) s).
Proof.
  unfold render_slider. intros H. apply bind_Ok in H as (sl & Hsl & H).
  apply load_Ok in Hsl as [Hn Hsl]. cbv zeta in H.
  fold (slider_is_redrawn s sl) in H.
  destruct (slider_is_redrawn s sl) eqn:Hr.
  - apply store_slider_Ok in H as (sl0 & _ & Hsl0 & ->).
    unfold draw in Hsl0 |- *.
    cbn [sliders display with_display with_sliders] in Hsl0 |- *.
    assert (sl0 = sl) as -> by congruence.
    eexists sl, _. split; [exact Hn|]. split; [exact Hsl|].
    split; [intros Hf; congruence|].
    unfold rendered_slider. rewrite Hr. rewrite <- !app_assoc.
    destruct s; reflexivity.
  - injection H as <-. exists sl, []. split; [exact Hn|].
    split; [exact Hsl|]. split; [reflexivity|].
    unfold rendered_slider. rewrite Hr, app_nil_r, list_insert_id by exact Hsl.
    destruct s; reflexivity.
Qed.

Lemma render_slider_total n s sl :
  0 <= n -> sliders s !! Z.to_nat n = Some sl ->
  exists s', render_slider n s = Ok s'.
Proof.
  intros Hn Hsl. unfold render_slider.
  assert (load "sliders" (sliders s) n = Ok sl) as ->
    by (apply load_Ok; auto).
  cbn [mbind res_bind]. cbv zeta.
  destruct (_ && _); [|eauto].
  unfold store_slider, store, draw. cbn [sliders with_display].
  assert (load "sliders" (sliders s) n = Ok sl) as ->
    by (apply load_Ok; auto).
  cbn. eauto.
Qed.

Lemma rendered_slider_idempotent s sl :
  slider_is_redrawn s (rendered_slider s sl) = false
  /\ rendered_slider s (rendered_slider s sl) = rendered_slider s sl.
Proof.
  assert (slider_is_redrawn s (rendered_slider s sl) = false) as Hr.
  { unfold rendered_slider.
    destruct (slider_is_redrawn s sl) eqn:Hr; [|exact Hr].
    unfold slider_is_redrawn. cbn [Slider.page Slider.oldValue Slider.value
                                   Slider.with_oldValue].
    rewrite Z.eqb_refl. apply andb_false_r. }
  split; [exact Hr|]. unfold rendered_slider at 1. now rewrite Hr.
Qed.

Lemma RenderSliders_eq s s' :
  RenderSliders s = Ok s' ->
  exists d,
    s' = with_sliders (sliders s') (with_display (display s ++ d) s)
    /\ (Z.to_nat NUM_SLIDERS <= length (sliders s))%nat
    /\ length (sliders s') = length (sliders s)
    /\ (forall k sl, sliders s !! k = Some sl ->
          sliders s' !! k
          = Some (if decide (k < Z.to_nat NUM_SLIDERS)%nat
                  then rendered_slider s sl else sl))
    /\ ((forall k sl, (k < Z.to_nat NUM_SLIDERS)%nat ->
                      sliders s !! k = Some sl ->
                      slider_is_redrawn s sl = false) -> d = []).
Proof.
  unfold RenderSliders, for_each. intros H.
  change 0 with (Z.of_nat 0) in H.
  apply (render_loop sliders with_sliders (fun s _ sl => rendered_slider s sl)
           (fun s _ sl => negb (slider_is_redrawn s sl))) in H.
  - destruct H as (d & Hs' & Hlen & Hlen' & Hall & Hq).
    exists d. split; [exact Hs'|]. split.
    { specialize (Hlen (Z.to_nat NUM_SLIDERS - 1)%nat).
      unfold NUM_SLIDERS in *. lia. }
    split; [exact Hlen'|]. split.
    + intros k sl Hsl. rewrite (Hall k sl Hsl).
      destruct (decide (0 <= k < 0 + Z.to_nat NUM_SLIDERS)%nat);
        destruct (decide (k < Z.to_nat NUM_SLIDERS)%nat);
        try reflexivity; lia.
    + intros Hquiet. apply Hq. intros k sl Hk Hsl.
      now rewrite (Hquiet k sl ltac:(lia) Hsl).
  - intros n s0 s1 H1. apply render_slider_eq in H1
      as (sl & d & Hn & Hsl & Hd & ->).
    exists sl, d. split; [exact Hn|]. split; [exact Hsl|].
    split; [|reflexivity].
    intros Hq. apply Hd. now apply negb_true_iff in Hq.
  - reflexivity.
  - reflexivity.
  - reflexivity.
  - intros s0. destruct s0; reflexivity.
  - reflexivity.
  - reflexivity.
Qed.

Lemma RenderSliders_total s :
  (Z.to_nat NUM_SLIDERS <= length (sliders s))%nat ->
  exists s', RenderSliders s = Ok s'.
Proof.
  intros Hlen. unfold RenderSliders, for_each. change 0 with (Z.of_nat 0).
  apply (render_loop_total sliders with_sliders
           (fun s _ sl => rendered_slider s sl)
           (fun s _ sl => negb (slider_is_redrawn s sl))).
  - intros n s0 s1 H1. apply render_slider_eq in H1
      as (sl & d & Hn & Hsl & Hd & ->).
    exists sl, d. split; [exact Hn|]. split; [exact Hsl|].
    split; [|reflexivity].
    intros Hq. apply Hd. now apply negb_true_iff in Hq.
  - intros n s0 sl. apply render_slider_total.
  - reflexivity.
  - intros k Hk. lia.
Qed.

Lemma appends_refl s : exists d, s = with_display (display s ++ d) s.
Proof. exists []. rewrite app_nil_r. destruct s; reflexivity. Qed.

Lemma appends_draw c s s' :
  (exists d, s' = with_display (display s ++ d) s) ->
  exists d, draw c s' = with_display (display s ++ d) s.
Proof.
  intros [d ->]. exists (d ++ [c]). unfold draw.
  cbn [display with_display]. rewrite <- app_assoc. reflexivity.
Qed.

Lemma DrawBattery_appends x y percentage s s' :
  (exists d, s' = with_display (display s ++ d) s) ->
  exists d, DrawBattery x y percentage s' = with_display (display s ++ d) s.
Proof.
  intros H. unfold DrawBattery. cbv zeta. do 2 apply appends_draw.
  destruct (displayNeedsFullRedraw s'); [do 2 apply appends_draw|]; exact H.
Qed.

Lemma RenderMainPage_appends s :
  exists d, RenderMainPage s = with_display (display s ++ d) s.
Proof.
  unfold RenderMainPage. cbv zeta. do 2 apply DrawBattery_appends.
  destruct (displayNeedsFullRedraw s);
    [do 10 apply appends_draw|]; apply appends_refl.
Qed.

(** The whole render pass: what it makes of the widgets, and that it
    changes nothing else but the display trace and the redraw flag. *)
Lemma render_eq s s' :
  render s = Ok s' ->
  exists d,
    s' = with_displayNeedsFullRedraw false
           (with_sliders (sliders s')
              (with_buttons (buttons s') (with_display (display s ++ d) s)))
    /\ (Z.to_nat NUM_BUTTONS <= length (buttons s))%nat
    /\ (Z.to_nat NUM_SLIDERS <= length (sliders s))%nat
    /\ length (buttons s') = length (buttons s)
    /\ length (sliders s') = length (sliders s)
    /\ (forall k b, buttons s !! k = Some b ->
          buttons s' !! k
          = Some (if decide (k < Z.to_nat NUM_BUTTONS)%nat
                  then rendered_button s (Z.of_nat k) b else b))
    /\ (forall k sl, sliders s !! k = Some sl ->
          sliders s' !! k
          = Some (if decide (k < Z.to_nat NUM_SLIDERS)%nat
                  then rendered_slider s sl else sl)).
Proof.
  unfold render. cbv zeta. intros H.
  apply bind_Ok in H as (s1 & H1 & H). apply bind_Ok in H as (s2 & H2 & H).
  injection H as <-.
  set (s0 := if currentPage s =? 0 then RenderMainPage s else s) in H1.
  assert (exists d0, s0 = with_display (display s ++ d0) s) as [d0 Hs0].
  { subst s0. destruct (currentPage s =? 0).
    - apply RenderMainPage_appends.
    - apply appends_refl. }
  apply RenderButtons_eq in H1 as (d1 & Hs1 & Hlb & Hlb' & Hb & _).
  apply RenderSliders_eq in H2 as (d2 & Hs2 & Hls & Hls' & Hsl & _).
  rewrite Hs0 in Hs1, Hlb, Hlb', Hb.
  cbn [buttons display with_display] in Hs1, Hlb, Hlb', Hb.
  assert (sliders s1 = sliders s) as Hsl1 by (rewrite Hs1; reflexivity).
  assert (buttons s2 = buttons s1) as Hb2 by (rewrite Hs2; reflexivity).
  rewrite Hsl1 in Hls, Hls', Hsl.
  exists (d0 ++ d1 ++ d2).
  change (buttons (with_displayNeedsFullRedraw false s2)) with (buttons s2).
  change (sliders (with_displayNeedsFullRedraw false s2)) with (sliders s2).
  rewrite Hb2.
  split.
  { assert (display s1 = (display s ++ d0) ++ d1) as Hd1
      by (rewrite Hs1; reflexivity).
    remember (sliders s2) as sls eqn:Hsls.
    remember (buttons s1) as bs eqn:Hbs.
    rewrite Hs2, Hd1, Hs1.
    cbn [with_displayNeedsFullRedraw with_sliders with_buttons with_display
         buttons touchedButton sliders ticks displayNeedsFullRedraw
         currentPage touchTimer touchX touchY buttonPressed touchedSlider
         controlBits left_x left_y right_x right_y controllerSoC hexapodSoC
         uart_tx display].
    rewrite <- !app_assoc. reflexivity. }
  split; [exact Hlb|]. split; [exact Hls|]. split; [exact Hlb'|].
  split; [exact Hls'|]. split.
  - intros k b Hkb. rewrite (Hb k b Hkb). reflexivity.
  - intros k sl Hksl. rewrite (Hsl k sl Hksl).
    destruct (decide (k < Z.to_nat NUM_SLIDERS)%nat); [|reflexivity].
    f_equal. rewrite Hs1. reflexivity.
Qed.

(** A widget array that a loop maps to itself element by element. *)
Lemma pointwise_fixed {W : Type} (l l' : list W) (f : nat -> W -> W)
    (count : nat) :
  length l' = length l ->
  (forall k w, l !! k = Some w ->
     l' !! k = Some (if decide (k < count)%nat then f k w else w)) ->
  (forall k w, (k < count)%nat -> l !! k = Some w -> f k w = w) ->
  l' = l.
Proof.
  intros Hlen Hall Hfix. apply list_eq. intros k.
  destruct (l !! k) as [w|] eqn:Hw.
  - rewrite (Hall k w Hw). f_equal.
    destruct (decide (k < count)%nat); [now apply Hfix|reflexivity].
  - apply lookup_ge_None in Hw. apply lookup_ge_None. lia.
Qed.

Lemma DrawBattery_flag x y percentage s :
  displayNeedsFullRedraw (DrawBattery x y percentage s)
  = displayNeedsFullRedraw s.
Proof.
  destruct (DrawBattery_appends x y percentage s s (appends_refl s))
    as [d ->].
  reflexivity.
Qed.

Lemma DrawBattery_quiet_length x y percentage s :
  displayNeedsFullRedraw s = false ->
  length (display (DrawBattery x y percentage s))
  = (length (display s) + 2)%nat.
Proof.
  intros Hf. unfold DrawBattery. cbv zeta. rewrite Hf. unfold draw.
  cbn [display with_display]. rewrite !length_app. cbn [length]. lia.
Qed.

Lemma with_buttons_same s :
  with_buttons (buttons s) (with_display (display s ++ []) s) = s.
Proof. rewrite app_nil_r. destruct s; reflexivity. Qed.

Lemma with_sliders_same s :
  with_sliders (sliders s) (with_display (display s ++ []) s) = s.
Proof. rewrite app_nil_r. destruct s; reflexivity. Qed.

Lemma with_displayNeedsFullRedraw_same s :
  displayNeedsFullRedraw s = false ->
  with_displayNeedsFullRedraw false s = s.
Proof. destruct s; cbn. intros ->. reflexivity. Qed.

(** X8: a second render pass right after a first one redraws no widget.
    It succeeds, leaves every button and slider as the first pass left it,
    and does only what RenderMainPage does without the full-redraw flag: on
    the main page the four boxes of the two battery fills, on another page
    nothing. *)
Theorem second_render_draws_no_widget s s1 :
  render s = Ok s1 ->
  displayNeedsFullRedraw s1 = false
  /\ render s1
     = Ok (if currentPage s1 =? MAIN_PAGE then RenderMainPage s1 else s1)
  /\ buttons (RenderMainPage s1) = buttons s1
  /\ sliders (RenderMainPage s1) = sliders s1
  /\ length (display (RenderMainPage s1))
     = (length (display s1) + 4)%nat.
Proof.
  intros H. apply render_eq in H
    as (d & Hs1 & Hlb & Hls & Hlb' & Hls' & Hb & Hsl).
  assert (displayNeedsFullRedraw s1 = false) as Hflag
    by (rewrite Hs1; reflexivity).
  assert (forall n b, rendered_button s1 n b = rendered_button s n b) as Hrb
    by (intros n b; rewrite Hs1; reflexivity).
  assert (forall n b, button_is_redrawn s1 n b = button_is_redrawn s n b)
    as Hqb by (intros n b; rewrite Hs1; reflexivity).
  assert (forall sl, rendered_slider s1 sl = rendered_slider s sl) as Hrs
    by (intros sl; rewrite Hs1; reflexivity).
  assert (forall sl, slider_is_redrawn s1 sl = slider_is_redrawn s sl)
    as Hqs by (intros sl; rewrite Hs1; reflexivity).
  (* every widget the loops visit is settled in [s1] *)
  assert (forall k b1, (k < Z.to_nat NUM_BUTTONS)%nat ->
            buttons s1 !! k = Some b1 ->
            button_is_redrawn s1 (Z.of_nat k) b1 = false
            /\ rendered_button s1 (Z.of_nat k) b1 = b1) as Hsettled_b.
  { intros k b1 Hlt Hb1. pose proof (lookup_lt_Some _ _ _ Hb1) as Hk.
    destruct (lookup_lt_is_Some_2 (buttons s) k ltac:(lia)) as [b Hkb].
    rewrite (Hb k b Hkb) in Hb1. injection Hb1 as <-.
    rewrite Hqb, Hrb.
    destruct (decide (k < Z.to_nat NUM_BUTTONS)%nat) as [_|Hge]; [|lia].
    apply rendered_button_idempotent. }
  assert (forall k sl1, (k < Z.to_nat NUM_SLIDERS)%nat ->
            sliders s1 !! k = Some sl1 ->
            slider_is_redrawn s1 sl1 = false
            /\ rendered_slider s1 sl1 = sl1) as Hsettled_s.
  { intros k sl1 Hlt Hsl1. pose proof (lookup_lt_Some _ _ _ Hsl1) as Hk.
    destruct (lookup_lt_is_Some_2 (sliders s) k ltac:(lia)) as [sl Hksl].
    rewrite (Hsl k sl Hksl) in Hsl1. injection Hsl1 as <-.
    rewrite Hqs, Hrs.
    destruct (decide (k < Z.to_nat NUM_SLIDERS)%nat) as [_|Hge]; [|lia].
    apply rendered_slider_idempotent. }
  clear Hb Hsl Hrb Hqb Hrs Hqs.
  split; [exact Hflag|].
  split.
  2:{ destruct (RenderMainPage_appends s1) as [d0 Hd0].
      split; [rewrite Hd0; reflexivity|].
      split; [rewrite Hd0; reflexivity|].
      unfold RenderMainPage. cbv zeta. rewrite Hflag.
      rewrite DrawBattery_quiet_length
        by (rewrite DrawBattery_flag; exact Hflag).
      rewrite DrawBattery_quiet_length by exact Hflag. lia. }
  unfold render. cbv zeta.
  set (s0 := if currentPage s1 =? MAIN_PAGE then RenderMainPage s1 else s1).
  assert (exists d0, s0 = with_display (display s1 ++ d0) s1) as [d0 Hs0].
  { subst s0. destruct (currentPage s1 =? MAIN_PAGE).
    - apply RenderMainPage_appends.
    - apply appends_refl. }
  assert (buttons s0 = buttons s1) as Hb0 by (rewrite Hs0; reflexivity).
  assert (sliders s0 = sliders s1) as Hsl0 by (rewrite Hs0; reflexivity).
  assert (displayNeedsFullRedraw s0 = false) as Hflag0
    by (rewrite Hs0; exact Hflag).
  assert (forall n b, rendered_button s0 n b = rendered_button s1 n b)
    as Hrb by (intros n b; rewrite Hs0; reflexivity).
  assert (forall n b, button_is_redrawn s0 n b = button_is_redrawn s1 n b)
    as Hqb by (intros n b; rewrite Hs0; reflexivity).
  assert (forall sl, rendered_slider s0 sl = rendered_slider s1 sl) as Hrs
    by (intros sl; rewrite Hs0; reflexivity).
  assert (forall sl, slider_is_redrawn s0 sl = slider_is_redrawn s1 sl)
    as Hqs by (intros sl; rewrite Hs0; reflexivity).
  clearbody s0. clear Hs0.
  (* the button loop changes nothing *)
  destruct (RenderButtons_total s0 ltac:(rewrite Hb0; lia)) as [sb Hsb].
  rewrite Hsb. cbn [mbind res_bind].
  apply RenderButtons_eq in Hsb as (d1 & Hshape & _ & Hlen & Hall & Hquiet).
  rewrite Hquiet in Hshape.
  2:{ intros k b Hk Hkb. rewrite Hqb. rewrite Hb0 in Hkb.
      now apply (Hsettled_b k b Hk). }
  assert (buttons sb = buttons s0) as Hbeq.
  { apply (pointwise_fixed _ _ (fun k b => rendered_button s0 (Z.of_nat k) b)
             (Z.to_nat NUM_BUTTONS)); [exact Hlen|exact Hall|].
    intros k b Hk Hkb. rewrite Hrb. rewrite Hb0 in Hkb.
    now apply (Hsettled_b k b Hk). }
  rewrite Hbeq, with_buttons_same in Hshape. subst sb.
  (* nor does the slider loop *)
  destruct (RenderSliders_total s0 ltac:(rewrite Hsl0; lia)) as [ss Hss].
  rewrite Hss. cbn [mbind res_bind].
  apply RenderSliders_eq in Hss as (d2 & Hshape & _ & Hlen' & Hall' & Hquiet').
  rewrite Hquiet' in Hshape.
  2:{ intros k sl Hk Hksl. rewrite Hqs. rewrite Hsl0 in Hksl.
      now apply (Hsettled_s k sl Hk). }
  assert (sliders ss = sliders s0) as Hseq.
  { apply (pointwise_fixed _ _ (fun _ sl => rendered_slider s0 sl)
             (Z.to_nat NUM_SLIDERS)); [exact Hlen'|exact Hall'|].
    intros k sl Hk Hksl. rewrite Hrs. rewrite Hsl0 in Hksl.
    now apply (Hsettled_s k sl Hk). }
  rewrite Hseq, with_sliders_same in Hshape. subst ss.
  now rewrite with_displayNeedsFullRedraw_same.
Qed.

Lemma second_render_draws_no_widget_witness :
  match render booted with
  | Ok s1 =>
      length (display s1) = 57%nat
      /\ render s1 = Ok (RenderMainPage s1)
      /\ buttons (RenderMainPage s1) = buttons s1
      /\ length (display (RenderMainPage s1)) = 61%nat
  | Fault _ => False
  end.
Proof.
  destruct (render booted) as [s1|f] eqn:H.
  - destruct (second_render_draws_no_widget booted s1 H)
      as (_ & Hr & Hb & _ & Hl).
    assert (match render booted with
            | Ok s1 =>
                currentPage s1 = MAIN_PAGE /\ length (display s1) = 57%nat
            | Fault _ => True
            end) as Hc by (vm_compute; split; reflexivity).
    rewrite H in Hc. destruct Hc as [Hp Hd].
    rewrite Hp in Hr. rewrite Hd in Hl.
    split; [exact Hd|]. split; [exact Hr|]. split; [exact Hb|exact Hl].
  - vm_compute in H. discriminate H.
Defined.

(** ** The buttons over the run *)

Lemma store_button_fmap {B : Type} (g : Button.t -> B) i f s s' :
  store_button i f s = Ok s' ->
  exists b, buttons s !! Z.to_nat i = Some b
            /\ g <$> buttons s' = <[Z.to_nat i := g (f b)]> (g <$> buttons s).
Proof.
  intros H. apply store_button_Ok in H as (b & _ & Hb & ->).
  exists b. split; [exact Hb|]. cbn [buttons with_buttons].
  apply list_fmap_insert.
Qed.

Lemma store_button_same {B : Type} (g : Button.t -> B) i f s s' :
  store_button i f s = Ok s' -> (forall b, g (f b) = g b) ->
  g <$> buttons s' = g <$> buttons s.
Proof.
  intros H Hg. apply (store_button_fmap g) in H as (b & Hb & ->).
  rewrite Hg. apply list_insert_id. now rewrite list_lookup_fmap, Hb.
Qed.

(** SelectButton moves no button, and on the [selected] flags it is three
    assignments. *)
Lemma SelectButton_lists newButton oldButton otherOldButton s s' :
  SelectButton newButton oldButton otherOldButton s = Ok s' ->
  button_geometry <$> buttons s' = button_geometry <$> buttons s
  /\ Button.selected <$> buttons s'
     = (if otherOldButton =? NONE then id
        else <[Z.to_nat otherOldButton := false]>)
         (<[Z.to_nat oldButton := false]>
            (<[Z.to_nat newButton := true]> (Button.selected <$> buttons s))).
Proof.
  unfold SelectButton. intros H.
  apply bind_Ok in H as (s1 & H1 & H). apply bind_Ok in H as (s2 & H2 & H).
  apply bind_Ok in H as (s3 & H3 & H). apply bind_Ok in H as (s4 & H4 & H).
  pose proof (store_button_same button_geometry _ _ _ _ H1
                ltac:(intros []; reflexivity)) as G1.
  pose proof (store_button_same button_geometry _ _ _ _ H2
                ltac:(intros []; reflexivity)) as G2.
  pose proof (store_button_same button_geometry _ _ _ _ H3
                ltac:(intros []; reflexivity)) as G3.
  pose proof (store_button_same button_geometry _ _ _ _ H4
                ltac:(intros []; reflexivity)) as G4.
  apply (store_button_fmap Button.selected) in H1 as (b1 & _ & S1).
  apply (store_button_same Button.selected) in H2 as S2;
    [|intros []; reflexivity].
  apply (store_button_fmap Button.selected) in H3 as (b3 & _ & S3).
  apply (store_button_same Button.selected) in H4 as S4;
    [|intros []; reflexivity].
  cbn [Button.selected Button.with_selected] in S1, S3.
  destruct (otherOldButton =? -1).
  - injection H as <-. split; [congruence|]. cbn [negb id].
    rewrite S4, S3, S2, S1. reflexivity.
  - cbn [negb] in H. apply bind_Ok in H as (s5 & H5 & H6).
    pose proof (store_button_same button_geometry _ _ _ _ H5
                  ltac:(intros []; reflexivity)) as G5.
    pose proof (store_button_same button_geometry _ _ _ _ H6
                  ltac:(intros []; reflexivity)) as G6.
    apply (store_button_fmap Button.selected) in H5 as (b5 & _ & S5).
    apply (store_button_same Button.selected) in H6 as S6;
      [|intros []; reflexivity].
    cbn [Button.selected Button.with_selected] in S5.
    split; [congruence|]. rewrite S6, S5, S4, S3, S2, S1. reflexivity.
Qed.

(** A press of anything but a button is dropped. *)
Lemma dispatch_other s :
  ~ 0 <= buttonPressed s < NUM_BUTTONS ->
  dispatch s = Ok (with_buttonPressed NONE s).
Proof.
  intros Hp. unfold dispatch, NUM_BUTTONS in *.
  repeat match goal with
    | |- context [match ?p with _ => _ end] => is_var p; destruct p
    | |- context [match buttonPressed s with _ => _ end] =>
        destruct (buttonPressed s)
    end;
    first [reflexivity | exfalso; lia].
Qed.

Lemma TIMER1_OVF_buttons touch s s' :
  TIMER1_OVF touch s = Ok s' ->
  buttons s' = buttons s /\ controlBits s' = controlBits s
  /\ currentPage s' = currentPage s.
Proof.
  unfold TIMER1_OVF. destruct touch as [[x y]|]; intros H.
  - apply (HandleTouchDown_obs
             (fun s => (buttons s, controlBits s, currentPage s))) in H;
      [|intros; reflexivity..].
    cbn in H. injection H as -> -> ->. auto.
  - apply bind_Ok in H as (s1 & H1 & H). apply Ok_inj in H. subst s'. cbn.
    destruct (touchTimer s >? 0).
    + apply (HandleTouchUp_obs
               (fun s => (buttons s, controlBits s, currentPage s))) in H1;
        [|intros; reflexivity..].
      injection H1 as -> -> ->. auto.
    + apply Ok_inj in H1. subst s1. auto.
Qed.

Lemma ten_hz_cycle_buttons adc s :
  buttons (ten_hz_cycle adc s) = buttons s
  /\ controlBits (ten_hz_cycle adc s) = controlBits s.
Proof.
  unfold ten_hz_cycle. cbv zeta.
  match goal with |- context [if ?c then _ else _] => destruct c end;
    split; reflexivity.
Qed.

(** What SelectButton, followed by the reset of [buttonPressed], makes of
    the invariant's three observations. *)
Lemma select_then_reset newButton oldButton otherOldButton s0 s1 G sel :
  SelectButton newButton oldButton otherOldButton s0 = Ok s1 ->
  button_geometry <$> buttons s0 = G ->
  Button.selected <$> buttons s0 = sel ->
  button_geometry <$> buttons (with_buttonPressed NONE s1) = G
  /\ Button.selected <$> buttons (with_buttonPressed NONE s1)
     = (if otherOldButton =? NONE then id
        else <[Z.to_nat otherOldButton := false]>)
         (<[Z.to_nat oldButton := false]> (<[Z.to_nat newButton := true]> sel))
  /\ controlBits (with_buttonPressed NONE s1) = controlBits s0.
Proof.
  intros H <- <-. pose proof (SelectButton_frame _ _ _ _ _ H) as [E _].
  apply SelectButton_lists in H as [Hg Hs].
  split; [exact Hg|]. split; [exact Hs|]. rewrite E. reflexivity.
Qed.

#[local] Ltac selected_case H Hg Hl Hcb w r hb hs q e :=
  let s1 := fresh "s1" in
  let H1 := fresh "H1" in
  let G := fresh "G" in
  let S := fresh "S" in
  let B := fresh "B" in
  apply bind_Ok in H as (s1 & H1 & H); apply Ok_inj in H;
  destruct (select_then_reset _ _ _ _ _ _ _ H1 Hg Hl) as (G & S & B);
  rewrite <- H; split; [exact G|];
  exists w, r, hb, hs, q, e;
  split; [rewrite S; reflexivity|];
  split; [tauto|];
  rewrite B;
  unfold clear_control_bit, set_control_bit, Transmit;
  cbn [controlBits with_controlBits with_uart_tx]; rewrite Hcb;
  repeat match goal with b : bool |- _ => destruct b end; reflexivity.

Lemma dispatch_button_invariant s s' :
  button_invariant s -> dispatch s = Ok s' -> button_invariant s'.
Proof.
  intros [Hg (w & r & hb & hs & q & e & Hl & He & Hcb)] H.
  destruct (decide (0 <= buttonPressed s < NUM_BUTTONS)) as [Hp|Hp].
  2:{ rewrite dispatch_other in H by exact Hp. apply Ok_inj in H. subst s'.
      split; [exact Hg|]. exists w, r, hb, hs, q, e. auto. }
  unfold NUM_BUTTONS in Hp.
  assert (buttonPressed s = 0 \/ buttonPressed s = 1 \/ buttonPressed s = 2
          \/ buttonPressed s = 3 \/ buttonPressed s = 4 \/ buttonPressed s = 5
          \/ buttonPressed s = 6 \/ buttonPressed s = 7 \/ buttonPressed s = 8
          \/ buttonPressed s = 9 \/ buttonPressed s = 10
          \/ buttonPressed s = 11 \/ buttonPressed s = 12) as Hcases by lia.
  clear Hp. unfold dispatch in H.
  destruct Hcases as [Hc|[Hc|[Hc|[Hc|[Hc|[Hc|[Hc|[Hc|[Hc|[Hc|[Hc|[Hc|Hc]]]]]]]]]]]];
    rewrite Hc in H.
  - selected_case H Hg Hl Hcb false r hb hs q e.
  - selected_case H Hg Hl Hcb true r hb hs q e.
  - selected_case H Hg Hl Hcb w false hb hs q e.
  - selected_case H Hg Hl Hcb w true hb hs q e.
  - selected_case H Hg Hl Hcb w r false hs q e.
  - selected_case H Hg Hl Hcb w r true hs q e.
  - selected_case H Hg Hl Hcb w r hb false q e.
  - selected_case H Hg Hl Hcb w r hb true q e.
  - selected_case H Hg Hl Hcb w r hb hs false e.
  - selected_case H Hg Hl Hcb w r hb hs true e.
  - selected_case H Hg Hl Hcb w r hb hs q 10.
  - selected_case H Hg Hl Hcb w r hb hs q 11.
  - selected_case H Hg Hl Hcb w r hb hs q 12.
Qed.

(** What a loop that maps an array element by element keeps, it keeps of
    the whole array. *)
Lemma pointwise_fmap {W B : Type} (g : W -> B) (l l' : list W)
    (f : nat -> W -> W) (count : nat) :
  length l' = length l ->
  (forall k w, l !! k = Some w ->
     l' !! k = Some (if decide (k < count)%nat then f k w else w)) ->
  (forall k w, g (f k w) = g w) ->
  g <$> l' = g <$> l.
Proof.
  intros Hlen Hall Hg. apply list_eq. intros k. rewrite !list_lookup_fmap.
  destruct (l !! k) as [w|] eqn:Hw.
  - rewrite (Hall k w Hw). cbn. f_equal.
    destruct (decide (k < count)%nat); [apply Hg|reflexivity].
  - apply lookup_ge_None in Hw.
    assert (l' !! k = None) as -> by (apply lookup_ge_None; lia).
    reflexivity.
Qed.

Lemma render_buttons s s' :
  render s = Ok s' ->
  button_geometry <$> buttons s' = button_geometry <$> buttons s
  /\ Button.selected <$> buttons s' = Button.selected <$> buttons s
  /\ controlBits s' = controlBits s.
Proof.
  intros H. apply render_eq in H as (d & Hs' & _ & _ & Hlen & _ & Hb & _).
  split; [|split].
  - apply (pointwise_fmap _ _ _ _ _ Hlen Hb).
    intros k b. apply rendered_button_selected.
  - apply (pointwise_fmap _ _ _ _ _ Hlen Hb).
    intros k b. apply rendered_button_selected.
  - rewrite Hs'. reflexivity.
Qed.

(** The invariant looks at the buttons and the control bitfield only. *)
Lemma button_invariant_ext s s' :
  buttons s' = buttons s -> controlBits s' = controlBits s ->
  button_invariant s -> button_invariant s'.
Proof.
  intros Hb Hcb [Hg (w & r & hb & hs & q & e & Hl & He & Hc)].
  split; [now rewrite Hb|]. exists w, r, hb, hs, q, e.
  rewrite Hb, Hcb. auto.
Qed.

Lemma reachable_button_invariant s : reachable s -> button_invariant s.
Proof.
  induction 1 as [s Hinit|s e s' _ IH Hstep].
  - apply main_init_inv in Hinit as ->. split; [reflexivity|].
    exists false, false, false, false, false, GREEN_EYES.
    split; [vm_compute; reflexivity|]. split; [tauto|].
    vm_compute. reflexivity.
  - destruct e as [|touch| |rx|adc|]; cbn in Hstep.
    + apply Some_inj, Ok_inj in Hstep. subst s'.
      now apply (button_invariant_ext s).
    + injection Hstep as H. apply TIMER1_OVF_buttons in H as (Hb & Hcb & _).
      now apply (button_invariant_ext s).
    + injection Hstep as H. now apply (dispatch_button_invariant s).
    + apply Some_inj, Ok_inj in Hstep. subst s'.
      rewrite receive_status_frame. now apply (button_invariant_ext s).
    + destruct (ticks s >? 781); [|discriminate].
      apply Some_inj, Ok_inj in Hstep. subst s'.
      destruct (ten_hz_cycle_buttons adc s) as [Hb Hcb].
      now apply (button_invariant_ext s).
    + injection Hstep as H. apply render_buttons in H as (Hg' & Hs' & Hcb).
      destruct IH as [Hg (w & r & hb & hs & q & e & Hl & He & Hc)].
      split; [congruence|]. exists w, r, hb, hs, q, e.
      rewrite Hs', Hcb. auto.
Qed.

(** ** One button under the finger *)

Lemma ButtonTouched_inside s b :
  ButtonTouched s b
  = inside (hit_box (button_geometry b)) (to_uint (touchX s))
      (to_uint (touchY s))
    && (currentPage s =? Button.page b).
Proof. reflexivity. Qed.

Lemma apart_inside box box' tx ty :
  apart box box' = true -> inside box tx ty = true ->
  inside box' tx ty = true -> False.
Proof.
  destruct box as [[[l r] t] b], box' as [[[l' r'] t'] b'].
  unfold apart, inside.
  rewrite !orb_true_iff, !andb_true_iff, !Z.ltb_lt, !Z.geb_le, !Z.leb_le.
  lia.
Qed.

Lemma forallb_lookup {W : Type} (f : W -> bool) (l : list W) : forall k w,
  forallb f l = true -> l !! k = Some w -> f w = true.
Proof.
  induction l as [|w0 l IH]; intros k w Hf Hk; [discriminate Hk|].
  cbn [forallb] in Hf. apply andb_true_iff in Hf as [H0 Hf].
  destruct k as [|k]; cbn in Hk.
  - now injection Hk as <-.
  - now apply (IH k).
Qed.

Lemma all_apart_inside boxes tx ty : forall i j box box',
  all_apart boxes = true ->
  boxes !! i = Some box -> boxes !! j = Some box' ->
  inside box tx ty = true -> inside box' tx ty = true -> i = j.
Proof.
  induction boxes as [|box0 boxes IH]; intros i j box box' Ha Hi Hj Hin Hin';
    [discriminate Hi|].
  cbn [all_apart] in Ha. apply andb_true_iff in Ha as [Hfirst Hrest].
  destruct i as [|i], j as [|j]; cbn in Hi, Hj.
  - reflexivity.
  - injection Hi as ->. exfalso.
    apply (apart_inside box box' tx ty); [|assumption..].
    exact (forallb_lookup _ _ j _ Hfirst Hj).
  - injection Hj as ->. exfalso.
    apply (apart_inside box' box tx ty); [|assumption..].
    exact (forallb_lookup _ _ i _ Hfirst Hi).
  - f_equal. now apply (IH i j box box').
Qed.



(** X10: in every state the firmware can reach, the [selected] flags of the
    thirteen buttons and the control bitfield agree: of each of the five
    pairs exactly one button is selected, the second one exactly when the
    pair's bit is set in [controlBits]; exactly one eye colour is selected;
    and the three upper bits of [controlBits] are clear. *)
Theorem selection_agrees_with_control_bits s :
  reachable s -> selection_consistent s /\ 0 <= controlBits s < 32.
Proof.
  intros Hs. destruct (reachable_button_invariant s Hs) as [_ Hsel].
  split; [exact Hsel|].
  destruct Hsel as (w & r & hb & hs & q & e & _ & _ & ->).
  destruct w, r, hb, hs, q; vm_compute; split; congruence.
Qed.

Lemma selection_agrees_with_control_bits_witness :
  match dispatch wiggle_pressed with
  | Ok s =>
      Button.selected <$> buttons s
      = [false; true; true; false; true; false; true; false; true; false;
         false; true; false]
      /\ controlBits s = WIGGLE_BIT
      /\ selection_consistent s
  | Fault _ => False
  end.
Proof.
  destruct (dispatch wiggle_pressed) as [s|f] eqn:Hd;
    [|vm_compute in Hd; discriminate Hd].
  assert (reachable s) as Hs.
  { apply reachable_step with (s := wiggle_pressed) (e := Dispatch).
    - apply (reachable_poll
               [Some (260, 40); Some (260, 40); Some (260, 40);
                Some (260, 40); Some (260, 40); None] booted);
        [exact reachable_booted|vm_compute; reflexivity].
    - cbn [step]. now rewrite Hd. }
  assert (match dispatch wiggle_pressed with
          | Ok s =>
              Button.selected <$> buttons s
              = [false; true; true; false; true; false; true; false; true;
                 false; false; true; false]
              /\ controlBits s = WIGGLE_BIT
          | Fault _ => True
          end) as Hc by (vm_compute; split; reflexivity).
  rewrite Hd in Hc. destruct Hc as [Hl Hcb].
  split; [exact Hl|]. split; [exact Hcb|].
  exact (proj1 (selection_agrees_with_control_bits s Hs)).
Defined.

(** ** A press: touch, hold and release *)

Lemma ButtonTouched_ext s s' b :
  touchX s' = touchX s -> touchY s' = touchY s ->
  currentPage s' = currentPage s ->
  ButtonTouched s' b = ButtonTouched s b.
Proof. unfold ButtonTouched. now intros -> -> ->. Qed.

(** Where the buttons are as at start-up, two touched buttons are one. *)
Lemma touched_buttons_coincide s i j bi bj :
  button_geometry <$> buttons s = button_geometry <$> buttons booted ->
  buttons s !! i = Some bi -> buttons s !! j = Some bj ->
  ButtonTouched s bi = true -> ButtonTouched s bj = true -> i = j.
Proof.
  intros Hg Hi Hj Hti Htj. rewrite ButtonTouched_inside in Hti, Htj.
  apply andb_true_iff in Hti as [Hti _]. apply andb_true_iff in Htj as [Htj _].
  apply (all_apart_inside (hit_box <$> (button_geometry <$> buttons s))
           (to_uint (touchX s)) (to_uint (touchY s)) i j
           (hit_box (button_geometry bi)) (hit_box (button_geometry bj)));
    try assumption.
  - rewrite Hg. vm_compute. reflexivity.
  - now rewrite !list_lookup_fmap, Hi.
  - now rewrite !list_lookup_fmap, Hj.
Qed.

(** A loop whose every iteration succeeds and keeps [P] succeeds and keeps
    [P]. *)
Lemma for_loop_total (P : State -> Prop) body count : forall n s,
  P s ->
  (forall m s0, n <= m < n + Z.of_nat count -> P s0 ->
                exists s1, body m s0 = Ok s1 /\ P s1) ->
  exists s', for_loop count n body s = Ok s' /\ P s'.
Proof.
  induction count as [|count IH]; intros n s HP Hbody; cbn [for_loop].
  - exists s. auto.
  - destruct (Hbody n s ltac:(lia) HP) as (s1 & -> & HP1).
    cbn [mbind res_bind]. apply IH; [exact HP1|].
    intros m s0 Hm. apply Hbody. lia.
Qed.

(** On the sliders the firmware runs with, all zero in their geometry, a
    drag never divides by zero. *)
Lemma drag_slider_total n s :
  slider_geometry <$> sliders s = [(0, 0, 0, 0, 0); (0, 0, 0, 0, 0)] ->
  0 <= n < NUM_SLIDERS ->
  exists s', drag_slider n s = Ok s'
             /\ slider_geometry <$> sliders s'
                = [(0, 0, 0, 0, 0); (0, 0, 0, 0, 0)].
Proof.
  intros Hg Hn. unfold NUM_SLIDERS in Hn.
  assert (exists sl, sliders s !! Z.to_nat n = Some sl
                     /\ slider_geometry sl = (0, 0, 0, 0, 0))
    as (sl & Hsl & Hgsl).
  { assert ((slider_geometry <$> sliders s) !! Z.to_nat n
            = Some (0, 0, 0, 0, 0)) as Hl.
    { rewrite Hg. assert (n = 0 \/ n = 1) as [-> | ->] by lia; reflexivity. }
    rewrite list_lookup_fmap in Hl.
    destruct (sliders s !! Z.to_nat n) as [sl|]; [|discriminate Hl].
    exists sl. split; [reflexivity|]. cbn in Hl. congruence. }
  unfold drag_slider.
  assert (load "sliders" (sliders s) n = Ok sl) as ->
    by (apply load_Ok; split; [lia|exact Hsl]).
  cbn [mbind res_bind].
  destruct (_ && _); [|exists s; auto].
  assert (Slider.width sl = 0) as Hw
    by (unfold slider_geometry in Hgsl; now injection Hgsl as _ _ Hw _ _).
  assert (exists v, drag_value (touchX s) sl = Ok (Slider.with_value v sl))
    as [v Hv].
  { unfold drag_value. rewrite Hw.
    change (to_uint (to_int (to_uint (0 - 16))) =? 0) with false.
    cbv iota zeta. cbn [Slider.value Slider.with_value].
    repeat match goal with
      | |- context [if ?c then _ else _] => destruct c
      end; eexists; reflexivity. }
  rewrite Hv. cbn [mbind res_bind]. unfold store_slider, store.
  assert (load "sliders" (sliders s) n = Ok sl) as ->
    by (apply load_Ok; split; [lia|exact Hsl]).
  cbn [mbind res_bind]. eexists. split; [reflexivity|].
  cbn [sliders with_sliders]. rewrite <- Hg.
  apply insert_same_geometry with sl; [exact Hsl|]. destruct sl; reflexivity.
Qed.

Lemma buttons_as_booted_length s :
  button_geometry <$> buttons s = button_geometry <$> buttons booted ->
  length (buttons s) = Z.to_nat NUM_BUTTONS.
Proof.
  intros Hg. apply (f_equal length) in Hg. rewrite !length_fmap in Hg.
  rewrite Hg. reflexivity.
Qed.

(** A poll while the finger rests, after the arming poll: only the
    coordinates, the counter and the slider values may change. *)
Lemma held_poll x y s :
  slider_geometry <$> sliders s = [(0, 0, 0, 0, 0); (0, 0, 0, 0, 0)] ->
  3 <= touchTimer s < 32767 ->
  exists s',
    TIMER1_OVF (Some (x, y)) s = Ok s'
    /\ touchTimer s' = touchTimer s + 1
    /\ touchX s' = to_int (to_U16 x) /\ touchY s' = to_int (to_U16 y)
    /\ buttons s' = buttons s /\ buttonPressed s' = buttonPressed s
    /\ touchedButton s' = touchedButton s.
Proof.
  intros Hg Ht. unfold TIMER1_OVF, HandleTouchDown, to_short. fold to_int.
  rewrite (to_int_small (touchTimer s + 1)) by lia. cbv zeta.
  cbn [touchTimer with_touchX with_touchY with_touchTimer].
  destruct (Z.eqb_spec (touchTimer s + 1) 3); [lia|].
  destruct (Z.gtb_spec (touchTimer s + 1) 3); [|lia].
  set (s0 := with_touchY _ _).
  destruct (for_loop_total
              (fun s => slider_geometry <$> sliders s
                        = [(0, 0, 0, 0, 0); (0, 0, 0, 0, 0)])
              drag_slider (Z.to_nat NUM_SLIDERS) 0 s0 Hg) as (s' & Hs' & _).
  { intros m s1 Hm Hg1. apply drag_slider_total; [exact Hg1|].
    unfold NUM_SLIDERS in *. lia. }
  exists s'. unfold for_each. split; [exact Hs'|].
  pose (obs := fun s => (touchTimer s, touchX s, touchY s, buttons s,
                         buttonPressed s, touchedButton s)).
  apply (for_loop_obs obs _ (drag_slider_obs obs (fun _ _ _ => eq_refl)))
    in Hs'.
  unfold obs in Hs'. injection Hs' as -> -> -> -> -> ->.
  repeat split; reflexivity.
Qed.

Lemma last_cons_default {W : Type} (l : list W) : forall a d,
  List.last (a :: l) d = List.last l a.
Proof.
  induction l as [|b l IH]; intros a d; [reflexivity|].
  change (List.last (a :: b :: l) d) with (List.last (b :: l) d).
  now rewrite !IH.
Qed.

Lemma held_polls rest : forall s p0,
  reachable s -> 3 <= touchTimer s ->
  touchTimer s + Z.of_nat (length rest) <= 32767 ->
  touchX s = to_int (to_U16 p0.1) -> touchY s = to_int (to_U16 p0.2) ->
  exists s',
    poll (map Some rest) s = Ok s' /\ reachable s'
    /\ touchTimer s' = touchTimer s + Z.of_nat (length rest)
    /\ touchX s' = to_int (to_U16 (List.last rest p0).1)
    /\ touchY s' = to_int (to_U16 (List.last rest p0).2)
    /\ buttons s' = buttons s /\ buttonPressed s' = buttonPressed s
    /\ touchedButton s' = touchedButton s.
Proof.
  induction rest as [|[x y] rest IH]; intros s p0 Hs Ht Hlen Hx Hy;
    cbn [length] in Hlen.
  - exists s. cbn [poll map List.last length]. repeat split; auto; lia.
  - destruct (held_poll x y s) as (s1 & H1 & Ht1 & Hx1 & Hy1 & Hb1 & Hp1 & Ha1);
      [apply (reachable_slider_invariant s Hs)|lia|].
    assert (reachable s1) as Hs1.
    { apply reachable_step with (s := s) (e := Timer1 (Some (x, y)));
        [exact Hs|]. cbn [step]. now rewrite H1. }
    destruct (IH s1 (x, y) Hs1 ltac:(lia) ltac:(lia) Hx1 Hy1)
      as (s' & H' & Hs' & Ht' & Hx' & Hy' & Hb' & Hp' & Ha').
    exists s'. cbn [map poll]. rewrite H1. cbn [mbind res_bind].
    rewrite last_cons_default.
    split; [exact H'|]. split; [exact Hs'|]. split; [cbn [length]; lia|].
    split; [exact Hx'|]. split; [exact Hy'|].
    split; [congruence|]. split; congruence.
Qed.

(** The release of a touch of three polls or more that armed button [k]:
    HandleTouchUp tests the armed button against the coordinates of the last
    poll with touch data, before they are reset. *)
Lemma release_poll s k b :
  3 <= touchTimer s -> touchedButton s = Z.of_nat k ->
  buttons s !! k = Some b ->
  TIMER1_OVF None s
  = Ok (with_touchY (-1)
          (with_touchX (-1)
             (with_touchTimer 0
                (with_touchedSlider NONE
                   (with_touchedButton NONE
                      (if ButtonTouched s b
                       then with_buttonPressed (Z.of_nat k) s else s)))))).
Proof.
  intros Ht Ha Hb. unfold TIMER1_OVF, HandleTouchUp.
  destruct (Z.gtb_spec (touchTimer s) 0); [|lia].
  destruct (Z.ltb_spec (touchTimer s) 3); [lia|].
  assert (load "buttons" (buttons s) (touchedButton s) = Ok b) as ->
    by (apply load_Ok; rewrite Ha, Nat2Z.id; split; [lia|exact Hb]).
  cbn [mbind res_bind]. cbv zeta. rewrite Ha. reflexivity.
Qed.

(** The third poll of a touch that lies on button [k]: it arms [k]. *)
Lemma arming_poll x y s k b :
  reachable s -> touchTimer s = 2 ->
  buttons s !! k = Some b -> ButtonTouched (touch_at x y s) b = true ->
  exists s',
    TIMER1_OVF (Some (x, y)) s = Ok s'
    /\ touchTimer s' = 3 /\ touchedButton s' = Z.of_nat k
    /\ touchX s' = to_int (to_U16 x) /\ touchY s' = to_int (to_U16 y)
    /\ buttons s' = buttons s /\ buttonPressed s' = buttonPressed s.
Proof.
  intros Hs Ht Hk Hhit.
  destruct (reachable_button_invariant s Hs) as [Hg _].
  pose proof (buttons_as_booted_length s Hg) as Hlen.
  pose proof (inv_geometry s (reachable_slider_invariant s Hs)) as Hgs.
  assert (length (sliders s) = Z.to_nat NUM_SLIDERS) as Hlens.
  { apply (f_equal length) in Hgs. now rewrite length_fmap in Hgs. }
  unfold TIMER1_OVF, HandleTouchDown. rewrite Ht.
  change (to_short (2 + 1)) with 3. cbv zeta.
  cbn [touchTimer with_touchX with_touchY with_touchTimer].
  change (3 =? 3) with true. cbv iota.
  set (s0 := with_touchY _ _).
  assert (forall b', ButtonTouched s0 b' = ButtonTouched (touch_at x y s) b')
    as Hsame by reflexivity.
  destruct (arm_loop_last_wins "buttons" buttons ButtonTouched
              with_touchedButton touchedButton
              (fun _ _ => eq_refl) (fun _ _ _ => eq_refl)
              (fun _ _ => eq_refl) s0)
    as (s1 & Hs1 & _ & _ & Hlast1 & _).
  change (arm_if_touched "buttons" buttons ButtonTouched with_touchedButton)
    with arm_button in Hs1.
  change (buttons s0) with (buttons s) in Hs1, Hlast1.
  rewrite Hlen in Hs1.
  change (Z.of_nat (Z.to_nat NUM_BUTTONS)) with NUM_BUTTONS in Hs1.
  rewrite Hs1. cbn [mbind res_bind].
  pose (obs1 := fun s => (sliders s, touchTimer s, touchX s, touchY s,
                          buttons s, buttonPressed s)).
  pose proof Hs1 as Hf1. unfold for_each in Hf1.
  apply (for_loop_obs obs1 _ (arm_button_obs obs1 (fun _ _ => eq_refl)))
    in Hf1.
  unfold obs1 in Hf1. cbn in Hf1.
  injection Hf1 as Hsl1 Ht1 Hx1 Hy1 Hb1 Hp1.
  destruct (arm_loop_last_wins "sliders" sliders SliderTouched
              with_touchedSlider touchedSlider
              (fun _ _ => eq_refl) (fun _ _ _ => eq_refl)
              (fun _ _ => eq_refl) s1)
    as (s2 & Hs2 & _).
  change (arm_if_touched "sliders" sliders SliderTouched with_touchedSlider)
    with arm_slider in Hs2.
  rewrite Hsl1, Hlens in Hs2.
  change (Z.of_nat (Z.to_nat NUM_SLIDERS)) with NUM_SLIDERS in Hs2.
  exists s2. split; [exact Hs2|].
  pose (obs2 := fun s => (touchedButton s, touchTimer s, touchX s, touchY s,
                          buttons s, buttonPressed s)).
  unfold for_each in Hs2.
  apply (for_loop_obs obs2 _ (arm_slider_obs obs2 (fun _ _ => eq_refl)))
    in Hs2.
  unfold obs2 in Hs2. injection Hs2 as -> -> -> -> -> ->.
  rewrite Ht1, Hx1, Hy1, Hb1, Hp1.
  split; [reflexivity|]. split; [|repeat split; reflexivity].
  rewrite (Hlast1 k b Hk).
  - apply to_S8_small. apply lookup_lt_Some in Hk. rewrite Hlen in Hk.
    unfold NUM_BUTTONS in Hk. lia.
  - rewrite Hsame. exact Hhit.
  - intros m b' Hm Hb'. destruct (ButtonTouched s0 b') eqn:Hhit';
      [|reflexivity].
    exfalso. rewrite Hsame in Hhit'.
    assert (k = m); [|lia].
    apply (touched_buttons_coincide (touch_at x y s) k m b b'); assumption.
Qed.

Lemma poll_app touches touches' : forall s,
  poll (touches ++ touches') s = (s' ← poll touches s; poll touches' s').
Proof.
  induction touches as [|t touches IH]; intros s; cbn [app poll].
  - reflexivity.
  - destruct (TIMER1_OVF t s) as [s1|f]; cbn [mbind res_bind];
      [apply IH|reflexivity].
Qed.

(** One of the two polls before the arming poll. *)
Lemma settling_step x y s :
  reachable s -> 0 <= touchTimer s < 2 ->
  exists s',
    TIMER1_OVF (Some (x, y)) s = Ok s' /\ reachable s'
    /\ touchTimer s' = touchTimer s + 1
    /\ buttons s' = buttons s /\ buttonPressed s' = buttonPressed s
    /\ currentPage s' = currentPage s
    /\ touchedButton s' = touchedButton s.
Proof.
  intros Hs Ht. eexists. split; [apply TIMER1_OVF_settling, Ht|].
  split; [|repeat split; reflexivity].
  apply reachable_step with (s := s) (e := Timer1 (Some (x, y)));
    [exact Hs|]. cbn [step]. now rewrite TIMER1_OVF_settling by exact Ht.
Qed.

(** X11: a press.  From a reachable state with no touch in progress, a
    finger that is on button [k] at the third poll, rests for any number of
    further polls and is then lifted commits the press of [k] if the last
    poll with touch data still found it on that button, and commits nothing
    otherwise; either way the handler does not fault, both armed indices are
    reset and the coordinates are back to -1.  Where the finger was at the
    first two polls, and where it wandered in between, does not matter. *)
Theorem press_and_release_commits p1 p2 p3 rest s k b :
  reachable s -> touchTimer s = 0 ->
  Z.of_nat (length rest) <= 32764 ->
  buttons s !! k = Some b ->
  ButtonTouched (touch_at p3.1 p3.2 s) b = true ->
  exists s',
    poll (map Some (p1 :: p2 :: p3 :: rest) ++ [None]) s = Ok s'
    /\ buttonPressed s'
       = (if ButtonTouched
               (touch_at (List.last rest p3).1 (List.last rest p3).2 s) b
          then Z.of_nat k else buttonPressed s)
    /\ touchedButton s' = NONE /\ touchedSlider s' = NONE
    /\ touchTimer s' = 0 /\ touchX s' = -1 /\ touchY s' = -1
    /\ buttons s' = buttons s.
Proof.
  intros Hs Ht Hlen Hk Hhit.
  destruct p1 as [x1 y1], p2 as [x2 y2], p3 as [x3 y3].
  cbn [fst snd] in Hhit. cbn [map app poll].
  (* the two settling polls *)
  destruct (settling_step x1 y1 s Hs ltac:(lia))
    as (s1 & -> & Hs1 & Ht1 & Hb1 & Hp1 & Hc1 & Ha1).
  cbn [mbind res_bind].
  destruct (settling_step x2 y2 s1 Hs1 ltac:(lia))
    as (s2 & -> & Hs2 & Ht2 & Hb2 & Hp2 & Hc2 & Ha2).
  cbn [mbind res_bind].
  (* the arming poll *)
  assert (buttons s2 !! k = Some b) as Hk2 by (rewrite Hb2, Hb1; exact Hk).
  assert (ButtonTouched (touch_at x3 y3 s2) b = true) as Hhit2.
  { rewrite <- Hhit. apply ButtonTouched_ext; [reflexivity..|].
    change (currentPage s2 = currentPage s). congruence. }
  destruct (arming_poll x3 y3 s2 k b Hs2 ltac:(lia) Hk2 Hhit2)
    as (s3 & H3 & Ht3 & Ha3 & Hx3 & Hy3 & Hb3 & Hp3).
  rewrite H3. cbn [mbind res_bind].
  assert (reachable s3) as Hs3.
  { apply reachable_step with (s := s2) (e := Timer1 (Some (x3, y3)));
      [exact Hs2|]. cbn [step]. now rewrite H3. }
  (* the finger rests *)
  destruct (held_polls rest s3 (x3, y3) Hs3 ltac:(lia) ltac:(lia) Hx3 Hy3)
    as (s4 & H4 & Hs4 & Ht4 & Hx4 & Hy4 & Hb4 & Hp4 & Ha4).
  rewrite poll_app, H4. cbn [mbind res_bind poll].
  (* and is lifted *)
  assert (buttons s4 = buttons s) as Hb by congruence.
  assert (buttonPressed s4 = buttonPressed s) as Hp by congruence.
  rewrite (release_poll s4 k b);
    [|lia|congruence|rewrite Hb; exact Hk].
  eexists. split; [reflexivity|].
  assert (ButtonTouched s4 b
          = ButtonTouched
              (touch_at (List.last rest (x3, y3)).1
                 (List.last rest (x3, y3)).2 s) b) as ->.
  { apply ButtonTouched_ext; [exact Hx4|exact Hy4|].
    rewrite (inv_page s4 (reachable_slider_invariant s4 Hs4)).
    symmetry. apply (inv_page s (reachable_slider_invariant s Hs)). }
  match goal with |- context [if ?c then _ else _] => destruct c end;
    cbn [buttonPressed touchedButton touchedSlider touchTimer touchX touchY
         buttons with_touchY with_touchX with_touchTimer with_touchedSlider
         with_touchedButton with_buttonPressed];
    rewrite ?Hb, ?Hp; repeat split.
Qed.

Lemma press_and_release_commits_witness :
  exists s',
    poll [Some (10, 10); Some (200, 100); Some (260, 40); Some (262, 41);
          Some (300, 50); None] booted = Ok s'
    /\ buttonPressed s' = WIGGLE_MODE
    /\ touchedButton s' = NONE /\ touchedSlider s' = NONE
    /\ touchTimer s' = 0.
Proof.
  pose (b := nth 1 (buttons booted) Button.zero).
  assert (touchTimer booted = 0) as Ht by reflexivity.
  assert (Z.of_nat (length [(262, 41); (300, 50)]) <= 32764) as Hlen
    by (cbn; lia).
  assert (buttons booted !! 1%nat = Some b) as Hk by (vm_compute; reflexivity).
  assert (ButtonTouched (touch_at (260, 40).1 (260, 40).2 booted) b = true)
    as Hhit by (vm_compute; reflexivity).
  destruct (press_and_release_commits (10, 10) (200, 100) (260, 40)
              [(262, 41); (300, 50)] booted 1 b reachable_booted Ht Hlen Hk
              Hhit)
    as (s' & Hs' & Hp & Hb & Hsl & Ht' & _).
  exists s'. split; [exact Hs'|].
  split; [|split; [exact Hb|split; [exact Hsl|exact Ht']]].
  rewrite Hp.
  assert (ButtonTouched
            (touch_at (List.last [(262, 41); (300, 50)] (260, 40)).1
               (List.last [(262, 41); (300, 50)] (260, 40)).2 booted) b
          = true) as -> by (vm_compute; reflexivity).
  reflexivity.
Defined.

(** ** The sliders over the run *)

Lemma with_sliders_id s : with_sliders (sliders s) s = s.
Proof. destruct s; reflexivity. Qed.

Lemma for_loop_fixed body count : forall n s,
  (forall m, n <= m < n + Z.of_nat count -> body m s = Ok s) ->
  for_loop count n body s = Ok s.
Proof.
  induction count as [|count IH]; intros n s Hbody; cbn [for_loop];
    [reflexivity|].
  rewrite Hbody by lia. cbn [mbind res_bind]. apply IH.
  intros m Hm. apply Hbody. lia.
Qed.

(** On the zero-initialised sliders a drag is only possible at touchX = 0,
    where it computes the value 0 again. *)
Lemma drag_slider_zero n s :
  sliders s = [Slider.zero; Slider.zero] ->
  currentPage s = MAIN_PAGE ->
  -32768 <= touchX s <= 32767 -> -32768 <= touchY s <= 32767 ->
  0 <= n < NUM_SLIDERS ->
  drag_slider n s = Ok s.
Proof.
  intros Hsl Hp Hx Hy Hn. unfold NUM_SLIDERS in Hn.
  assert (sliders s !! Z.to_nat n = Some Slider.zero) as Hz.
  { rewrite Hsl. assert (n = 0 \/ n = 1) as [-> | ->] by lia; reflexivity. }
  unfold drag_slider.
  assert (load "sliders" (sliders s) n = Ok Slider.zero) as Hload
    by (apply load_Ok; split; [lia|exact Hz]).
  rewrite Hload. cbn [mbind res_bind].
  destruct (SliderTouched s Slider.zero) eqn:Hhit; [|reflexivity].
  destruct (touchedSlider s =? n); [|reflexivity]. cbn [andb].
  apply SliderTouched_zero_geometry in Hhit as [Hx0 _];
    [|reflexivity|assumption..].
  rewrite Hx0.
  assert (drag_value 0 Slider.zero = Ok Slider.zero) as ->
    by (vm_compute; reflexivity).
  cbn [mbind res_bind]. unfold store_slider, store. rewrite Hload.
  cbn [mbind res_bind]. f_equal.
  rewrite list_insert_id by exact Hz. apply with_sliders_id.
Qed.

Lemma TIMER1_OVF_zero_sliders touch s s' :
  TIMER1_OVF touch s = Ok s' ->
  sliders s = [Slider.zero; Slider.zero] -> currentPage s = MAIN_PAGE ->
  sliders s' = [Slider.zero; Slider.zero].
Proof.
  unfold TIMER1_OVF. intros H Hsl Hp. destruct touch as [[x y]|].
  - unfold HandleTouchDown in H. cbv zeta in H.
    set (s0 := with_touchY _ _) in H.
    destruct (touchTimer s0 =? 3).
    + apply bind_Ok in H as (s1 & H1 & H).
      apply (for_loop_obs sliders _
               (arm_button_obs sliders (fun _ _ => eq_refl))) in H1.
      apply (for_loop_obs sliders _
               (arm_slider_obs sliders (fun _ _ => eq_refl))) in H.
      rewrite H, H1. exact Hsl.
    + destruct (touchTimer s0 >? 3).
      * unfold for_each in H. rewrite for_loop_fixed in H.
        -- apply Ok_inj in H. subst s'. exact Hsl.
        -- intros m Hm. apply drag_slider_zero; try assumption.
           ++ apply to_int_range.
           ++ apply to_int_range.
      * apply Ok_inj in H. subst s'. exact Hsl.
  - apply bind_Ok in H as (s1 & H1 & H). apply Ok_inj in H. subst s'.
    change (sliders s1 = [Slider.zero; Slider.zero]).
    destruct (touchTimer s >? 0).
    + apply (HandleTouchUp_obs sliders) in H1; [|intros; reflexivity..].
      now rewrite H1.
    + apply Ok_inj in H1. now subst s1.
Qed.

Lemma rendered_slider_zero s :
  slider_is_redrawn s Slider.zero = false
  /\ rendered_slider s Slider.zero = Slider.zero.
Proof.
  assert (slider_is_redrawn s Slider.zero = false) as H
    by (unfold slider_is_redrawn; apply andb_false_r).
  split; [exact H|]. unfold rendered_slider. now rewrite H.
Qed.

Lemma reachable_zero_sliders s :
  reachable s -> sliders s = [Slider.zero; Slider.zero].
Proof.
  induction 1 as [s Hinit|s e s' Hs IH Hstep].
  - apply main_init_inv in Hinit as ->. reflexivity.
  - destruct e as [|touch| |rx|adc|]; cbn in Hstep.
    + apply Some_inj, Ok_inj in Hstep. subst s'. exact IH.
    + injection Hstep as H.
      apply (TIMER1_OVF_zero_sliders touch s s' H IH).
      apply (inv_page s (reachable_slider_invariant s Hs)).
    + injection Hstep as H.
      apply (dispatch_obs sliders) in H; [|intros; reflexivity..].
      now rewrite H.
    + apply Some_inj, Ok_inj in Hstep. subst s'.
      rewrite receive_status_frame. exact IH.
    + destruct (ticks s >? 781); [|discriminate].
      apply Some_inj, Ok_inj in Hstep. subst s'.
      now rewrite (proj1 (ten_hz_cycle_view adc s)).
    + injection Hstep as H.
      apply render_eq in H as (d & _ & _ & _ & _ & Hlen & _ & Hall).
      rewrite <- IH.
      apply (pointwise_fixed _ _ (fun _ sl => rendered_slider s sl)
               (Z.to_nat NUM_SLIDERS) Hlen Hall).
      intros k sl Hlt Hk. rewrite IH in Hk.
      assert (sl = Slider.zero) as ->.
      { destruct k as [|[|k]]; [cbn in Hk; congruence..|].
        change (Z.to_nat NUM_SLIDERS) with 2%nat in Hlt. lia. }
      apply rendered_slider_zero.
Qed.

(** X12: the sliders are dead.  In every state the firmware can reach both
    sliders are still all zero, value and oldValue included: a drag can only
    happen at touchX = 0 and computes 0 again, so the render pass never
    finds a slider to draw and RenderSliders leaves the state, display
    included, as it is. *)
Theorem sliders_are_never_drawn s :
  reachable s ->
  sliders s = [Slider.zero; Slider.zero] /\ RenderSliders s = Ok s.
Proof.
  intros Hs. pose proof (reachable_zero_sliders s Hs) as Hz.
  split; [exact Hz|]. unfold RenderSliders, for_each.
  apply for_loop_fixed. intros m Hm. unfold NUM_SLIDERS in Hm.
  unfold render_slider.
  assert (load "sliders" (sliders s) m = Ok Slider.zero) as ->.
  { apply load_Ok. split; [lia|]. rewrite Hz.
    assert (m = 0 \/ m = 1) as [-> | ->] by lia; reflexivity. }
  cbn [mbind res_bind]. fold (slider_is_redrawn s Slider.zero).
  now rewrite (proj1 (rendered_slider_zero s)).
Qed.

Lemma sliders_are_never_drawn_witness :
  exists s,
    corner_touch = Ok s
    /\ touchTimer s = 4 /\ touchedSlider s = BACK_SERVO
    /\ sliders s = [Slider.zero; Slider.zero] /\ RenderSliders s = Ok s.
Proof.
  eexists. split; [vm_compute; reflexivity|].
  split; [reflexivity|]. split; [reflexivity|].
  apply sliders_are_never_drawn.
  apply (reachable_poll
           [Some (0, 10); Some (0, 10); Some (0, 10); Some (0, 10)] booted);
    [exact reachable_booted|vm_compute; reflexivity].
Defined.

(** ** The tick counter at its upper end *)

Lemma to_short_succ z : to_short (to_short z + 1) = to_short (z + 1).
Proof.
  unfold to_short, wrap_signed. change (2 ^ (16 - 1)) with 32768.
  change (2 ^ 16) with 65536. f_equal.
  replace ((z + 32768) mod 65536 - 32768 + 1 + 32768)
    with ((z + 32768) mod 65536 + 1) by lia.
  rewrite Z.add_mod_idemp_l by lia. f_equal. lia.
Qed.

Lemma ticks_after_overflows n s :
  ticks (Nat.iter (S n) TIMER0_OVF s) = to_short (ticks s + Z.of_nat (S n)).
Proof.
  induction n as [|n IH].
  - reflexivity.
  - change (Nat.iter (S (S n)) TIMER0_OVF s)
      with (TIMER0_OVF (Nat.iter (S n) TIMER0_OVF s)).
    unfold TIMER0_OVF at 1. cbn [ticks with_ticks].
    rewrite IH, to_short_succ. f_equal. lia.
Qed.

(** X13: the tick counter is a signed 16-bit integer that the timer
    handler increments without a bound.  Once the main loop has fallen
    32768 ticks or more behind, the counter has wrapped to a negative
    value: the next pass through the 10 Hz loop runs no cycle and sends no
    frame, so the whole backlog is dropped (below that, the loop sends one
    frame for every 781 ticks). *)
Theorem tick_counter_wraps_and_drops_backlog adcs s n :
  -32768 <= ticks s <= 32767 ->
  32768 <= ticks s + Z.of_nat (S n) <= 66317 ->
  let s' := Nat.iter (S n) TIMER0_OVF s in
  ticks s' = ticks s + Z.of_nat (S n) - 65536
  /\ ticks s' <= 781
  /\ ten_hz_loop adcs 0 s' = s'.
Proof.
  intros Ht Hn s'.
  assert (ticks s' = ticks s + Z.of_nat (S n) - 65536) as Hs'.
  { subst s'. rewrite ticks_after_overflows.
    unfold to_short, wrap_signed. change (2 ^ (16 - 1)) with 32768.
    change (2 ^ 16) with 65536.
    replace (ticks s + Z.of_nat (S n) + 32768)
      with (ticks s + Z.of_nat (S n) - 65536 + 32768 + 1 * 65536) by lia.
    rewrite Z.mod_add by lia. rewrite Z.mod_small by lia. lia. }
  split; [exact Hs'|]. split; [lia|].
  rewrite ten_hz_loop_eq.
  destruct (Z.gtb_spec (ticks s') 781); [lia|reflexivity].
Qed.

Lemma tick_counter_wraps_and_drops_backlog_witness :
  let s := with_ticks 32767 (after_ticks 5) in
  ticks (TIMER0_OVF s) = -32768
  /\ ten_hz_loop (fun _ _ => 600) 0 (TIMER0_OVF s) = TIMER0_OVF s.
Proof.
  intros s.
  assert (-32768 <= ticks s <= 32767) as Ht
    by (vm_compute; split; discriminate).
  assert (32768 <= ticks s + Z.of_nat 1 <= 66317) as Hn
    by (vm_compute; split; discriminate).
  destruct (tick_counter_wraps_and_drops_backlog (fun _ _ => 600) s 0 Ht Hn)
    as (Hw & _ & Hl).
  split; [exact Hw|exact Hl].
Defined.

(** ** A touch beside the buttons *)

(** The third poll of a touch that lies on no button: it arms none. *)
Lemma arming_poll_none x y s :
  reachable s -> touchTimer s = 2 ->
  (forall k b, buttons s !! k = Some b ->
               ButtonTouched (touch_at x y s) b = false) ->
  exists s',
    TIMER1_OVF (Some (x, y)) s = Ok s'
    /\ touchTimer s' = 3 /\ touchedButton s' = touchedButton s
    /\ touchX s' = to_int (to_U16 x) /\ touchY s' = to_int (to_U16 y).
Proof.
  intros Hs Ht Hnone.
  destruct (reachable_button_invariant s Hs) as [Hg _].
  pose proof (buttons_as_booted_length s Hg) as Hlen.
  pose proof (inv_geometry s (reachable_slider_invariant s Hs)) as Hgs.
  assert (length (sliders s) = Z.to_nat NUM_SLIDERS) as Hlens.
  { apply (f_equal length) in Hgs. now rewrite length_fmap in Hgs. }
  unfold TIMER1_OVF, HandleTouchDown. rewrite Ht.
  change (to_short (2 + 1)) with 3. cbv zeta.
  cbn [touchTimer with_touchX with_touchY with_touchTimer].
  change (3 =? 3) with true. cbv iota.
  set (s0 := with_touchY _ _).
  assert (forall b', ButtonTouched s0 b' = ButtonTouched (touch_at x y s) b')
    as Hsame by reflexivity.
  destruct (arm_loop_last_wins "buttons" buttons ButtonTouched
              with_touchedButton touchedButton
              (fun _ _ => eq_refl) (fun _ _ _ => eq_refl)
              (fun _ _ => eq_refl) s0)
    as (s1 & Hs1 & _ & _ & _ & Hnone1).
  change (arm_if_touched "buttons" buttons ButtonTouched with_touchedButton)
    with arm_button in Hs1.
  change (buttons s0) with (buttons s) in Hs1, Hnone1.
  rewrite Hlen in Hs1.
  change (Z.of_nat (Z.to_nat NUM_BUTTONS)) with NUM_BUTTONS in Hs1.
  rewrite Hs1. cbn [mbind res_bind].
  pose (obs1 := fun s => (sliders s, touchTimer s, touchX s, touchY s)).
  pose proof Hs1 as Hf1. unfold for_each in Hf1.
  apply (for_loop_obs obs1 _ (arm_button_obs obs1 (fun _ _ => eq_refl)))
    in Hf1.
  unfold obs1 in Hf1. cbn in Hf1. injection Hf1 as Hsl1 Ht1 Hx1 Hy1.
  destruct (arm_loop_last_wins "sliders" sliders SliderTouched
              with_touchedSlider touchedSlider
              (fun _ _ => eq_refl) (fun _ _ _ => eq_refl)
              (fun _ _ => eq_refl) s1)
    as (s2 & Hs2 & _).
  change (arm_if_touched "sliders" sliders SliderTouched with_touchedSlider)
    with arm_slider in Hs2.
  rewrite Hsl1, Hlens in Hs2.
  change (Z.of_nat (Z.to_nat NUM_SLIDERS)) with NUM_SLIDERS in Hs2.
  exists s2. split; [exact Hs2|].
  pose (obs2 := fun s => (touchedButton s, touchTimer s, touchX s, touchY s)).
  unfold for_each in Hs2.
  apply (for_loop_obs obs2 _ (arm_slider_obs obs2 (fun _ _ => eq_refl)))
    in Hs2.
  unfold obs2 in Hs2. injection Hs2 as -> -> -> ->.
  rewrite Ht1, Hx1, Hy1.
  split; [reflexivity|]. split; [|split; reflexivity].
  rewrite Hnone1; [reflexivity|].
  intros k b Hk. rewrite Hsame. now apply (Hnone k).
Qed.

(** X14: a touch beside the buttons.  From a reachable state with no touch
    in progress and no button armed, a finger that is on no button at the
    third poll, whatever it does at the other polls, makes the release
    evaluate ButtonTouched(&buttons[touchedButton]) with touchedButton still
    -1: the run ends in an access before the start of the array. *)
Theorem press_beside_every_button_faults p1 p2 p3 rest s :
  reachable s -> touchTimer s = 0 -> touchedButton s = NONE ->
  Z.of_nat (length rest) <= 32764 ->
  (forall k b, buttons s !! k = Some b ->
               ButtonTouched (touch_at p3.1 p3.2 s) b = false) ->
  poll (map Some (p1 :: p2 :: p3 :: rest) ++ [None]) s
  = Fault (OutOfBounds "buttons" NONE).
Proof.
  intros Hs Ht Ha Hlen Hnone.
  destruct p1 as [x1 y1], p2 as [x2 y2], p3 as [x3 y3].
  cbn [fst snd] in Hnone. cbn [map app poll].
  destruct (settling_step x1 y1 s Hs ltac:(lia))
    as (s1 & -> & Hs1 & Ht1 & Hb1 & Hp1 & Hc1 & Ha1).
  cbn [mbind res_bind].
  destruct (settling_step x2 y2 s1 Hs1 ltac:(lia))
    as (s2 & -> & Hs2 & Ht2 & Hb2 & Hp2 & Hc2 & Ha2).
  cbn [mbind res_bind].
  assert (forall k b, buttons s2 !! k = Some b ->
                      ButtonTouched (touch_at x3 y3 s2) b = false) as Hnone2.
  { intros k b Hk. rewrite Hb2, Hb1 in Hk. rewrite <- (Hnone k b Hk).
    apply ButtonTouched_ext; [reflexivity..|].
    change (currentPage s2 = currentPage s). congruence. }
  destruct (arming_poll_none x3 y3 s2 Hs2 ltac:(lia) Hnone2)
    as (s3 & H3 & Ht3 & Ha3 & Hx3 & Hy3).
  rewrite H3. cbn [mbind res_bind].
  assert (reachable s3) as Hs3.
  { apply reachable_step with (s := s2) (e := Timer1 (Some (x3, y3)));
      [exact Hs2|]. cbn [step]. now rewrite H3. }
  destruct (held_polls rest s3 (x3, y3) Hs3 ltac:(lia) ltac:(lia) Hx3 Hy3)
    as (s4 & H4 & Hs4 & Ht4 & _ & _ & _ & _ & Ha4).
  rewrite poll_app, H4. cbn [mbind res_bind poll].
  assert (touchedButton s4 = NONE) as Hunarmed by congruence.
  unfold TIMER1_OVF. destruct (Z.gtb_spec (touchTimer s4) 0); [|lia].
  rewrite HandleTouchUp_unarmed by lia. rewrite Hunarmed. reflexivity.
Qed.

Lemma press_beside_every_button_faults_witness :
  poll [Some (260, 40); Some (200, 100); Some (200, 64); Some (140, 40); None]
    booted
  = Fault (OutOfBounds "buttons" NONE).
Proof.
  apply (press_beside_every_button_faults (260, 40) (200, 100) (200, 64)
           [(140, 40)] booted reachable_booted);
    [reflexivity|reflexivity|cbn; lia|].
  intros k b Hk.
  do 13 (destruct k as [|k];
         [apply Some_inj in Hk; subst b; vm_compute; reflexivity|]).
  discriminate Hk.
Defined.

(** ** A slider, had it been initialised *)

Lemma render_slider_draws n s sl :
  0 <= n -> sliders s !! Z.to_nat n = Some sl ->
  slider_is_redrawn s sl = true ->
  exists d,
    length d = 4%nat
    /\ render_slider n s
       = Ok (with_sliders
               (<[Z.to_nat n := Slider.with_oldValue (Slider.value sl) sl]>
                  (sliders s))
               (with_display (display s ++ d) s)).
Proof.
  intros Hn Hsl Hr. unfold render_slider.
  assert (load "sliders" (sliders s) n = Ok sl) as Hload
    by (apply load_Ok; auto).
  rewrite Hload. cbn [mbind res_bind]. cbv zeta.
  fold (slider_is_redrawn s sl). rewrite Hr.
  unfold store_slider, store, draw. cbn [sliders display with_display].
  rewrite Hload. cbn [mbind res_bind].
  eexists [_; _; _; _]. split; [reflexivity|].
  rewrite <- !app_assoc. cbn [app]. destruct s; reflexivity.
Qed.

Lemma render_slider_quiet n s sl :
  0 <= n -> sliders s !! Z.to_nat n = Some sl ->
  slider_is_redrawn s sl = false -> render_slider n s = Ok s.
Proof.
  intros Hn Hsl Hr. unfold render_slider.
  assert (load "sliders" (sliders s) n = Ok sl) as ->
    by (apply load_Ok; auto).
  cbn [mbind res_bind]. fold (slider_is_redrawn s sl). now rewrite Hr.
Qed.

(** X15: InitialiseSlider, which the firmware declares and never calls,
    sets oldValue to -1, a value no percentage takes.  Had a slider of the
    current page been initialised with it, its first render would draw it,
    with four boxes, and record the value as drawn; a second render would
    then draw nothing. *)
Theorem initialised_slider_is_drawn_once slider x y width colour value page
    s s1 :
  InitialiseSlider slider x y width colour value page s = Ok s1 ->
  to_U8 page = currentPage s -> to_S8 value <> -1 ->
  exists s2,
    render_slider (to_U8 slider) s1 = Ok s2
    /\ length (display s2) = (length (display s) + 4)%nat
    /\ sliders s2 !! Z.to_nat (to_U8 slider)
       = Some (Slider.mk (to_U16 x) (to_U16 y) (to_U16 width) (to_U16 colour)
                 (to_S8 value) (to_S8 value) (to_U8 page))
    /\ render_slider (to_U8 slider) s2 = Ok s2.
Proof.
  unfold InitialiseSlider. intros H Hp Hv.
  apply store_slider_Ok in H as (sl0 & Hn & Hsl0 & ->).
  set (sl := Slider.mk _ _ _ _ _ _ _).
  pose proof (lookup_lt_Some _ _ _ Hsl0) as Hlt.
  assert (slider_is_redrawn
            (with_sliders (<[Z.to_nat (to_U8 slider) := sl]> (sliders s)) s)
            sl = true) as Hr.
  { unfold slider_is_redrawn. subst sl.
    cbn [Slider.page Slider.oldValue Slider.value currentPage with_sliders].
    rewrite Hp, Z.eqb_refl. cbn [andb].
    destruct (Z.eqb_spec (-1) (to_S8 value)); [congruence|reflexivity]. }
  assert (sliders
            (with_sliders (<[Z.to_nat (to_U8 slider) := sl]> (sliders s)) s)
          !! Z.to_nat (to_U8 slider) = Some sl) as Hsl
    by (cbn [sliders with_sliders]; now apply list_lookup_insert_eq).
  destruct (render_slider_draws (to_U8 slider) _ sl Hn Hsl Hr)
    as (d & Hd & Hrender).
  eexists. split; [exact Hrender|].
  cbn [display sliders with_sliders with_display].
  split; [rewrite length_app, Hd; reflexivity|].
  rewrite list_insert_insert_eq.
  split; [apply list_lookup_insert_eq; exact Hlt|].
  apply render_slider_quiet with (sl := Slider.with_oldValue (Slider.value sl) sl);
    [exact Hn| |].
  - cbn [sliders with_sliders]. rewrite ?list_insert_insert_eq.
    apply list_lookup_insert_eq; exact Hlt.
  - unfold slider_is_redrawn.
    cbn [Slider.page Slider.oldValue Slider.value Slider.with_oldValue].
    rewrite Z.eqb_refl. apply andb_false_r.
Qed.

Lemma initialised_slider_is_drawn_once_witness :
  exists s1 s2,
    InitialiseSlider FRONT_SERVO 160 100 40 BLUE 50 MAIN_PAGE booted = Ok s1
    /\ render_slider FRONT_SERVO s1 = Ok s2
    /\ length (display s2) = 4%nat
    /\ render_slider FRONT_SERVO s2 = Ok s2.
Proof.
  destruct (InitialiseSlider FRONT_SERVO 160 100 40 BLUE 50 MAIN_PAGE booted)
    as [s1|f] eqn:H1; [|vm_compute in H1; discriminate H1].
  assert (to_U8 MAIN_PAGE = currentPage booted) as Hp by reflexivity.
  assert (to_S8 50 <> -1) as Hv by (vm_compute; discriminate).
  destruct (initialised_slider_is_drawn_once _ _ _ _ _ _ _ _ _ H1 Hp Hv)
    as (s2 & Hr & Hl & _ & Hq).
  exists s1, s2. split; [reflexivity|]. split; [exact Hr|].
  split; [exact Hl|exact Hq].
Defined.

(** ** The main loop does not fault *)

Lemma store_button_total i f s :
  0 <= i < Z.of_nat (length (buttons s)) ->
  exists s', store_button i f s = Ok s'
             /\ length (buttons s') = length (buttons s).
Proof.
  intros Hi.
  destruct (lookup_lt_is_Some_2 (buttons s) (Z.to_nat i) ltac:(lia))
    as [b Hb].
  unfold store_button, store.
  assert (load "buttons" (buttons s) i = Ok b) as ->
    by (apply load_Ok; split; [lia|exact Hb]).
  cbn [mbind res_bind]. eexists. split; [reflexivity|].
  cbn [buttons with_buttons]. apply length_insert.
Qed.

Lemma SelectButton_total newButton oldButton otherOldButton s :
  length (buttons s) = Z.to_nat NUM_BUTTONS ->
  0 <= newButton < NUM_BUTTONS -> 0 <= oldButton < NUM_BUTTONS ->
  -1 <= otherOldButton < NUM_BUTTONS ->
  exists s', SelectButton newButton oldButton otherOldButton s = Ok s'.
Proof.
  unfold NUM_BUTTONS. intros Hlen Hn Ho Ho'. unfold SelectButton.
  destruct (store_button_total newButton (Button.with_selected true) s
              ltac:(lia)) as (s1 & -> & Hl1).
  cbn [mbind res_bind].
  destruct (store_button_total newButton (Button.with_needsRedraw true) s1
              ltac:(lia)) as (s2 & -> & Hl2).
  cbn [mbind res_bind].
  destruct (store_button_total oldButton (Button.with_selected false) s2
              ltac:(lia)) as (s3 & -> & Hl3).
  cbn [mbind res_bind].
  destruct (store_button_total oldButton (Button.with_needsRedraw true) s3
              ltac:(lia)) as (s4 & -> & Hl4).
  cbn [mbind res_bind].
  destruct (Z.eqb_spec otherOldButton (-1)); cbn [negb]; [eauto|].
  destruct (store_button_total otherOldButton (Button.with_selected false) s4
              ltac:(lia)) as (s5 & -> & Hl5).
  cbn [mbind res_bind].
  destruct (store_button_total otherOldButton (Button.with_needsRedraw true)
              s5 ltac:(lia)) as (s6 & -> & Hl6).
  eauto.
Qed.

Lemma dispatch_total s :
  length (buttons s) = Z.to_nat NUM_BUTTONS -> exists s', dispatch s = Ok s'.
Proof.
  intros Hlen.
  destruct (decide (0 <= buttonPressed s < NUM_BUTTONS)) as [Hp|Hp];
    [|rewrite dispatch_other by exact Hp; eauto].
  unfold NUM_BUTTONS in Hp.
  assert (buttonPressed s = 0 \/ buttonPressed s = 1 \/ buttonPressed s = 2
          \/ buttonPressed s = 3 \/ buttonPressed s = 4 \/ buttonPressed s = 5
          \/ buttonPressed s = 6 \/ buttonPressed s = 7 \/ buttonPressed s = 8
          \/ buttonPressed s = 9 \/ buttonPressed s = 10
          \/ buttonPressed s = 11 \/ buttonPressed s = 12) as Hcases by lia.
  clear Hp. unfold dispatch.
  repeat destruct Hcases as [Hc|Hcases]; try rewrite Hc; try rewrite Hcases;
    match goal with
    | |- exists _, (SelectButton ?n ?o ?o' ?s0 ≫= _) = _ =>
        destruct (SelectButton_total n o o' s0 Hlen)
          as [s1 ->]; [unfold NUM_BUTTONS; lia..|]
    end;
    cbn [mbind res_bind]; eauto.
Qed.

Lemma render_total s :
  (Z.to_nat NUM_BUTTONS <= length (buttons s))%nat ->
  (Z.to_nat NUM_SLIDERS <= length (sliders s))%nat ->
  exists s', render s = Ok s'.
Proof.
  intros Hb Hsl. unfold render. cbv zeta.
  set (s0 := if currentPage s =? MAIN_PAGE then RenderMainPage s else s).
  assert (exists d0, s0 = with_display (display s ++ d0) s) as [d0 Hs0].
  { subst s0. destruct (currentPage s =? MAIN_PAGE).
    - apply RenderMainPage_appends.
    - apply appends_refl. }
  clearbody s0.
  destruct (RenderButtons_total s0 ltac:(rewrite Hs0; exact Hb))
    as [s1 H1].
  rewrite H1. cbn [mbind res_bind].
  apply RenderButtons_eq in H1 as (d1 & Hs1 & _).
  destruct (RenderSliders_total s1) as [s2 ->]; [|cbn [mbind res_bind]; eauto].
  rewrite Hs1, Hs0. exact Hsl.
Qed.

(** X16: the main loop does not fault.  From every state the firmware can
    reach, a whole pass of the main loop (dispatch of a press, receive,
    10 Hz loop, render) runs to its end, whatever byte is received and
    whatever the converter reads, and ends in a reachable state: every
    array access of the pass is within bounds.  Only the touch interrupt
    can end the run. *)
Theorem main_loop_never_faults rx adcs s :
  reachable s ->
  exists s', main_pass rx adcs s = Ok s' /\ reachable s'.
Proof.
  intros Hs.
  assert (exists s', main_pass rx adcs s = Ok s') as [s' H];
    [|exists s'; split; [exact H|exact (reachable_main_pass _ _ _ _ Hs H)]].
  unfold main_pass.
  pose proof (buttons_as_booted_length s
                (inv_button_geometry s (reachable_button_invariant s Hs)))
    as Hlen.
  destruct (dispatch_total s Hlen) as [s1 H1]. rewrite H1.
  cbn [mbind res_bind]. cbv zeta.
  assert (reachable (ten_hz_loop adcs 0 (receive_status rx s1))) as Hs2.
  { apply reachable_ten_hz_iter.
    apply reachable_step with (e := Receive rx) (s := s1); [|reflexivity].
    apply reachable_step with (e := Dispatch) (s := s); [exact Hs|].
    cbn [step]. now rewrite H1. }
  apply render_total.
  - rewrite (buttons_as_booted_length _
               (inv_button_geometry _ (reachable_button_invariant _ Hs2))).
    lia.
  - rewrite (reachable_zero_sliders _ Hs2). cbn. unfold NUM_SLIDERS. lia.
Qed.

Lemma main_loop_never_faults_witness :
  exists s',
    main_pass (Some 80) (fun _ _ => 600) wiggle_pressed = Ok s'
    /\ reachable s'.
Proof.
  apply main_loop_never_faults.
  apply (reachable_poll
           [Some (260, 40); Some (260, 40); Some (260, 40); Some (260, 40);
            Some (260, 40); None] booted);
    [exact reachable_booted|vm_compute; reflexivity].
Defined.
